(* ===== verification/_CoqProject ===== *)
-Q . S2P
Prelude.v
Types.v
StopWatch.v
Context.v
Stats.v
Monitor.v
Worker.v
Timer.v
Report.v
Benchmark.v
Startup.v
Diagnostics.v
DiagRace.v
Probe.v
Config.v
Request.v
RateLimit.v
Printing.v
GoFloat.v
Render.v
Campaign.v
