(* ===== verification/Prelude.v ===== *)
(** * A verification development for gohttpbench (package [gb])

    gohttpbench is an HTTP load generator.  Its Go sources under [src/]
    are modelled here as a shallow embedding: every Go function that the
    load campaign runs becomes a Rocq function over explicit state, every
    channel [select] becomes an explicit choice among events, and every Go
    runtime panic (integer division by zero, a failed type assertion,
    closing a closed channel, a negative [sync.WaitGroup] counter) becomes
    the [Panic] constructor of the result type [go] defined below.

    ** The program and how its parts interact

    - [src/config.go]: [Config] and the validation of the command line
      ([LoadConfig]).  The parsed flags are the input of every component.
    - [src/context.go]: [Context], shared by all goroutines: two
      [sync.WaitGroup]s forming the startup barrier ([start] counts the
      [concurrency] workers plus the dispatcher, [startRun] releases the
      workers), the [stop] channel closed once at shutdown, and a string
      keyed store written by the pre-flight probe [DetectHost].
    - [src/benchmark.go]: the dispatcher [Benchmark.Run] / [RunCustom],
      which starts the workers, fills the [jobs] channel and closes it;
      the [Record] type sent from workers to the monitor.
    - [src/http.go]: the worker [HTTPWorker.Run] (one per concurrency
      level), which for each job takes a rate-limit token, resets its
      timer, starts [send] and selects among the result, the timer and the
      stop channel; [send] with its three-attempt retry loop, the status
      and body classification and the recovered panics; [Discard.ReadFrom],
      which drains a body through a bounded scratch buffer; the typed
      errors; the token-bucket pacing [TakeRatelimitToken]; the request
      every job clones ([NewHTTPRequest], [CopyHTTPRequest]) and the
      client's transport ([NewClient]).
    - [src/monitor.go]: the monitor [Monitor.Run], single consumer of the
      [Collector] channel, which applies the termination policy and folds
      each [Record] into [Stats] with [updateStats].
    - [src/report.go]: [PrintReport], which reads the probe facts, the
      configuration and [Stats], and the reducers over the collected
      latencies (mean, [stdDev], sorted percentiles) it prints.
    - [src/common.go]: [StopWatch] and the diagnostics sink
      [TraceException].

    Data flow: dispatcher -> [jobs] -> workers -> [Collector] -> monitor
    -> [close(stop)] -> workers exit -> report.

    ** Files of the development (in dependency order)

    - [Prelude]: this header; the result type [go] with stdpp's monad
      classes; Go's 64-bit integers as [Z] with explicit wrap-around
      ([wrap64], [i64_add]); Go's truncating division ([go_quot]); the
      tactic [zcase] and the hint databases [gb] and [gb_rw].
    - [Types]: the data shared by all components: [Config] (the fields of
      [src/config.go] that the campaign reads), the typed errors of
      [src/http.go] and [Record] of [src/benchmark.go]; [go_nth] is Go's
      bounds-checked slice index.
    - [StopWatch]: [StopWatch] of [src/common.go] with Go's [Time.Sub]
      on monotonic readings ([subMono], saturating); the monitor times
      the campaign with it and each [send] goroutine its request.
    - [Context]: the WaitGroups, the stop channel and the probe store of
      [src/context.go], each method one atomic operation.
    - [Stats]: [Stats] and [updateStats] of [src/monitor.go]; the
      accounting invariant [stats_wf] and its preservation, the
      per-category classification, the fold over a sequence of records,
      and the typing invariant [stats_typed] (every field an [int64]).
    - [Monitor]: the loop of [Monitor.Run] as a function over the sequence
      of events its [select] observes (a record, the time limit, the
      interrupt); termination policy, progress reporting and its division;
      [NewMonitor]; [monitor_run] times the loop with a [StopWatch].
    - [Worker]: [send] (retry loop, classification, recovered panics of
      [client.Do] and of a strategy's [HandleResult], an [error] value
      kept as the record's error and any other value wrapped;
      [send_timed] adds the clock: attempt durations, the one-second
      sleep before giving up, the body read),
      [Discard.ReadFrom], [NewHTTPWorker]'s buffer sizing and the loop of
      [HTTPWorker.Run] (skip-first, timeouts, stop).
    - [Timer]: the worker's [time.Timer] (Go before 1.23: [Reset] keeps
      a value already in [timer.C]) and the loop of [HTTPWorker.Run] over
      jobs with explicit idle times and latencies, producing the select
      outcomes [Worker.worker_loop] consumes.
    - [Report]: the latency block of [PrintReport] ([latency_report]:
      [stdDev], the sort, mean, min, median, max, percentiles).
    - [Benchmark]: [NewBenchmark], the jobs of [Benchmark.Run] and
      [Benchmark.RunCustom] (the [CustomRequest] interface of
      [src/http.go] is a [Class]), buffered channels ([Chan]: queue,
      capacity, closed flag; a full channel blocks, a closed one panics,
      and [make] panics on a negative capacity or on a buffer past the
      runtime's allocation bound) and the dispatcher's fill of [jobs].
    - [Startup]: the startup barrier as a step relation [step] over the
      goroutines of a campaign (each worker's phase, the dispatcher, the
      monitor, the two WaitGroup counters, the [jobs] channel), for
      [Run] and for [RunCustom], in any interleaving.
    - [Diagnostics]: [TraceException] and [ReportAll] of [src/common.go]
      over the explicit state [Diag] (the package variables [errorCount]
      and [cancelCnt]); [trace_all] is the sequence of calls the workers
      make.
    - [DiagRace]: the same calls made by concurrent goroutines: each
      call a thread whose statements read and write [errorCount] and
      [cancelCnt] one access at a time ([call_step]), the goroutines
      stepped in the order a schedule gives ([run_schedule]).
    - [Probe]: the pre-flight probe [DetectHost] of [src/http.go] (its
      request an oracle [ProbeOutcome]), [strconv.Atoi] with its fast
      path and [ParseInt], and a response body as an [io.Reader]
      ([body_reads]) read through a worker's buffer; [FormatInt], how
      the server side writes [Content-Length], to state the round trip.
    - [Config]: [LoadConfig] of [src/config.go] from the parsed flags on
      (help, URL checks, proxy, method, time-limit count, host and port,
      validation), with [url.Parse] and [ioutil.ReadFile] as parameters;
      the URL test [regexp.MatchString(`http.*?://.*`, ...)] as a search
      in which [.] matches any byte but a newline ([is_url]);
      [extractHostAndPort] with [strings.LastIndex].
    - [RateLimit]: [SetRatelimit] and [TakeRatelimitToken] of
      [src/http.go] over the package variables [freq] and [bucket], with
      the external [tb.Bucket] as the class [TokenBucket].
    - [Request]: [NewHTTPRequest], [CopyHTTPRequest] and [NewClient] of
      [src/http.go]: the request as a record (method, URL, body, an
      [http.Header] as a [gmap] with [net/textproto]'s key
      canonicalisation, cookies, basic auth), [strings.Split] with the
      bounds-checked [pair[0]], [pair[1]], and the transport settings;
      the [HTTPWorker] struct and [NewHTTPWorker].
    - [Printing]: [PrintReport] as the sequence of its writes into the
      buffer ([ReportLine], one per [Fprint]/[Fprintf]/[Fprintln] with
      the values it formats); [float64] quotients as exact rationals
      with the IEEE results of a division by zero ([F64]); the banner of
      [PrintHeader].
    - [GoFloat]: Go's [float64] as Rocq's primitive binary64
      ([PrimFloat.float], IEEE 754 with rounding to nearest, ties to
      even, as Go's): integer conversion, [Duration.Seconds], [div] and
      [stdDev] of [src/report.go] in [float64], and [fmt]'s [%.Nf]
      ([fmt_f]: [strconv]'s exact decimal rounding with [fmt]'s sign,
      [+Inf], [-Inf] and [NaN]).
    - [Render]: the text [PrintReport] writes ([report_writes], one
      string per call, [%d] as [FormatInt], [%.Nf] as [fmt_f] of the
      [float64] the code computes) and prints ([report_output]), and the
      rendering [render_line] of the lines of [Printing].
    - [Campaign]: the composition of [Monitor.Run] (with its stop watch)
      and [PrintReport], the reporting consumer of the spec, as lines
      ([campaign_report]) and as printed text ([campaign_output]); [RunCustom]
      over the real workers and requests ([RunCustom_setup]).

    ** What the theorems show (one group per file)

    Stats: the invariant total = success + failed, failed = sum of the
    categories, the latency list has one entry per success and sums to
    [totalResponseTime] (modulo 2^64); each record lands in exactly one
    category, and a timeout record lands in [errException]; after any
    campaign of well-typed records every field is an [int64].
    Monitor: a campaign of successes stops exactly at the requested count,
    fail-fast stops at the first error, the progress modulo never divides
    by zero, the count never exceeds the request count; [Run] closes
    [stop] once and records the stop watch's reading, which is the
    difference of the clock readings clamped to [int64] (never wrapped).
    Worker: the retry loop makes at most three attempts and succeeds when
    one of them does, the classification of status and body errors, a
    panic of [HandleResult] recorded as its [error] value or as an
    [ExceptionError], the
    byte count of [ReadFrom], one record per job except a skipped first
    completion, no record after stop.
    Context: the store round trips, [GetInt] panics on a missing key.
    Benchmark: [RunCustom] sizes [jobs] so that every job is buffered
    without blocking, in the order of the strategy's indices.
    Startup: an invariant of every reachable state (proved by induction
    on [steps]) ties the [start] counter to the workers that have not
    reported and the dispatcher's share; hence every worker that runs
    does so after all workers and the dispatcher reported ready and the
    monitor released [startRun]; with [Benchmark.Run], which never
    reports, the barrier never opens (a deadlock); with [RunCustom] an
    interleaving exists in which all workers and the monitor pass it.
    Diagnostics: [errorCount] counts every call; a repeated message is
    printed on its first two calls only; one cancellation message is
    printed per run.
    DiagRace: the schedule that runs the calls one after the other
    computes [trace_all]; interleaved schedules lose counts (two reads
    before either write, or two [make]s of the nil map at start) and
    print a second transport cancellation; under every schedule the
    count of a message stays between 0 and its count before plus its
    number of calls, by an invariant ([count_inv]) that every step of
    every goroutine keeps.
    Timer: while each job is dequeued before the previous deadline,
    every job gets the full [executionTimeout]; a worker idle past it
    times its next job out at once (a stale timer value).
    Probe: [Atoi]'s fast path equals [ParseInt]; [Atoi] reads back every
    [int64] [FormatInt] writes, so a [Content-Length] of [n] is recorded
    as [n]; a probe that gets a
    response sizes every worker's buffer as [min(size, 8192)]; a failed
    probe makes every [NewHTTPWorker] panic; a recorded size of 0 makes
    [Discard.ReadFrom] spin forever on any non-empty body, while a
    non-empty buffer drains a body in [ceil(rem/len) + 1] reads.
    Config: an accepted configuration is a valid load plan (requests,
    concurrency, time limit, timeout, [GoMaxProcs], [Verbosity]); its
    request count is raised to [MaxRequests] under a time limit when it
    is 1; its channels can be made while their buffers fit the runtime's
    allocation bound; [-n] has no upper bound, and above about 3.5e13
    requests [NewBenchmark]'s [make] panics before any request is sent;
    [extractHostAndPort] splits at the last [':'].
    RateLimit: the interval [freq] is the largest with
    [freq * rate <= 1e9] (zero above 1e9 requests per second, a panic at
    rate 0); under a refill law of the bucket the token loop returns
    after at most two sleeps.
    Report: percentile indices are in range, the 100th percentile is the
    maximum, the mean divides by the success count; a sample of equal
    latencies gives that latency as min, mean, median, max and every
    percentile, with a deviation of zero.
    Printing: with the probe facts set, [PrintReport] never panics and
    its failure lines agree with the accounting (the breakdown adds up
    to the failure count, ["Non-2xx"] exactly when a status was bad);
    requests per second and time per request are reciprocal, and a zero
    elapsed time prints [+Inf].
    GoFloat: a positive [int64] over a float zero is [+Inf]; [%.Nf]
    prints the decimal nearest to the float at [N] places, ties to even.
    Render: the text of the report is the rendering of the lines of
    [Printing], line by line and panic for panic (both levels are
    written from the same [Fprintf] calls); with no elapsed time the
    report reads [0.000000] seconds, [+Inf] requests per second, and a transfer
    rate of [NaN] below 1024 received bytes and [+Inf] from there on.
    Request: [strings.Split] and [pair[0]], [pair[1]] round-trip a key
    and a value without the separator, cut a value that contains it, and
    panic on a [-H] value without [':']; after a probe whose
    [Content-Length] was written for [n] bytes every [NewHTTPWorker] is
    built with a buffer of [min(n, 8192)] bytes.
    Worker (timing): a request that fails to connect reports its three
    attempts plus one second of sleep; a first-attempt response reports
    the attempt plus the body read.
    Campaign: once [jobs] can be made, [RunCustom] builds [concurrency]
    workers sized by the
    probe and queues exactly the jobs of the dispatcher model of
    [Benchmark]; a malformed [-H] makes it panic before any job is
    queued.  [N] requests that all succeed in [d] give a report with
    [N] complete and successful requests, no failure, the stop watch's
    time and [d] ms as min, mean, median, max and every percentile, with
    a deviation of zero (the spec's end-to-end scenario, for any size),
    and the text the report prints says so, the deviation computed in
    [float64] and printed as [0.00].

    ** Bounds, fuel and what is not modelled

    Loops over channels are modelled by structural recursion over the
    finite sequence of events a run observes, so no fuel is needed there;
    the retry loop is bounded by its counter (3).  The token loop of
    [TakeRatelimitToken] may spin forever on an empty bucket, so it runs
    with fuel; two iterations suffice under the refill law (one [Take]
    before any sleep, one after).  A body reader is an infinite process
    given for a number of [Read] calls: [ceil(rem/len) + 1] calls drain
    a body, and no number of calls does with an empty buffer.  [Discard.ReadFrom] runs
    over the finite sequence of results its reader returns.  Durations
    and byte counts are [int64] and their sums wrap modulo 2^64
    ([i64_add]); the counters of [Stats] are Go [int]s that grow by one
    per record and stay below the request count, so they are kept as [Z].
    [FormatInt] writes at most 20 digits, enough for [|n| <= 2^63].
    [fmt_f] writes the integer part with [Z.log2 n + 1] steps of fuel,
    more than its decimal digits.  The [float64] values are Rocq's
    primitive floats: they compute, and the lemmas about them rest on
    the specifications [FloatAxioms] gives of the primitive operations
    (the axioms of Rocq's own float library).  [math.Pow(x, 2)] is
    [x * x], which it equals for the integer-valued deviations [stdDev]
    squares; [math.Sqrt] is the correctly rounded [PrimFloat.sqrt].
    [make(chan *T, n)] follows [runtime.makechan] on 64-bit Linux:
    [maxAlloc = 2^48], a channel header of 96 bytes (Go up to 1.22, as
    for the timer), 8 bytes per pointer element.
    The models of Go's standard library that the claims need ([strconv]'s
    [Atoi], [ParseInt] and [FormatInt], [fmt]'s [%.Nf], [Duration.Seconds],
    [math.Pow]) translate the library, not [src/], and the manifest's map
    leaves them out.
    Not modelled: the HTTP transport itself ([client.Do] is an oracle
    giving the outcome of each attempt), the clock (latencies and the
    readings of [time.Now] and the durations of attempts are inputs),
    URL parsing ([url.Parse] and [RequestURI] are parameters), the flag
    parsing of [github.com/maximmartynov/flag] (a fork whose source is
    not in the repository; its result is the record [Flags], and the
    [stringSet] methods it calls are modelled), the [tb] library's timing (an
    interface with a refill law), the stack walk of [TraceException],
    the Go memory model beyond sequentially consistent interleavings
    (and the runtime's detection of concurrent map writes),
    and the program's [main], which is not under [src/] ([Campaign]
    composes the parts it connects as the spec describes).  Go's [int] is 64-bit: counters that can
    overflow ([concurrency*GoMaxProcs], [requests + concurrency],
    [concurrency * 2]) wrap with [wrap64]. *)

From stdpp Require Export base list gmap strings pretty.
From Stdlib Require Export ZArith Lia Sorted.

Declare Scope gb_scope.
Delimit Scope gb_scope with gb.
Open Scope Z_scope.

Create HintDb gb.
Create Rewrite HintDb gb_rw.

(** ** Go results: a value or a runtime panic *)

Inductive go (A : Type) : Type :=
| Ok (a : A)
| Panic (msg : string).
Arguments Ok {A} a.
Arguments Panic {A} msg.

(** Sequencing: a panic propagates (no [recover] in between). *)
Definition go_then {A B} (m : go A) (f : A -> go B) : go B :=
  match m with Ok a => f a | Panic s => Panic s end.

Notation "'let!' x := m 'in' k" := (go_then m (fun x => k))
  (at level 10, x name, m at level 100, k at level 200) : gb_scope.

#[export] Instance go_ret : MRet go := @Ok.
#[export] Instance go_bind : MBind go := fun A B f m => go_then m f.

Definition is_ok {A} (m : go A) : bool :=
  match m with Ok _ => true | Panic _ => false end.

(** ** Go's [int64] and [int] (64 bits on the target) *)

Definition int64_min : Z := - 2 ^ 63.
Definition int64_max : Z := 2 ^ 63 - 1.

(** Two's complement wrap-around of a mathematical integer. *)
Definition wrap64 (z : Z) : Z := (z + 2 ^ 63) mod 2 ^ 64 - 2 ^ 63.

Definition in_int64 (z : Z) : Prop := int64_min <= z <= int64_max.

(** [a + b] on [int64] / [time.Duration]. *)
Definition i64_add (a b : Z) : Z := wrap64 (a + b).
Infix "+i64" := i64_add (at level 50, left associativity) : gb_scope.
Open Scope gb_scope.

(** Go's [a / b] on integers: truncates toward zero, panics on zero. *)
Definition go_quot (a b : Z) : go Z :=
  if Z.eqb b 0 then Panic "runtime error: integer divide by zero"
  else Ok (Z.quot a b).

(** Go's [a % b]: the sign of the dividend, panics on zero. *)
Definition go_rem (a b : Z) : go Z :=
  if Z.eqb b 0 then Panic "runtime error: integer divide by zero"
  else Ok (Z.rem a b).

(** [s[i]] on a slice: Go's bounds check and its panic message. *)
Definition go_nth {A} (l : list A) (i : nat) : go A :=
  match l !! i with
  | Some x => Ok x
  | None => Panic ("runtime error: index out of range [" +:+ pretty i +:+
                   "] with length " +:+ pretty (length l))
  end.

Definition sum_Z (l : list Z) : Z := fold_right Z.add 0 l.

(** ** Tactics *)

(** Case on the first boolean comparison of [Z] in the goal. *)
Ltac zcase_once :=
  match goal with
  | |- context [Z.geb ?a ?b] => rewrite (Z.geb_leb a b)
  | |- context [Z.gtb ?a ?b] => rewrite (Z.gtb_ltb a b)
  | H : context [Z.geb ?a ?b] |- _ => rewrite (Z.geb_leb a b) in H
  | H : context [Z.gtb ?a ?b] |- _ => rewrite (Z.gtb_ltb a b) in H
  | |- context [Z.eqb ?a ?b] => destruct (Z.eqb_spec a b)
  | |- context [Z.ltb ?a ?b] => destruct (Z.ltb_spec a b)
  | |- context [Z.leb ?a ?b] => destruct (Z.leb_spec a b)
  | H : context [Z.eqb ?a ?b] |- _ => destruct (Z.eqb_spec a b)
  | H : context [Z.ltb ?a ?b] |- _ => destruct (Z.ltb_spec a b)
  | H : context [Z.leb ?a ?b] |- _ => destruct (Z.leb_spec a b)
  end.
(** [lia] with the quotients and remainders of [Z] turned into
    equations first (needed for [/], [mod], [÷] after stdpp is loaded). *)
Ltac lia_div := Z.to_euclidean_division_equations; lia.

Ltac zcase := repeat (zcase_once; try lia; try congruence; try reflexivity);
  try lia; try congruence; try reflexivity.

(** Case on the equality of two strings, rewriting [String.eqb] in
    the hypotheses and the goal. *)
(** Membership in a report written out as segments: pick the line that
    is syntactically the one sought. *)
Ltac pick_line :=
  first [ match goal with |- ?a = ?a => reflexivity end
        | left; pick_line | right; pick_line ].

Ltac in_report := repeat (first [rewrite in_app_iff | progress cbn [In]]); pick_line.

Ltac str_case s m :=
  let Hne := fresh "Hne" in
  destruct (String.eqb_spec s m) as [<-|Hne];
  [rewrite ?String.eqb_refl in *
  |apply String.eqb_neq in Hne; rewrite ?Hne in *].

(** ** Generic lemmas *)

Lemma wrap64_range z : in_int64 (wrap64 z).
Proof.
  unfold in_int64, wrap64, int64_min, int64_max.
  pose proof (Z.mod_pos_bound (z + 2 ^ 63) (2 ^ 64) ltac:(lia)). lia.
Qed.

Lemma wrap64_id z : in_int64 z -> wrap64 z = z.
Proof.
  unfold in_int64, wrap64, int64_min, int64_max. intros Hz.
  rewrite Z.mod_small by lia. lia.
Qed.

Lemma wrap64_add_l a b : wrap64 (wrap64 a + b) = wrap64 (a + b).
Proof.
  unfold wrap64.
  replace ((a + 2 ^ 63) mod 2 ^ 64 - 2 ^ 63 + b + 2 ^ 63)
    with ((a + 2 ^ 63) mod 2 ^ 64 + b) by lia.
  rewrite Z.add_mod_idemp_l by lia. do 2 f_equal. lia.
Qed.

Lemma sum_Z_app l1 l2 : sum_Z (l1 ++ l2) = sum_Z l1 + sum_Z l2.
Proof. induction l1; simpl; lia. Qed.

Lemma sum_Z_snoc l x : sum_Z (l ++ [x]) = sum_Z l + x.
Proof. rewrite sum_Z_app. simpl. lia. Qed.

Lemma go_quot_ok a b : b <> 0 -> go_quot a b = Ok (Z.quot a b).
Proof. intros Hb. unfold go_quot. zcase. Qed.

Lemma go_rem_ok a b : b <> 0 -> go_rem a b = Ok (Z.rem a b).
Proof. intros Hb. unfold go_rem. zcase. Qed.

(** An [int64] addition that does not overflow is the exact sum. *)
Lemma i64_add_small a b : int64_min <= a + b <= int64_max -> a +i64 b = a + b.
Proof. intros H. apply wrap64_id. exact H. Qed.

#[export] Hint Resolve wrap64_range wrap64_id : gb.
#[export] Hint Rewrite wrap64_add_l sum_Z_app sum_Z_snoc : gb_rw.

(** [mapM] in [go] succeeds when each call does, with the results in
    order. *)
Lemma go_mapM_ok {A B} (f : A -> go B) (l : list A) :
  (forall x, In x l -> exists y, f x = Ok y) ->
  exists ys, mapM f l = Ok ys /\ Forall2 (fun x y => f x = Ok y) l ys.
Proof.
  induction l as [|x l IH]; intros Hf.
  - by exists [].
  - destruct (Hf x) as [y Hy]; [by left|].
    destruct IH as (ys & Hys & Hall); [intros; apply Hf; by right|].
    exists (y :: ys).
    change (mapM f (x :: l)) with (go_then (f x) (fun y => go_then (mapM f l) (fun k => Ok (y :: k)))).
    rewrite Hy. cbn [go_then]. rewrite Hys. cbn [go_then]. split; [done|by constructor].
Qed.

(** [mapM] of a call that gives the same value on every element. *)
Lemma go_mapM_const {A B} (f : A -> go B) (l : list A) (c : B) :
  (forall x, In x l -> f x = Ok c) -> mapM f l = Ok (repeat c (length l)).
Proof.
  induction l as [|x l IH]; intros Hf; [done|].
  change (mapM f (x :: l)) with (go_then (f x) (fun y => go_then (mapM f l) (fun k => Ok (y :: k)))).
  rewrite Hf by (by left). cbn [go_then]. rewrite IH by (intros; apply Hf; by right). done.
Qed.

(** [mapM] of a call that succeeds on every element. *)
Lemma go_mapM_Ok {A B} (g : A -> go B) (f : A -> B) (l : list A) :
  (forall x, In x l -> g x = Ok (f x)) -> mapM g l = Ok (map f l).
Proof.
  induction l as [|x l IH]; intros Hg; [done|].
  change (mapM g (x :: l)) with (go_then (g x) (fun y => go_then (mapM g l) (fun k => Ok (y :: k)))).
  rewrite Hg by (by left). cbn [go_then]. rewrite IH by (intros; apply Hg; by right). done.
Qed.

(** In a list sorted by [<=], every element is at most the last one. *)
Lemma sorted_le_last (l : list Z) (d : Z) :
  Sorted Z.le l -> In d l -> d <= nth (length l - 1) l 0.
Proof.
  intros Hs. apply Sorted_StronglySorted in Hs; [|intros x y z; lia].
  induction Hs as [|x l Hs IH Hx]; intros Hin; [done|].
  destruct l as [|y l].
  - destruct Hin as [->|[]]. simpl. lia.
  - assert (E : nth (length (x :: y :: l) - 1) (x :: y :: l) 0 =
                nth (length (y :: l) - 1) (y :: l) 0)
      by (simpl; by rewrite Nat.sub_0_r).
    rewrite E. destruct Hin as [->|Hin]; [|by apply IH].
    rewrite List.Forall_forall in Hx. apply Hx, nth_In. simpl. lia.
Qed.

Lemma map_zip_with {A B C D} (f : C -> D) (g : A -> B -> C) (l : list A) (k : list B) :
  map f (zip_with g l k) = zip_with (fun x y => f (g x y)) l k.
Proof. revert k; induction l as [|x l IH]; intros [|y k]; simpl; f_equal; auto. Qed.

Lemma sum_list_with_insert {A} (f : A -> nat) (l : list A) (i : nat) (x y : A) :
  l !! i = Some x -> (sum_list_with f (<[i := y]> l) + f x = sum_list_with f l + f y)%nat.
Proof. revert i; induction l as [|a l IH]; intros [|i] Hi; simplify_eq/=; [lia|]. specialize (IH i Hi). lia. Qed.

Lemma sum_list_with_lookup {A} (f : A -> nat) (l : list A) (i : nat) (x : A) :
  l !! i = Some x -> (f x <= sum_list_with f l)%nat.
Proof. revert i; induction l as [|a l IH]; intros [|i] Hi; simplify_eq/=; [lia|]. specialize (IH i Hi). lia. Qed.

Lemma to_nat_pred (n : nat) : Z.to_nat (Z.of_nat n - 1) = (n - 1)%nat.
Proof. lia. Qed.

Lemma nth_last_In (l : list Z) : l <> [] -> In (nth (length l - 1) l 0) l.
Proof. intros Hne. apply nth_In. destruct l; [done|simpl; lia]. Qed.

(** ** Sequences of steps of a transition relation *)

Section Steps.
Context {S : Type}.
Variable R : S -> S -> Prop.

Inductive steps : S -> S -> Prop :=
| steps_refl s : steps s s
| steps_cons s1 s2 s3 : R s1 s2 -> steps s2 s3 -> steps s1 s3.

Lemma steps_one s1 s2 : R s1 s2 -> steps s1 s2.
Proof. intros H. econstructor; [exact H|constructor]. Qed.

Lemma steps_trans s1 s2 s3 : steps s1 s2 -> steps s2 s3 -> steps s1 s3.
Proof. induction 1; intros; [done|]. econstructor; eauto. Qed.

(** An invariant of every step holds along every sequence of steps. *)
Lemma steps_inv (P : S -> Prop) s1 s2 :
  (forall a b, P a -> R a b -> P b) -> P s1 -> steps s1 s2 -> P s2.
Proof. intros Hstep Hp Hs. induction Hs; eauto. Qed.
End Steps.

#[export] Hint Constructors steps : gb.
#[export] Hint Resolve steps_one steps_trans : gb.
