(* ===== verification/Types.v ===== *)
(** * Data shared by the components

    [Config] ([src/config.go]), the package-level settings of
    [src/benchmark.go] ([ContinueOnError], [GoMaxProcs], [Verbosity]),
    the typed errors of [src/http.go] and the [Record] a worker sends to
    the monitor ([src/benchmark.go]).  Durations are nanoseconds in [Z]
    ([time.Duration] is an [int64]). *)

From S2P Require Import Prelude.

(** ** Configuration *)

(** The fields of [Config] that the campaign reads.  [skipFirst] is read
    by [Benchmark.RunCustom] and [HTTPWorker.Run] but is not declared in
    the [Config] struct of [src/config.go]; it is modelled as the field
    those readers expect. *)
Record Config := mkConfig {
  requests : Z;
  concurrency : Z;
  timelimit : Z;
  executionTimeout : Z;
  keepAlive : bool;
  gzip : bool;
  skipFirst : bool
}.

(** Package-level variables of [src/benchmark.go]. *)
Record Globals := mkGlobals {
  Verbosity : Z;
  GoMaxProcs : Z;
  ContinueOnError : bool
}.

Definition Second : Z := 1000000000.
Definition Millisecond : Z := 1000000.
Definition MaxExecutionTimeout : Z := 30 * Second.
Definition MaxRequests : Z := 50000.
Definition MaxBufferSize : Z := 8192.
Definition FieldServerName : string := "ServerName".
Definition FieldContentSize : string := "ContentSize".

(** ** Errors *)

(** The dynamic type of an [error] value.  The six wrappers of
    [src/http.go] each hold an inner error, represented by its message;
    [PlainError] is an error of any other dynamic type (for instance a
    recovered [runtime.Error]). *)
Inductive GoError :=
| LengthError (err : string)
| ConnectError (err : string)
| ReceiveError (err : string)
| ExceptionError (err : string)
| ResponseError (err : string)
| ResponseTimeoutError (err : string)
| PlainError (err : string).

#[export] Instance GoError_eq_dec : EqDecision GoError.
Proof. solve_decision. Defined.

(** The [Error()] method of each wrapper returns the inner message. *)
Definition error_msg (e : GoError) : string :=
  match e with
  | LengthError s | ConnectError s | ReceiveError s | ExceptionError s
  | ResponseError s | ResponseTimeoutError s | PlainError s => s
  end.

(** [ErrInvalidContnetSize] of [src/http.go]. *)
Definition ErrInvalidContnetSize : string := "invalid content size".

(** ** The record a worker sends for one job *)

(** [Record] is a keyword of Rocq, hence the trailing underscore. *)
Record Record_ := mkRecord {
  responseTime : Z;
  contentSize : Z;
  Error : option GoError
}.

Definition is_error (r : Record_) : bool :=
  match Error r with Some _ => true | None => false end.

(** A channel, by identity: the workers of a campaign share one [jobs]
    and one [collector] channel, and [make] gives a fresh one. *)
Definition ChanId := nat.
