(* ===== verification/StopWatch.v ===== *)
(** * The stop watch ([StopWatch] of [src/common.go])

    [Start] and [Stop] read the clock; the readings of [time.Now] are
    inputs (nanoseconds of the monotonic clock, as [int64]).  [Elapsed]
    is Go's [Time.Sub] on two monotonic readings ([subMono]), which
    saturates at the bounds of [time.Duration] instead of wrapping.  The
    monitor times the campaign with it ([totalExecutionTime]) and each
    [send] goroutine times its request ([record.responseTime]). *)

From S2P Require Import Prelude.

(** [Time.Sub] on two readings of the monotonic clock (Go's [subMono]):
    the [int64] difference, saturated at the bounds of [time.Duration]
    when the subtraction overflows. *)
Definition subMono (t u : Z) : Z :=
  let d := wrap64 (t - u) in
  if (d <? 0) && (u <? t) then int64_max
  else if (0 <? d) && (t <? u) then int64_min
  else d.

Record StopWatch := mkStopWatch { sw_start : Z; Elapsed : Z }.

(** [s.start = time.Now()], the clock reading [now]. *)
Definition sw_Start (now : Z) (s : StopWatch) : StopWatch := mkStopWatch now (Elapsed s).

(** [s.Elapsed = time.Now().Sub(s.start)]. *)
Definition sw_Stop (now : Z) (s : StopWatch) : StopWatch := mkStopWatch (sw_start s) (subMono now (sw_start s)).

(** ** Lemmas *)

(** On readings in [int64], [Time.Sub] is the difference clamped to
    [int64]. *)
Lemma subMono_clamp (t u : Z) :
  in_int64 t -> in_int64 u -> subMono t u = Z.max int64_min (Z.min int64_max (t - u)).
Proof.
  unfold subMono, in_int64, wrap64, int64_min, int64_max. intros Ht Hu.
  pose proof (Z.mod_pos_bound (t - u + 2 ^ 63) (2 ^ 64) ltac:(lia)).
  pose proof (Z.div_mod (t - u + 2 ^ 63) (2 ^ 64) ltac:(lia)).
  set (w := (t - u + 2 ^ 63) mod 2 ^ 64) in *. set (q := (t - u + 2 ^ 63) / 2 ^ 64) in *.
  assert (q = -1 \/ q = 0 \/ q = 1) as [Hq|[Hq|Hq]] by nia; rewrite Hq in *;
    destruct (Z.ltb_spec (w - 2 ^ 63) 0), (Z.ltb_spec u t), (Z.ltb_spec 0 (w - 2 ^ 63)), (Z.ltb_spec t u);
    cbn [andb]; lia.
Qed.

(** A stop watch started at [t0 >= 0] and stopped [x >= 0] nanoseconds
    later, within the range of the clock, reads [x]. *)
Lemma Elapsed_after (sw : StopWatch) (t0 x : Z) :
  0 <= t0 -> 0 <= x -> t0 + x <= int64_max ->
  Elapsed (sw_Stop (t0 + x) (sw_Start t0 sw)) = x.
Proof.
  intros H0 Hx Hm. cbn [sw_Stop sw_Start Elapsed sw_start].
  rewrite subMono_clamp by (unfold in_int64, int64_min in *; lia).
  unfold int64_min in *. lia.
Qed.

(** ** Properties *)

(** The stop watch saturates.  For any two clock readings in
    [int64], the [Elapsed] that [Stop] records after [Start] is their
    difference, clamped to the range of [time.Duration] instead of
    wrapping around; so a monotonic clock ([t0 <= t1]) gives a
    non-negative [totalExecutionTime], zero when both readings agree. *)
Theorem StopWatch_elapsed (t0 t1 : Z) (sw : StopWatch) :
  in_int64 t0 -> in_int64 t1 ->
  Elapsed (sw_Stop t1 (sw_Start t0 sw)) = Z.max int64_min (Z.min int64_max (t1 - t0)) /\
  (t0 <= t1 -> 0 <= Elapsed (sw_Stop t1 (sw_Start t0 sw))).
Proof.
  intros H0 H1. cbn [sw_Stop sw_Start Elapsed sw_start]. rewrite subMono_clamp by assumption.
  split; [reflexivity|]. unfold int64_max, int64_min. lia.
Qed.

Lemma StopWatch_elapsed_witness :
  Elapsed (sw_Stop int64_max (sw_Start int64_min (mkStopWatch 0 0))) = int64_max.
Proof.
  rewrite (proj1 (StopWatch_elapsed int64_min int64_max (mkStopWatch 0 0)
                   ltac:(unfold in_int64, int64_min, int64_max; lia) ltac:(unfold in_int64, int64_min, int64_max; lia))).
  unfold int64_max, int64_min. lia.
Defined.
