(* ===== verification/Context.v ===== *)
(** * The shared campaign context ([src/context.go])

    [Context] holds two [sync.WaitGroup]s ([start], [startRun]), the
    [stop] channel and a store written by the pre-flight probe.  Every
    method of the store runs under the [RWMutex], so each is one atomic
    operation on the state here.  A [WaitGroup] is its counter; [Add]
    panics when the counter would go negative and [Wait] returns once it
    is zero.  Closing a closed channel panics.  Type assertions
    [c.store[key].(int)] panic when the key is absent (the map yields
    [nil]) or holds a value of another type. *)

From S2P Require Import Prelude Types.

(** ** sync.WaitGroup *)

Record WaitGroup := mkWaitGroup { wg_counter : Z }.

Definition wg_Add (wg : WaitGroup) (delta : Z) : go WaitGroup :=
  let n := wg_counter wg + delta in
  if n <? 0 then Panic "sync: negative WaitGroup counter"
  else Ok (mkWaitGroup n).

Definition wg_Done (wg : WaitGroup) : go WaitGroup := wg_Add wg (-1).

(** [wg.Wait()] may return in this state. *)
Definition wg_released (wg : WaitGroup) : bool := wg_counter wg =? 0.

(** ** The store: [map[string]interface{}] holding strings and ints *)

Inductive StoreVal := SVString (s : string) | SVInt (n : Z).

#[export] Instance StoreVal_eq_dec : EqDecision StoreVal.
Proof. solve_decision. Defined.

Record Context := mkContext {
  config : Config;
  start : WaitGroup;
  startRun : WaitGroup;
  stop_closed : bool;
  store : gmap string StoreVal
}.

(** [NewContext]: [start.Add(concurrency + 1)], [startRun.Add(1)], an
    open [stop] channel and an empty store. *)
Definition NewContext (cfg : Config) : go Context :=
  let! st := wg_Add (mkWaitGroup 0) (concurrency cfg + 1) in
  let! sr := wg_Add (mkWaitGroup 0) 1 in
  Ok (mkContext cfg st sr false ∅).

Definition with_store (c : Context) (m : gmap string StoreVal) : Context :=
  mkContext (config c) (start c) (startRun c) (stop_closed c) m.

Definition SetString (c : Context) (key value : string) : Context :=
  with_store c (<[key := SVString value]> (store c)).

Definition SetInt (c : Context) (key : string) (value : Z) : Context :=
  with_store c (<[key := SVInt value]> (store c)).

(** [c.store[key].(string)]. *)
Definition GetString (c : Context) (key : string) : go string :=
  match store c !! key with
  | Some (SVString s) => Ok s
  | Some (SVInt _) => Panic "interface conversion: interface {} is int, not string"
  | None => Panic "interface conversion: interface {} is nil, not string"
  end.

(** [c.store[key].(int)]. *)
Definition GetInt (c : Context) (key : string) : go Z :=
  match store c !! key with
  | Some (SVInt n) => Ok n
  | Some (SVString _) => Panic "interface conversion: interface {} is string, not int"
  | None => Panic "interface conversion: interface {} is nil, not int"
  end.

(** [close(c.stop)], done by the monitor at shutdown. *)
Definition close_stop (c : Context) : go Context :=
  if stop_closed c then Panic "close of closed channel"
  else Ok (mkContext (config c) (start c) (startRun c) true (store c)).

(** The WaitGroup operations of the barrier, on the context. *)
Definition start_Done (c : Context) : go Context :=
  let! wg := wg_Done (start c) in
  Ok (mkContext (config c) wg (startRun c) (stop_closed c) (store c)).

Definition startRun_Done (c : Context) : go Context :=
  let! wg := wg_Done (startRun c) in
  Ok (mkContext (config c) (start c) wg (stop_closed c) (store c)).

(** ** Lemmas *)

Lemma wg_Add_ok wg d :
  0 <= wg_counter wg + d -> wg_Add wg d = Ok (mkWaitGroup (wg_counter wg + d)).
Proof. intros H. unfold wg_Add. zcase. Qed.

Lemma wg_Add_panic wg d :
  wg_counter wg + d < 0 -> exists m, wg_Add wg d = Panic m.
Proof. intros H. unfold wg_Add. zcase. eauto. Qed.

#[export] Hint Resolve wg_Add_ok : gb.

Lemma store_SetInt c k v : store (SetInt c k v) = <[k := SVInt v]> (store c).
Proof. done. Qed.

Lemma store_SetString c k v : store (SetString c k v) = <[k := SVString v]> (store c).
Proof. done. Qed.

(** The probe store round trips: after [SetInt key v], [GetInt key]
    returns [v]; after [SetString key s], [GetString key] returns [s]. *)
Theorem store_roundtrip (c : Context) (k : string) (v : Z) (s : string) :
  GetInt (SetInt c k v) k = Ok v /\ GetString (SetString c k s) k = Ok s.
Proof.
  unfold GetInt, GetString. rewrite store_SetInt, store_SetString.
  by rewrite !lookup_insert_eq.
Qed.

Lemma store_other (c : Context) (k k' : string) (v : Z) (s : string) :
  k' <> k ->
  GetInt (SetInt c k v) k' = GetInt c k' /\
  GetInt (SetString c k s) k' = GetInt c k' /\
  GetString (SetInt c k v) k' = GetString c k' /\
  GetString (SetString c k s) k' = GetString c k'.
Proof.
  intros Hne. unfold GetInt, GetString.
  rewrite !store_SetInt, !store_SetString, !lookup_insert_ne by done. done.
Qed.

(** A context as [NewContext] builds it, for the witnesses. *)
Definition example_config : Config :=
  mkConfig 100 10 0 MaxExecutionTimeout false false false.

(** [GetInt] of a key that was never set panics (the type
    assertion on [nil] fails): if the pre-flight probe failed before
    [SetInt(FieldContentSize, _)], reading the content size panics. *)
Theorem GetInt_missing_panics (c : Context) (k : string) :
  store c !! k = None ->
  GetInt c k = Panic "interface conversion: interface {} is nil, not int".
Proof. intros H. unfold GetInt. by rewrite H. Qed.

Lemma GetInt_missing_panics_witness :
  exists c, NewContext example_config = Ok c /\
    GetInt c FieldContentSize = Panic "interface conversion: interface {} is nil, not int".
Proof.
  eexists. split; [reflexivity|].
  apply GetInt_missing_panics. reflexivity.
Defined.

(** Closing [stop] a second time panics: the monitor must close it
    exactly once. *)
Lemma close_stop_twice (c c' : Context) :
  close_stop c = Ok c' -> close_stop c' = Panic "close of closed channel".
Proof. unfold close_stop. destruct (stop_closed c); intros H; simplify_eq; done. Qed.
