(* ===== verification/Stats.v ===== *)
(** * Running statistics of the monitor ([src/monitor.go])

    [Stats] and [updateStats].  The five error categories of the Go
    struct ([errLength]/[errLengthDur], [errConnect]/[errConnectDur], ...)
    are kept as one counter pair per category, [errs c].  The type switch
    of [updateStats] is [classify].  Theorems: the accounting invariant
    [stats_wf] is preserved; folding [updateStats] over a sequence of
    records refines the abstract summary [summary_of]; a timeout record is
    counted as an exception; the typing invariant [stats_typed] (every
    field a Go [int64]) holds after any campaign of well-typed records. *)

From S2P Require Import Prelude Types.

(** ** Data *)

Inductive ErrCat := CatLength | CatConnect | CatReceive | CatException | CatResponse.

#[export] Instance ErrCat_eq_dec : EqDecision ErrCat.
Proof. solve_decision. Defined.

Definition all_cats : list ErrCat :=
  [CatLength; CatConnect; CatReceive; CatException; CatResponse].

(** One pair [errX int] / [errXDur time.Duration] of the Go struct. *)
Record ErrCounter := mkErrCounter { ec_count : Z; ec_dur : Z }.

Definition ec_zero : ErrCounter := mkErrCounter 0 0.

Record Stats := mkStats {
  responseTimeData : list Z;
  totalRequests : Z;
  totalSuccess : Z;
  totalExecutionTime : Z;
  totalResponseTime : Z;
  totalReceived : Z;
  totalFailedReqeusts : Z;
  errs : ErrCat -> ErrCounter
}.

Definition errLength (s : Stats) : Z := ec_count (errs s CatLength).
Definition errConnect (s : Stats) : Z := ec_count (errs s CatConnect).
Definition errReceive (s : Stats) : Z := ec_count (errs s CatReceive).
Definition errException (s : Stats) : Z := ec_count (errs s CatException).
Definition errResponse (s : Stats) : Z := ec_count (errs s CatResponse).

(** [stats := &Stats{totalResponseTime: 0}] with an empty
    [responseTimeData] ([Monitor.Run]). *)
Definition newStats : Stats :=
  mkStats [] 0 0 0 0 0 0 (fun _ => ec_zero).

(** [stats.totalExecutionTime = sw.Elapsed]. *)
Definition set_totalExecutionTime (s : Stats) (d : Z) : Stats :=
  mkStats (responseTimeData s) (totalRequests s) (totalSuccess s) d
          (totalResponseTime s) (totalReceived s) (totalFailedReqeusts s) (errs s).

(** ** updateStats *)

(** The type switch on [record.Error]; [default] is an exception. *)
Definition classify (e : GoError) : ErrCat :=
  match e with
  | ConnectError _ => CatConnect
  | ExceptionError _ => CatException
  | LengthError _ => CatLength
  | ReceiveError _ => CatReceive
  | ResponseError _ => CatResponse
  | ResponseTimeoutError _ | PlainError _ => CatException
  end.

(** [stats.errX++; stats.errXDur += record.responseTime]. *)
Definition bump (c : ErrCat) (d : Z) (f : ErrCat -> ErrCounter) : ErrCat -> ErrCounter :=
  fun c' => if decide (c' = c)
            then mkErrCounter (ec_count (f c') + 1) (ec_dur (f c') +i64 d)
            else f c'.

Definition updateStats (stats : Stats) (record : Record_) : Stats :=
  match Error record with
  | Some e =>
      {| responseTimeData := responseTimeData stats;
         totalRequests := totalRequests stats + 1;
         totalSuccess := totalSuccess stats;
         totalExecutionTime := totalExecutionTime stats;
         totalResponseTime := totalResponseTime stats;
         totalReceived := totalReceived stats;
         totalFailedReqeusts := totalFailedReqeusts stats + 1;
         errs := bump (classify e) (responseTime record) (errs stats) |}
  | None =>
      {| responseTimeData := responseTimeData stats ++ [responseTime record];
         totalRequests := totalRequests stats + 1;
         totalSuccess := totalSuccess stats + 1;
         totalExecutionTime := totalExecutionTime stats;
         totalResponseTime := totalResponseTime stats +i64 responseTime record;
         totalReceived := totalReceived stats +i64 contentSize record;
         totalFailedReqeusts := totalFailedReqeusts stats;
         errs := errs stats |}
  end.

(** ** The accounting invariant *)

Definition failed_sum (f : ErrCat -> ErrCounter) : Z :=
  sum_Z (map (fun c => ec_count (f c)) all_cats).

Arguments failed_sum : simpl never.
Arguments bump : simpl never.

Definition stats_wf (s : Stats) : Prop :=
  totalRequests s = totalSuccess s + totalFailedReqeusts s /\
  totalFailedReqeusts s = failed_sum (errs s) /\
  Z.of_nat (length (responseTimeData s)) = totalSuccess s /\
  totalResponseTime s = wrap64 (sum_Z (responseTimeData s)) /\
  0 <= totalSuccess s /\
  (forall c, 0 <= ec_count (errs s c)).

(** ** The abstract summary of a sequence of records *)

Definition in_cat (c : ErrCat) (r : Record_) : bool :=
  match Error r with Some e => bool_decide (classify e = c) | None => false end.

Definition successes (rs : list Record_) : list Record_ :=
  List.filter (fun r => negb (is_error r)) rs.

(** What the monitor should know after consuming [rs], in that order. *)
Definition summary_of (rs : list Record_) (s : Stats) : Prop :=
  responseTimeData s = map responseTime (successes rs) /\
  totalRequests s = Z.of_nat (length rs) /\
  totalSuccess s = Z.of_nat (length (successes rs)) /\
  totalResponseTime s = wrap64 (sum_Z (map responseTime (successes rs))) /\
  totalReceived s = wrap64 (sum_Z (map contentSize (successes rs))) /\
  totalFailedReqeusts s = Z.of_nat (length (List.filter is_error rs)) /\
  (forall c, errs s c =
     mkErrCounter (Z.of_nat (length (List.filter (in_cat c) rs)))
                  (wrap64 (sum_Z (map responseTime (List.filter (in_cat c) rs))))).

(** ** Lemmas on the category counters *)

Lemma bump_same c d f :
  bump c d f c = mkErrCounter (ec_count (f c) + 1) (ec_dur (f c) +i64 d).
Proof. unfold bump. by rewrite decide_True. Qed.

Lemma bump_other c c' d f : c' <> c -> bump c d f c' = f c'.
Proof. intros Hne. unfold bump. by rewrite decide_False. Qed.

Lemma failed_sum_bump c d f : failed_sum (bump c d f) = failed_sum f + 1.
Proof. destruct c; unfold failed_sum, bump; simpl; repeat case_decide; simplify_eq; simpl; lia. Qed.

#[export] Hint Rewrite bump_same failed_sum_bump : gb_rw.

Lemma newStats_wf : stats_wf newStats.
Proof. unfold stats_wf, failed_sum; cbn; repeat split; intros; cbn; lia. Qed.

Lemma length_Z_snoc {A} (l : list A) x :
  Z.of_nat (length (l ++ [x])) = Z.of_nat (length l) + 1.
Proof. rewrite length_app. simpl. lia. Qed.

#[export] Hint Rewrite @length_Z_snoc : gb_rw.

(** ** Lemmas on the summary *)

Lemma filter_snoc {A} (p : A -> bool) l x :
  List.filter p (l ++ [x]) = List.filter p l ++ (if p x then [x] else []).
Proof. induction l as [|y l IH]; simpl; [done|]. rewrite IH. by destruct (p y). Qed.

Lemma in_cat_error c rt cs e :
  in_cat c (mkRecord rt cs (Some e)) = bool_decide (classify e = c).
Proof. done. Qed.

Lemma in_cat_success c rt cs : in_cat c (mkRecord rt cs None) = false.
Proof. done. Qed.

Lemma summary_of_nil : summary_of [] newStats.
Proof. unfold summary_of; cbn; repeat split. Qed.

Lemma bump_count_nonneg c d f :
  (forall c', 0 <= ec_count (f c')) -> forall c', 0 <= ec_count (bump c d f c').
Proof.
  intros Hf c'. destruct (decide (c' = c)) as [->|Hne].
  - rewrite bump_same. simpl. specialize (Hf c). lia.
  - by rewrite bump_other.
Qed.

Lemma i64_add_wrap_sum l x : wrap64 (sum_Z l) +i64 x = wrap64 (sum_Z (l ++ [x])).
Proof. unfold i64_add. by autorewrite with gb_rw. Qed.

(** ** Theorems *)

(** One [updateStats] step keeps the accounting invariant. *)
Lemma updateStats_wf (s : Stats) (r : Record_) :
  stats_wf s -> stats_wf (updateStats s r).
Proof.
  intros (Htot & Hfail & Hlen & Hsum & Hsucc & Hcnt).
  unfold stats_wf, updateStats. destruct (Error r) as [e|]; simpl.
  - rewrite failed_sum_bump. repeat split; try lia.
    by apply bump_count_nonneg.
  - rewrite Hsum, i64_add_wrap_sum, length_Z_snoc.
    repeat split; try lia; done.
Qed.


(** C2: [updateStats] preserves the accounting invariant: every record
    is counted once, as a success or in exactly one failure category,
    the latency list holds one entry per success, and
    [totalResponseTime] is the (wrapped) sum of that list. *)
Theorem updateStats_preserves_wf (s : Stats) (r : Record_) :
  stats_wf s -> stats_wf (updateStats s r).
Proof. apply updateStats_wf. Qed.

Lemma updateStats_preserves_wf_witness :
  stats_wf (updateStats newStats (mkRecord 5 10 None)).
Proof. apply updateStats_preserves_wf. exact newStats_wf. Defined.

(** One [updateStats] step extends the summary by the record. *)
Lemma summary_snoc (rs : list Record_) (s : Stats) (r : Record_) :
  summary_of rs s -> summary_of (rs ++ [r]) (updateStats s r).
Proof.
  unfold summary_of, successes.
  intros (Hdata & Htot & Hsucc & Hrt & Hrecv & Hfail & Herrs).
  rewrite !filter_snoc, length_Z_snoc.
  destruct r as [rt cs [e|]]; unfold updateStats; simpl; rewrite ?app_nil_r.
  - rewrite length_Z_snoc. repeat split; try lia; try done.
    intros c. rewrite filter_snoc, in_cat_error.
    destruct (decide (c = classify e)) as [->|Hne].
    + rewrite bump_same, bool_decide_true, Herrs by done. simpl.
      by rewrite map_app, length_Z_snoc, i64_add_wrap_sum.
    + rewrite bump_other, bool_decide_false, app_nil_r by congruence.
      apply Herrs.
  - rewrite !map_app, length_Z_snoc. simpl.
    rewrite Hdata, Hrt, Hrecv, !i64_add_wrap_sum.
    repeat split; try lia; try done.
    intros c. by rewrite filter_snoc, Herrs, in_cat_success, app_nil_r.
Qed.


(** C3: folding [updateStats] over the records received, in order,
    gives the abstract summary of that sequence: the latencies of the
    successes in arrival order, the success and failure counts, the
    wrapped sums of latencies and bytes, and for each category the
    number and total latency of its records. *)
Theorem updateStats_refines (rs : list Record_) (s : Stats) (r : Record_) :
  summary_of rs s -> summary_of (rs ++ [r]) (updateStats s r).
Proof. apply summary_snoc. Qed.

Lemma updateStats_refines_witness :
  summary_of ([] ++ [mkRecord 5 0 (Some (ConnectError "refused"))])
             (updateStats newStats (mkRecord 5 0 (Some (ConnectError "refused")))).
Proof. apply updateStats_refines. exact summary_of_nil. Defined.

(** The summary after a sequence of records from [newStats]. *)
Lemma fold_summary (rs : list Record_) :
  summary_of rs (fold_left updateStats rs newStats).
Proof.
  induction rs as [|r rs IH] using rev_ind.
  - exact summary_of_nil.
  - rewrite fold_left_app. simpl. by apply summary_snoc.
Qed.

(** After consuming any sequence of records from a fresh [Stats],
    the monitor's statistics are exactly the summary of that sequence. *)
Corollary fold_updateStats_summary (rs : list Record_) :
  summary_of rs (fold_left updateStats rs newStats).
Proof. apply fold_summary. Qed.

(** The failure count after a sequence of records from [newStats]. *)
Lemma fold_updateStats_failed (rs : list Record_) :
  totalFailedReqeusts (fold_left updateStats rs newStats) = Z.of_nat (length (List.filter is_error rs)).
Proof.
  induction rs as [|r rs IH] using rev_ind; [reflexivity|].
  rewrite fold_left_app, filter_snoc, length_app. simpl.
  destruct r as [rt cs [e|]]; simpl; rewrite IH; lia.
Qed.

Lemma fold_updateStats_wf (rs : list Record_) (s : Stats) :
  stats_wf s -> stats_wf (fold_left updateStats rs s).
Proof.
  revert s. induction rs as [|r rs IH]; intros s Hs; simpl; [done|].
  by apply IH, updateStats_wf.
Qed.

(** C4: a record carrying a [ResponseTimeoutError] is counted as a
    failure in the [errException] category (the type switch has no case
    for it and falls to [default]); no other category changes. *)
Theorem updateStats_timeout_is_exception (s : Stats) (r : Record_) (m : string) :
  Error r = Some (ResponseTimeoutError m) ->
  errException (updateStats s r) = errException s + 1 /\
  totalFailedReqeusts (updateStats s r) = totalFailedReqeusts s + 1 /\
  (forall c, c <> CatException -> errs (updateStats s r) c = errs s c).
Proof.
  intros He. unfold errException, updateStats. rewrite He. simpl.
  split; [lia|]. split; [lia|].
  intros c Hc. by apply bump_other.
Qed.

Example updateStats_timeout_is_exception_witness :
  let r := mkRecord 30000000000 0 (Some (ResponseTimeoutError "execution timeout")) in
  Error r = Some (ResponseTimeoutError "execution timeout") /\
  errException (updateStats newStats r) = errException newStats + 1.
Proof.
  split; [reflexivity|].
  apply (updateStats_timeout_is_exception newStats _ "execution timeout"). reflexivity.
Defined.

Lemma updateStats_totalRequests s r :
  totalRequests (updateStats s r) = totalRequests s + 1.
Proof. unfold updateStats. by destruct (Error r). Qed.

Lemma fold_updateStats_totalRequests rs s :
  totalRequests (fold_left updateStats rs s) = totalRequests s + Z.of_nat (length rs).
Proof.
  revert s. induction rs as [|r rs IH]; intros s; simpl; [lia|].
  rewrite IH, updateStats_totalRequests. lia.
Qed.

#[export] Hint Rewrite updateStats_totalRequests fold_updateStats_totalRequests : gb_rw.

(** ** The Go types of the fields *)

(** A record as the worker builds it: [responseTime] is a
    [time.Duration] and [contentSize] an [int64]. *)
Definition record_typed (r : Record_) : Prop :=
  in_int64 (responseTime r) /\ in_int64 (contentSize r).

(** Every field of [Stats] holds a value of its Go type: the durations
    and byte sums are [int64]/[time.Duration], the counters are [int]
    (64-bit). *)
Definition stats_typed (s : Stats) : Prop :=
  Forall in_int64 (responseTimeData s) /\
  in_int64 (totalRequests s) /\ in_int64 (totalSuccess s) /\
  in_int64 (totalExecutionTime s) /\ in_int64 (totalResponseTime s) /\
  in_int64 (totalReceived s) /\ in_int64 (totalFailedReqeusts s) /\
  (forall c, in_int64 (ec_count (errs s c)) /\ in_int64 (ec_dur (errs s c))).

Lemma newStats_typed : stats_typed newStats.
Proof. unfold stats_typed, in_int64, int64_min, int64_max; simpl. repeat split; try constructor; lia. Qed.

(** Under the invariant each category count is at most the failures. *)
Lemma ec_count_le_failed (f : ErrCat -> ErrCounter) (c : ErrCat) :
  (forall c', 0 <= ec_count (f c')) -> 0 <= ec_count (f c) <= failed_sum f.
Proof.
  intros Hf. pose proof (Hf CatLength). pose proof (Hf CatConnect). pose proof (Hf CatReceive).
  pose proof (Hf CatException). pose proof (Hf CatResponse).
  unfold failed_sum, sum_Z. simpl. destruct c; lia.
Qed.

(** One record keeps the fields in their types while the request count
    has room. *)
Lemma updateStats_typed (s : Stats) (r : Record_) :
  stats_wf s -> stats_typed s -> record_typed r -> totalRequests s < int64_max ->
  stats_typed (updateStats s r).
Proof.
  intros (Htot & Hfail & Hlen & Hsum & Hsucc & Hcnt) (Hdata & Ht & Hs & He & Hrt & Hrc & Hf & Hc) [Hr1 Hr2] Hmax.
  assert (Hcf : forall c, 0 <= ec_count (errs s c) <= failed_sum (errs s))
    by (intros c; by apply ec_count_le_failed).
  pose proof (Hcf CatLength) as Hfl. rewrite <- Hfail in Hfl.
  unfold stats_typed, updateStats. destruct (Error r) as [e|]; simpl.
  - refine (conj Hdata (conj _ (conj Hs (conj He (conj Hrt (conj Hrc (conj _ _)))))));
      [unfold in_int64, int64_min in *; lia | rewrite Hfail in *; unfold in_int64, int64_min in *; lia|].
    intros c. destruct (decide (c = classify e)) as [->|Hne].
    + rewrite bump_same. simpl. split; [|apply wrap64_range].
      specialize (Hcf (classify e)). rewrite <- Hfail in Hcf. unfold in_int64, int64_min in *; lia.
    + rewrite bump_other by done. apply Hc.
  - refine (conj _ (conj _ (conj _ (conj He (conj (wrap64_range _) (conj (wrap64_range _) (conj Hf Hc)))))));
      [|unfold in_int64, int64_min in *; lia ..].
    apply Forall_app. split; [exact Hdata|]. apply List.Forall_cons; [exact Hr1|apply List.Forall_nil].
Qed.

Lemma fold_updateStats_typed (rs : list Record_) (s : Stats) :
  stats_wf s -> stats_typed s -> Forall record_typed rs ->
  totalRequests s + Z.of_nat (length rs) <= int64_max ->
  stats_typed (fold_left updateStats rs s).
Proof.
  revert s; induction rs as [|r rs IH]; intros s Hwf Hty Hrs Hlen; [exact Hty|].
  inversion Hrs as [|? ? Hr Hrs']; subst. simpl in Hlen |- *.
  apply IH; [by apply updateStats_wf | apply updateStats_typed; auto; lia | exact Hrs' |].
  rewrite updateStats_totalRequests. lia.
Qed.

(** The statistics stay inside their Go types.  Over any campaign
    of typed records shorter than [2^63 - 1] records, every counter of
    [Stats] is an [int] and every duration and byte sum an [int64]: the
    sums wrap, and the counters are bounded by the request count. *)
Theorem campaign_stats_typed (rs : list Record_) :
  Forall record_typed rs -> Z.of_nat (length rs) <= int64_max ->
  stats_typed (fold_left updateStats rs newStats).
Proof.
  intros Hrs Hlen. apply fold_updateStats_typed; [exact newStats_wf|exact newStats_typed|exact Hrs|].
  simpl. lia.
Qed.

Lemma campaign_stats_typed_witness :
  stats_typed (fold_left updateStats
                 [mkRecord (50 * Millisecond) 1024 None;
                  mkRecord (3 * Second) 0 (Some (ConnectError "connection refused"))] newStats).
Proof.
  apply campaign_stats_typed.
  - repeat (apply List.Forall_cons;
              [split; unfold in_int64, int64_min, int64_max, Millisecond, Second; simpl; lia|]).
    apply List.Forall_nil.
  - unfold int64_max. simpl. lia.
Defined.
