(* ===== verification/Monitor.v ===== *)
(** * The monitor ([Monitor.Run] of [src/monitor.go])

    The monitor waits on the [start] barrier, releases [startRun], then
    loops on a [select] over the [collector] channel, the optional time
    limit and the interrupt signal.  The loop is modelled as a function
    over the sequence of cases the [select] takes, in order: [MRecord r]
    (a record was received), [MTimeLimit] (the timer fired), [MInterrupt]
    (SIGINT).  When no time limit is configured, [timelimiter] is a nil
    channel, whose case can never be taken: an [MTimeLimit] event then
    does not correspond to a step of the program and is skipped.  The
    loop state is the [Stats] and the progress lines printed so far.
    The [StopWatch] ([StopWatch.v]), started before the loop and stopped
    after it, gives [totalExecutionTime]. *)

From S2P Require Import Prelude Types Context Stats StopWatch.

Inductive MonitorEvent :=
| MRecord (r : Record_)
| MTimeLimit
| MInterrupt.

Inductive StopReason := ByError | ByCount | ByTimeLimit | ByInterrupt.

#[export] Instance StopReason_eq_dec : EqDecision StopReason.
Proof. solve_decision. Defined.

Record MonState := mkMonState {
  mstats : Stats;
  printed : list Z          (* the n of each "Completed n requests" *)
}.

(** The [Monitor] struct: the context, the [collector] channel it
    consumes and the [Output] channel it hands the stats over on. *)
Record Monitor := mkMonitor { m_c : Context; m_collector : ChanId; m_Output : ChanId }.

(** [NewMonitor(context, collector)]; [output] is the fresh channel of
    [make(chan *Stats)]. *)
Definition NewMonitor (c : Context) (collector output : ChanId) : Monitor :=
  mkMonitor c collector output.

Section MonitorLoop.
Variable cfg : Config.
Variable g : Globals.

(** [if stats.totalRequests >= 10 && stats.totalRequests%(requests/10) == 0]:
    whether "Completed n requests" is printed ([&&] short-circuits). *)
Definition progress_due (s : Stats) : go bool :=
  if totalRequests s >=? 10 then
    let! q := go_quot (requests cfg) 10 in
    let! m := go_rem (totalRequests s) q in
    Ok (m =? 0)
  else Ok false.

(** The [case record := <-m.collector] branch: [Ok (inr why)] leaves
    the loop, [Ok (inl st)] goes round again. *)
Definition on_record (st : MonState) (r : Record_) : go (MonState + (MonState * StopReason)) :=
  let s := updateStats (mstats st) r in
  if is_error r && negb (ContinueOnError g) then
    Ok (inr (mkMonState s (printed st), ByError))
  else
    let! due := progress_due s in
    let out := if due then printed st ++ [totalRequests s] else printed st in
    if totalRequests s =? requests cfg then
      Ok (inr (mkMonState s out, ByCount))
    else Ok (inl (mkMonState s out)).

(** The [loop:] of [Monitor.Run].  [None]: the events ran out while the
    monitor still waits in the [select]. *)
Fixpoint monitor_loop (st : MonState) (evs : list MonitorEvent)
  : go (option (MonState * StopReason)) :=
  match evs with
  | [] => Ok None
  | MRecord r :: evs' =>
      let! x := on_record st r in
      match x with
      | inl st' => monitor_loop st' evs'
      | inr (st', why) => Ok (Some (st', why))
      end
  | MTimeLimit :: evs' =>
      if 0 <? timelimit cfg then Ok (Some (st, ByTimeLimit))
      else monitor_loop st evs'
  | MInterrupt :: _ => Ok (Some (st, ByInterrupt))
  end.

End MonitorLoop.

(** The whole of [Monitor.Run] after [NewMonitor]: wait on [start]
    (blocked, [None], unless its counter is zero), [startRun.Done()],
    [sw.Start()] at clock reading [t0], the loop over the events with
    [m.c.config], [sw.Stop()] at [t1] and [totalExecutionTime =
    sw.Elapsed], [close(m.c.stop)]; the stats are then sent on
    [Output]. *)
Definition monitor_run (g : Globals) (c : Context) (t0 t1 : Z) (evs : list MonitorEvent)
  : go (option (Context * Stats * StopReason)) :=
  if negb (wg_released (start c)) then Ok None else
  let! c1 := startRun_Done c in
  let sw := sw_Start t0 (mkStopWatch 0 0) in
  let! res := monitor_loop (config c) g (mkMonState newStats []) evs in
  match res with
  | None => Ok None
  | Some (st, why) =>
      let sw' := sw_Stop t1 sw in
      let! c2 := close_stop c1 in
      Ok (Some (c2, set_totalExecutionTime (mstats st) (Elapsed sw'), why))
  end.

(** ** Lemmas on one iteration *)

Section MonitorLemmas.
Variable cfg : Config.
Variable g : Globals.
Hypothesis requests_pos : 1 <= requests cfg.

Let stops (r : Record_) : bool := is_error r && negb (ContinueOnError g).

Lemma progress_due_ok s :
  totalRequests s <= requests cfg -> exists b, progress_due cfg s = Ok b.
Proof.
  intros Hle. unfold progress_due. rewrite Z.geb_leb.
  destruct (Z.leb_spec 10 (totalRequests s)); [|eauto].
  rewrite go_quot_ok by lia. simpl.
  assert (Hq : requests cfg ÷ 10 <> 0) by (rewrite Z.quot_div_nonneg; lia_div).
  rewrite go_rem_ok by exact Hq. simpl. eauto.
Qed.

(** One record: the stats are updated; the loop leaves on an error
    (fail-fast) first, then on reaching the request count. *)
Lemma on_record_spec st r :
  totalRequests (mstats st) < requests cfg ->
  exists st', mstats st' = updateStats (mstats st) r /\
    on_record cfg g st r =
      if stops r then Ok (inr (st', ByError))
      else if totalRequests (mstats st) + 1 =? requests cfg then Ok (inr (st', ByCount))
      else Ok (inl st').
Proof.
  intros Hlt. unfold on_record. cbv zeta. subst stops. cbv beta.
  destruct (is_error r && negb (ContinueOnError g)).
  - eexists. split; [|reflexivity]. done.
  - destruct (progress_due_ok (updateStats (mstats st) r)) as [b Hb];
      [rewrite updateStats_totalRequests; lia|].
    rewrite Hb. simpl. rewrite updateStats_totalRequests.
    eexists. split; [|reflexivity]. done.
Qed.

(** Records that neither fail fast nor reach the count are consumed
    one after the other: the loop continues with their fold. *)
Lemma loop_consume st rs rest :
  Forall (fun r => stops r = false) rs ->
  totalRequests (mstats st) + Z.of_nat (length rs) < requests cfg ->
  exists st', mstats st' = fold_left updateStats rs (mstats st) /\
    monitor_loop cfg g st (map MRecord rs ++ rest) = monitor_loop cfg g st' rest.
Proof.
  revert st. induction rs as [|r rs IH]; intros st Hok Hlt; simpl in *.
  - eauto.
  - inversion Hok as [|? ? Hr Hrs]; subst.
    destruct (on_record_spec st r) as (st1 & Hst1 & Hon); [lia|].
    rewrite Hon, Hr. zcase_once; [lia|]. simpl.
    destruct (IH st1) as (st2 & Hst2 & Hloop); [done|rewrite Hst1, updateStats_totalRequests; lia|].
    exists st2. rewrite Hst2, Hst1. done.
Qed.
End MonitorLemmas.

(** ** The termination policy *)

Definition monStart : MonState := mkMonState newStats [].

Lemma Forall_stops_false (g : Globals) (rs : list Record_) :
  Forall (fun r => is_error r = false) rs ->
  Forall (fun r => is_error r && negb (ContinueOnError g) = false) rs.
Proof. intros H. eapply Forall_impl; [exact H|]. by intros r ->. Qed.

Lemma filter_is_error_nil (rs : list Record_) :
  Forall (fun r => is_error r = false) rs -> List.filter is_error rs = [].
Proof. induction 1 as [|r rs Hr _ IH]; simpl; [done|]. by rewrite Hr. Qed.

Lemma loop_stops_at_count (cfg : Config) (g : Globals) (rs : list Record_)
    (rest : list MonitorEvent) :
  1 <= requests cfg ->
  Z.of_nat (length rs) = requests cfg ->
  Forall (fun r => is_error r && negb (ContinueOnError g) = false) rs ->
  exists st, monitor_loop cfg g monStart (map MRecord rs ++ rest) = Ok (Some (st, ByCount)) /\
    mstats st = fold_left updateStats rs newStats /\
    totalRequests (mstats st) = requests cfg.
Proof.
  intros Hpos Hlen Hok.
  destruct (exists_last (l := rs)) as (rs' & r & ->); [by intros ->; simpl in Hlen; lia|].
  apply Forall_app in Hok as [Hok' Hr]. inversion Hr as [|? ? Hr1 _]; subst.
  rewrite length_app in Hlen. simpl in Hlen.
  rewrite map_app, <- app_assoc. simpl.
  destruct (loop_consume cfg g Hpos monStart rs' (MRecord r :: rest)) as (st1 & Hst1 & ->);
    [done|simpl; lia|].
  destruct (on_record_spec cfg g Hpos st1 r) as (st2 & Hst2 & Hon);
    [rewrite Hst1, fold_updateStats_totalRequests; simpl; lia|].
  simpl. rewrite Hon, Hr1, Hst1, fold_updateStats_totalRequests. simpl.
  zcase_once; [|lia]. exists st2. rewrite fold_left_app, Hst2, Hst1.
  split; [done|]. split; [done|].
  rewrite updateStats_totalRequests, fold_updateStats_totalRequests. simpl. lia.
Qed.

(** C1: a campaign whose first [requests] records do not stop it
    (successes, or any records under [ContinueOnError]) ends because the
    count is reached, after exactly those records: the statistics are
    their fold and [totalRequests = requests], whatever follows them in
    the channel. *)
Theorem monitor_stops_at_count (cfg : Config) (g : Globals) (rs : list Record_)
    (rest : list MonitorEvent) :
  1 <= requests cfg ->
  Z.of_nat (length rs) = requests cfg ->
  Forall (fun r => is_error r && negb (ContinueOnError g) = false) rs ->
  exists st, monitor_loop cfg g monStart (map MRecord rs ++ rest) = Ok (Some (st, ByCount)) /\
    mstats st = fold_left updateStats rs newStats /\
    totalRequests (mstats st) = requests cfg.
Proof. apply loop_stops_at_count. Qed.

(** Inputs for the witnesses: a campaign of [n] requests on one worker,
    fail-fast, and records of 50ms. *)
Definition campaign (n : Z) : Config := mkConfig n 1 0 MaxExecutionTimeout false false false.
Definition failfast : Globals := mkGlobals 1 1 false.
Definition ok50 : Record_ := mkRecord (50 * Millisecond) 1024 None.
Definition err500 : Record_ := mkRecord (50 * Millisecond) 0 (Some (ResponseError "Response is 500")).

Lemma monitor_stops_at_count_witness :
  exists st, monitor_loop (campaign 3) failfast monStart
               (map MRecord [ok50; ok50; ok50] ++ [MRecord ok50]) = Ok (Some (st, ByCount)) /\
    mstats st = fold_left updateStats [ok50; ok50; ok50] newStats /\
    totalRequests (mstats st) = requests (campaign 3).
Proof.
  apply monitor_stops_at_count; [simpl; lia | reflexivity | repeat constructor].
Defined.

(** C8: fail-fast.  Without [ContinueOnError], the first error record
    ends the campaign, even when it is also the last requested record;
    the statistics are the fold of the records up to and including it,
    with exactly one failure. *)
Theorem monitor_fail_fast (cfg : Config) (g : Globals) (oks : list Record_) (e : Record_)
    (rest : list MonitorEvent) :
  1 <= requests cfg ->
  ContinueOnError g = false ->
  Forall (fun r => is_error r = false) oks ->
  is_error e = true ->
  Z.of_nat (length oks) < requests cfg ->
  exists st, monitor_loop cfg g monStart (map MRecord (oks ++ [e]) ++ rest) = Ok (Some (st, ByError)) /\
    mstats st = fold_left updateStats (oks ++ [e]) newStats /\
    totalFailedReqeusts (mstats st) = 1.
Proof.
  intros Hpos Hcoe Hoks He Hlt.
  rewrite map_app, <- app_assoc. simpl.
  destruct (loop_consume cfg g Hpos monStart oks (MRecord e :: rest)) as (st1 & Hst1 & ->);
    [by apply Forall_stops_false|simpl; lia|].
  destruct (on_record_spec cfg g Hpos st1 e) as (st2 & Hst2 & Hon);
    [rewrite Hst1, fold_updateStats_totalRequests; simpl; lia|].
  simpl. rewrite Hon, He, Hcoe. simpl. exists st2.
  assert (Hfold : mstats st2 = fold_left updateStats (oks ++ [e]) newStats)
    by (by rewrite fold_left_app, Hst2, Hst1).
  split; [done|]. split; [done|].
  rewrite Hfold, fold_updateStats_failed, filter_snoc, filter_is_error_nil, He by done. done.
Qed.

Lemma monitor_fail_fast_witness :
  exists st, monitor_loop (campaign 10) failfast monStart
               (map MRecord ([ok50; ok50] ++ [err500]) ++ []) = Ok (Some (st, ByError)) /\
    mstats st = fold_left updateStats ([ok50; ok50] ++ [err500]) newStats /\
    totalFailedReqeusts (mstats st) = 1.
Proof.
  apply monitor_fail_fast; [simpl; lia | reflexivity | repeat constructor | reflexivity | simpl; lia].
Defined.

Lemma monitor_loop_total (cfg : Config) (g : Globals) (evs : list MonitorEvent) (st : MonState) :
  1 <= requests cfg -> totalRequests (mstats st) < requests cfg ->
  exists res, monitor_loop cfg g st evs = Ok res /\
    (forall st' why, res = Some (st', why) -> totalRequests (mstats st') <= requests cfg).
Proof.
  intros Hpos. revert st. induction evs as [|ev evs IH]; intros st Hlt; simpl.
  - exists None. split; [done|]. by intros.
  - destruct ev as [r| |].
    + destruct (on_record_spec cfg g Hpos st r) as (st1 & Hst1 & ->); [done|].
      assert (Ht1 : totalRequests (mstats st1) = totalRequests (mstats st) + 1)
        by (by rewrite Hst1, updateStats_totalRequests).
      destruct (is_error r && negb (ContinueOnError g)); simpl.
      { eexists. split; [done|]. intros ? ? [= <- <-]. lia. }
      zcase_once; simpl.
      { eexists. split; [done|]. intros ? ? [= <- <-]. lia. }
      apply IH. lia.
    + destruct (0 <? timelimit cfg); [|by apply IH].
      eexists. split; [done|]. intros ? ? [= <- <-]. lia.
    + eexists. split; [done|]. intros ? ? [= <- <-]. lia.
Qed.

(** Whatever the channel delivers and whatever the interleaving of
    the time limit and the interrupt, the monitor loop of a campaign
    with at least one request never panics (the progress test
    [totalRequests % (requests/10)] never divides by zero) and, when it
    stops, has counted at most [requests] records. *)
Theorem monitor_loop_never_panics (cfg : Config) (g : Globals) (evs : list MonitorEvent) :
  1 <= requests cfg ->
  exists res, monitor_loop cfg g monStart evs = Ok res /\
    (forall st why, res = Some (st, why) -> totalRequests (mstats st) <= requests cfg).
Proof. intros Hpos. apply monitor_loop_total; simpl; lia. Qed.

Lemma monitor_loop_never_panics_witness :
  exists res, monitor_loop (campaign 25) failfast monStart
                (map MRecord (repeat ok50 30)) = Ok res /\
    (forall st why, res = Some (st, why) -> totalRequests (mstats st) <= requests (campaign 25)).
Proof. apply monitor_loop_never_panics. simpl. lia. Defined.

(** When a time limit is configured, its timer firing ends the
    campaign with the statistics of the records received before it; when
    none is configured the timer case is never taken. *)
Theorem monitor_time_limit (cfg : Config) (g : Globals) (rs : list Record_)
    (rest : list MonitorEvent) :
  1 <= requests cfg ->
  0 < timelimit cfg ->
  Forall (fun r => is_error r && negb (ContinueOnError g) = false) rs ->
  Z.of_nat (length rs) < requests cfg ->
  exists st, monitor_loop cfg g monStart (map MRecord rs ++ MTimeLimit :: rest) =
               Ok (Some (st, ByTimeLimit)) /\
    mstats st = fold_left updateStats rs newStats.
Proof.
  intros Hpos Htl Hok Hlt.
  destruct (loop_consume cfg g Hpos monStart rs (MTimeLimit :: rest)) as (st1 & Hst1 & ->);
    [done|simpl; lia|].
  simpl. zcase_once; [|lia]. eauto.
Qed.

Lemma monitor_time_limit_witness :
  exists st, monitor_loop (mkConfig MaxRequests 2 10 MaxExecutionTimeout false false false)
               failfast monStart (map MRecord [ok50; ok50] ++ MTimeLimit :: []) =
               Ok (Some (st, ByTimeLimit)) /\
    mstats st = fold_left updateStats [ok50; ok50] newStats.
Proof.
  apply monitor_time_limit; [simpl; unfold MaxRequests; lia | simpl; lia |
                             repeat constructor | simpl; unfold MaxRequests; lia].
Defined.

Lemma run_shutdown (g : Globals) (c : Context) (t0 t1 : Z)
    (evs : list MonitorEvent) (st : MonState) (why : StopReason) :
  wg_released (start c) = true ->
  wg_counter (startRun c) = 1 ->
  stop_closed c = false ->
  monitor_loop (config c) g monStart evs = Ok (Some (st, why)) ->
  exists c', monitor_run g c t0 t1 evs =
               Ok (Some (c', set_totalExecutionTime (mstats st) (subMono t1 t0), why)) /\
    stop_closed c' = true /\ wg_counter (startRun c') = 0 /\
    close_stop c' = Panic "close of closed channel".
Proof.
  intros Hrel Hsr Hstop Hloop. unfold monitor_run. rewrite Hrel. simpl.
  unfold startRun_Done, wg_Done. rewrite wg_Add_ok by lia. simpl.
  unfold monStart in Hloop. rewrite Hloop. simpl.
  unfold close_stop at 1. simpl. rewrite Hstop.
  eexists. split; [reflexivity|]. simpl. split; [done|]. split; [lia|done].
Qed.

(** Shutdown.  Once the barrier is open, [Monitor.Run] releases the
    workers ([startRun] drops to zero), and when the loop stops it closes
    [stop] (the one close of the campaign: a second one would panic),
    records the stop watch's reading ([Time.Sub] of the clock readings
    at [Stop] and [Start]) and hands over the loop's statistics. *)
Theorem monitor_run_shutdown (g : Globals) (c : Context) (t0 t1 : Z)
    (evs : list MonitorEvent) (st : MonState) (why : StopReason) :
  wg_released (start c) = true ->
  wg_counter (startRun c) = 1 ->
  stop_closed c = false ->
  monitor_loop (config c) g monStart evs = Ok (Some (st, why)) ->
  exists c', monitor_run g c t0 t1 evs =
               Ok (Some (c', set_totalExecutionTime (mstats st) (subMono t1 t0), why)) /\
    stop_closed c' = true /\ wg_counter (startRun c') = 0 /\
    close_stop c' = Panic "close of closed channel".
Proof. apply run_shutdown. Qed.

Lemma monitor_run_shutdown_witness :
  exists c' s', monitor_run failfast (mkContext (campaign 1) (mkWaitGroup 0) (mkWaitGroup 1) false ∅)
                  0 (70 * Millisecond) [MRecord ok50] = Ok (Some (c', s', ByCount)) /\
    stop_closed c' = true /\ totalExecutionTime s' = 70 * Millisecond.
Proof.
  edestruct (monitor_run_shutdown failfast
    (mkContext (campaign 1) (mkWaitGroup 0) (mkWaitGroup 1) false ∅) 0 (70 * Millisecond)
    [MRecord ok50]) as (c' & Hrun & Hclosed & _);
    [reflexivity | reflexivity | reflexivity | reflexivity |].
  eexists c', _. split; [exact Hrun|]. split; [exact Hclosed|reflexivity].
Defined.

(** The progress report of a 50-request campaign: the [>= 10] guard
    suppresses the 10% milestone (5 requests), so the first report is at
    20%. *)
Remark monitor_progress_50 :
  exists st, monitor_loop (campaign 50) failfast monStart (map MRecord (repeat ok50 50)) =
               Ok (Some (st, ByCount)) /\
    printed st = [10; 15; 20; 25; 30; 35; 40; 45; 50].
Proof. eexists; split; [vm_compute; reflexivity | reflexivity]. Qed.
