(* ===== verification/Worker.v ===== *)
(** * The HTTP worker ([src/http.go])

    [Discard.ReadFrom], the goroutine started by [HTTPWorker.send] (retry
    loop, status and body classification, recovered panics of the
    transport and of a strategy's [HandleResult]),
    [NewHTTPWorker]'s scratch buffer and the job loop of [HTTPWorker.Run].
    The transport is an oracle: [client.Do] returns, attempt after
    attempt, the outcomes listed in a [list DoOutcome]; a body reader
    returns, call after call, the results listed in a [list ReadResult].
    A model function returns [None] when its oracle runs out before the
    Go code would have returned.  [send_timed] runs the goroutine of
    [send] on a clock: each attempt takes its duration, giving up sleeps
    one second, and the [StopWatch] gives [record.responseTime]. *)

From S2P Require Import Prelude Types Context StopWatch.

(** ** Readers and responses *)

(** The error a [Read] returns: [io.EOF], [io.ErrUnexpectedEOF] or
    another error. *)
Inductive ReadErr := EOF | ErrUnexpectedEOF | ReadFailure (msg : string).

#[export] Instance ReadErr_eq_dec : EqDecision ReadErr.
Proof. solve_decision. Defined.

Definition read_err_msg (e : ReadErr) : string :=
  match e with
  | EOF => "EOF"
  | ErrUnexpectedEOF => "unexpected EOF"
  | ReadFailure m => m
  end.

(** One call [r.Read(p)]: the byte count and the error. *)
Definition ReadResult : Type := Z * option ReadErr.

Record Response := mkResponse {
  StatusCode : Z;
  Body : list ReadResult
}.

(** ** Discard.ReadFrom *)

(** The loop of [ReadFrom]: [n += int64(readSize)]; an [io.EOF] ends it
    with a nil error, any other error is returned with the count. *)
Fixpoint readFrom_loop (n : Z) (reads : list ReadResult) : option (Z * option ReadErr) :=
  match reads with
  | [] => None
  | (readSize, err) :: rest =>
      let n' := n +i64 readSize in
      match err with
      | None => readFrom_loop n' rest
      | Some EOF => Some (n', None)
      | Some e => Some (n', Some e)
      end
  end.

Definition Discard_ReadFrom (reads : list ReadResult) : option (Z * option ReadErr) :=
  readFrom_loop 0 reads.

(** The [io.Reader] contract for a buffer of [len] bytes. *)
Definition reads_fit (len : Z) (reads : list ReadResult) : Prop :=
  Forall (fun rr => 0 <= rr.1 <= len) reads.

(** ** The send goroutine *)

(** The value a [recover()] returns: an [error] or anything else. *)
Inductive PanicVal := PanicError (e : GoError) | PanicValue (v : string).

(** [CustomRequest.HandleResult(resp)]: the body size and the read
    error it returns, or the value it panics with (a runtime error such
    as an index out of range is an [error] value). *)
Definition ResultHandler := Response -> (Z * option ReadErr) + PanicVal.

(** What one [h.client.Do(request)] does. *)
Inductive DoOutcome :=
| DoErr (err : string)            (* a non-nil error *)
| DoResp (resp : Response)        (* a response, nil error *)
| DoPanic (v : PanicVal).         (* a panic inside the transport *)

Inductive RetryResult :=
| RResp (resp : Response)         (* break: a response arrived *)
| RGiveUp (err : string)          (* retry <= 0: ConnectError *)
| RPanic (v : PanicVal)
| RNoMore.                        (* the oracle ran out *)

(** [for { resp, err = h.client.Do(request); retry = retry - 1; ... }]. *)
Fixpoint retry_loop (retry : Z) (attempts : list DoOutcome) : RetryResult :=
  match attempts with
  | [] => RNoMore
  | DoPanic v :: _ => RPanic v
  | DoResp resp :: _ => RResp resp
  | DoErr err :: rest =>
      let retry' := retry - 1 in
      if retry' <=? 0 then RGiveUp err else retry_loop retry' rest
  end.

(** The handler of the response body: [h.Custom.HandleResult] when a
    custom request is set (it may panic), [h.discard.ReadFrom] otherwise. *)
Definition handle_body (custom : option ResultHandler)
    (resp : Response) : option ((Z * option ReadErr) + PanicVal) :=
  match custom with
  | Some handle => Some (handle resp)
  | None => inl <$> Discard_ReadFrom (Body resp)
  end.

(** The status and body classification after the body was read.  The
    [LengthError] assigned on [io.ErrUnexpectedEOF] is overwritten by the
    [ReceiveError] assignment that follows it. *)
Definition classify_response (status : Z) (err : option ReadErr) : option GoError :=
  if (status <? 200) || (300 <? status) then
    Some (ResponseError ("Response is " +:+ pretty status))
  else match err with
       | None => None
       | Some e =>
           let _ := (if decide (e = ErrUnexpectedEOF)
                     then Some (LengthError ErrInvalidContnetSize) else None) in
           Some (ReceiveError (read_err_msg e))
       end.

(** The deferred function: a recovered [error] becomes the record's
    error, any other value an [ExceptionError]. *)
Definition recovered (v : PanicVal) : GoError :=
  match v with PanicError e => e | PanicValue s => ExceptionError s end.

(** The goroutine of [send]: the record it puts on [asyncResult], with
    the message passed to [TraceException] when the record carries an
    error.  [elapsed] is the stopwatch reading of the deferred function;
    [contentSize] stays 0 on every path that does not read a body. *)
Definition send (custom : option ResultHandler)
    (attempts : list DoOutcome) (elapsed : Z) : option (Record_ * option string) :=
  let finish (e : option GoError) (cs : Z) := (mkRecord elapsed cs e, error_msg <$> e) in
  match retry_loop 3 attempts with
  | RNoMore => None
  | RPanic v => Some (finish (Some (recovered v)) 0)
  | RGiveUp err => Some (finish (Some (ConnectError err)) 0)
  | RResp resp =>
      match handle_body custom resp with
      | None => None
      | Some (inr v) => Some (finish (Some (recovered v)) 0)
      | Some (inl (n, err)) => Some (finish (classify_response (StatusCode resp) err) n)
      end
  end.

(** ** The send goroutine with its clock *)

(** The retry loop on the clock: each [client.Do] takes the duration
    paired with its outcome, and giving up first sleeps
    [time.Sleep(time.Second)].  The result and the clock reading when
    the loop ends. *)
Fixpoint retry_loop_timed (retry now : Z) (attempts : list (DoOutcome * Z)) : RetryResult * Z :=
  match attempts with
  | [] => (RNoMore, now)
  | (DoPanic v, d) :: _ => (RPanic v, now + d)
  | (DoResp resp, d) :: _ => (RResp resp, now + d)
  | (DoErr err, d) :: rest =>
      let now' := now + d in
      let retry' := retry - 1 in
      if retry' <=? 0 then (RGiveUp err, now' + Second) else retry_loop_timed retry' now' rest
  end.

(** The goroutine of [send] started at clock reading [t0]: [sw.Start()],
    the retry loop, the body read taking [bodyTime] after a response, and
    the deferred [sw.Stop()] whose [Elapsed] is [record.responseTime]. *)
Definition send_timed (custom : option ResultHandler)
    (attempts : list (DoOutcome * Z)) (t0 bodyTime : Z) : option (Record_ * option string) :=
  let sw := sw_Start t0 (mkStopWatch 0 0) in
  let '(rr, t1) := retry_loop_timed 3 t0 attempts in
  let t_end := match rr with RResp _ => t1 + bodyTime | _ => t1 end in
  send custom (map fst attempts) (Elapsed (sw_Stop t_end sw)).

(** ** NewHTTPWorker: the scratch buffer *)

(** [contentSize := context.GetInt(FieldContentSize)] and
    [make([]byte, min(contentSize, MaxBufferSize))]; [make] panics on a
    negative length.  The result is the buffer length. *)
Definition NewHTTPWorker_buffer (c : Context) : go Z :=
  let! contentSize := GetInt c FieldContentSize in
  let len := if contentSize <? MaxBufferSize then contentSize else MaxBufferSize in
  if len <? 0 then Panic "runtime error: makeslice: len out of range" else Ok len.

(** ** The job loop of HTTPWorker.Run *)

(** How the [select] of one job ends: the result of [send] arrived, the
    timer fired, or [stop] was closed. *)
Inductive JobOutcome := JCompleted (r : Record_) | JTimedOut | JStopped.

(** [&Record{Error: &ResponseTimeoutError{errors.New("execution timeout")}}]. *)
Definition timeout_record : Record_ :=
  mkRecord 0 0 (Some (ResponseTimeoutError "execution timeout")).

Section WorkerLoop.
Context {Job : Type}.
Variable skip_first : bool.   (* h.c.config.skipFirst *)

Record WorkerState := mkWorkerState {
  count : Z;                  (* the jobs dequeued so far *)
  emitted : list Record_;     (* sent on h.collector, in order *)
  cancelled : list Job        (* passed to CancelRequest, in order *)
}.

(** [for job := range h.jobs { ... }] over the jobs this worker
    dequeued, each with the way its [select] ended.  The boolean is
    [true] when the worker returned on [stop]. *)
Fixpoint worker_loop (ws : WorkerState) (jobs : list (Job * JobOutcome)) : WorkerState * bool :=
  match jobs with
  | [] => (ws, false)
  | (job, o) :: rest =>
      let count' := count ws + 1 in
      match o with
      | JCompleted record =>
          let out := if negb skip_first || (1 <? count') then emitted ws ++ [record]
                     else emitted ws in
          worker_loop (mkWorkerState count' out (cancelled ws)) rest
      | JTimedOut =>
          worker_loop (mkWorkerState count' (emitted ws ++ [timeout_record])
                                     (cancelled ws ++ [job])) rest
      | JStopped => (mkWorkerState count' (emitted ws) (cancelled ws ++ [job]), true)
      end
  end.

Definition worker_start : WorkerState := mkWorkerState 0 [] [].
End WorkerLoop.

(** ** Lemmas *)

Lemma readFrom_loop_data (a : Z) (ks : list Z) (rest : list ReadResult) :
  readFrom_loop (wrap64 a) (map (fun k => (k, None)) ks ++ rest) =
  readFrom_loop (wrap64 (a + sum_Z ks)) rest.
Proof.
  revert a. induction ks as [|k ks IH]; intros a; simpl; [by rewrite Z.add_0_r|].
  unfold i64_add. rewrite wrap64_add_l, IH. do 2 f_equal. lia.
Qed.

Lemma retry_loop_errs (ms : list string) (resp : Response) (rest : list DoOutcome) :
  (length ms <= 2)%nat ->
  retry_loop 3 (map DoErr ms ++ DoResp resp :: rest) = RResp resp.
Proof.
  intros Hlen. destruct ms as [|m1 [|m2 [|m3 ms]]]; simpl in *; try done; lia.
Qed.

(** ** Theorems: one request *)

(** C9: bounded retry.  The loop of [send] calls [client.Do] at most
    three times: its result depends only on the first three outcomes,
    and with three outcomes available it always ends. *)
Theorem retry_loop_at_most_three (attempts : list DoOutcome) :
  retry_loop 3 attempts = retry_loop 3 (firstn 3 attempts) /\
  ((3 <= length attempts)%nat -> retry_loop 3 attempts <> RNoMore).
Proof.
  destruct attempts as [|[e1|r1|p1] [|[e2|r2|p2] [|[e3|r3|p3] rest]]];
    simpl; split; intros; try done; lia.
Qed.

Lemma retry_loop_at_most_three_witness :
  let atts := [DoErr "a"; DoErr "b"; DoErr "c"; DoResp (mkResponse 200 [])] in
  retry_loop 3 atts = retry_loop 3 (firstn 3 atts) /\ retry_loop 3 atts <> RNoMore.
Proof.
  split; [apply retry_loop_at_most_three|].
  apply (retry_loop_at_most_three [DoErr "a"; DoErr "b"; DoErr "c"; DoResp (mkResponse 200 [])]).
  simpl. lia.
Defined.

(** A connection that fails twice and then gets a response with a
    2xx status whose body reads to EOF yields a success record (no
    [ConnectError]) carrying the bytes read; after three failures the
    record is a [ConnectError] with the last error and no fourth attempt
    is made. *)
Theorem send_retry_outcomes (m1 m2 m3 : string) (resp : Response) (rest : list DoOutcome)
    (n elapsed : Z) :
  200 <= StatusCode resp <= 300 ->
  Discard_ReadFrom (Body resp) = Some (n, None) ->
  send None [DoErr m1; DoErr m2; DoResp resp] elapsed = Some (mkRecord elapsed n None, None) /\
  send None (DoErr m1 :: DoErr m2 :: DoErr m3 :: rest) elapsed =
    Some (mkRecord elapsed 0 (Some (ConnectError m3)), Some m3).
Proof.
  intros Hst Hrd. split; [|done].
  unfold send. simpl. rewrite Hrd. simpl.
  unfold classify_response. zcase.
Qed.

Lemma send_retry_outcomes_witness :
  send None [DoErr "connection refused"; DoErr "connection refused";
             DoResp (mkResponse 200 [(512, None); (12, Some EOF)])] 7 =
    Some (mkRecord 7 524 None, None) /\
  send None [DoErr "connection refused"; DoErr "connection refused"; DoErr "c";
             DoResp (mkResponse 200 [])] 7 =
    Some (mkRecord 7 0 (Some (ConnectError "c")), Some "c").
Proof.
  apply (send_retry_outcomes "connection refused" "connection refused" "c"); [simpl; lia | reflexivity].
Defined.

(** C10: status classification.  A response whose status is below 200
    or above 300 yields a [ResponseError] whatever happened to its body;
    a status in [200, 300] (300 included) with a body read to EOF yields
    a success. *)
Theorem send_status_classification (resp : Response) (n elapsed : Z) (err : option ReadErr) :
  Discard_ReadFrom (Body resp) = Some (n, err) ->
  exists r msg, send None [DoResp resp] elapsed = Some (r, msg) /\
    contentSize r = n /\
    ((StatusCode resp < 200 \/ 300 < StatusCode resp) ->
       Error r = Some (ResponseError ("Response is " +:+ pretty (StatusCode resp)))) /\
    (200 <= StatusCode resp <= 300 -> err = None -> Error r = None).
Proof.
  intros Hrd. unfold send. simpl. rewrite Hrd. simpl.
  eexists _, _. split; [reflexivity|]. simpl. split; [done|].
  unfold classify_response. split; intros; zcase. subst. done.
Qed.

Lemma send_status_classification_witness :
  exists r msg, send None [DoResp (mkResponse 300 [(7, Some EOF)])] 1 = Some (r, msg) /\
    contentSize r = 7 /\
    ((300 < 200 \/ 300 < 300) -> Error r = Some (ResponseError ("Response is " +:+ pretty 300))) /\
    (200 <= 300 <= 300 -> @None ReadErr = None -> Error r = None).
Proof. apply (send_status_classification (mkResponse 300 [(7, Some EOF)])). reflexivity. Defined.

(** C11: a body read that fails after a good status yields a
    [ReceiveError], including on [io.ErrUnexpectedEOF]: the
    [LengthError] the code assigns in that case is overwritten, so no
    record ever carries a [LengthError]. *)
Theorem send_body_error_is_receive_error (resp : Response) (n elapsed : Z) (e : ReadErr) :
  200 <= StatusCode resp <= 300 ->
  Discard_ReadFrom (Body resp) = Some (n, Some e) ->
  send None [DoResp resp] elapsed =
    Some (mkRecord elapsed n (Some (ReceiveError (read_err_msg e))), Some (read_err_msg e)).
Proof.
  intros Hst Hrd. unfold send. simpl. rewrite Hrd. simpl.
  unfold classify_response. zcase.
Qed.

Lemma send_body_error_is_receive_error_witness :
  send None [DoResp (mkResponse 200 [(100, None); (3, Some ErrUnexpectedEOF)])] 9 =
    Some (mkRecord 9 103 (Some (ReceiveError "unexpected EOF")), Some "unexpected EOF").
Proof.
  apply (send_body_error_is_receive_error
           (mkResponse 200 [(100, None); (3, Some ErrUnexpectedEOF)]) 103 9 ErrUnexpectedEOF);
    [simpl; lia | reflexivity].
Defined.

(** C12: a panic in the strategy's [HandleResult] is recovered by the
    deferred function of [send].  A panic with an [error] value, a
    runtime error such as an index out of range among them, puts that
    error in the record as it is; any other value is wrapped in an
    [ExceptionError] holding its printed form.  No content size is
    recorded, and the error's message goes to [TraceException]. *)
Theorem send_handler_panic (handle : ResultHandler) (attempts : list DoOutcome) (resp : Response)
    (v : PanicVal) (elapsed : Z) :
  retry_loop 3 attempts = RResp resp -> handle resp = inr v ->
  (forall e, v = PanicError e ->
     send (Some handle) attempts elapsed = Some (mkRecord elapsed 0 (Some e), Some (error_msg e))) /\
  (forall m, v = PanicValue m ->
     send (Some handle) attempts elapsed = Some (mkRecord elapsed 0 (Some (ExceptionError m)), Some m)).
Proof.
  intros Hr Hh. unfold send. rewrite Hr. cbn [handle_body]. rewrite Hh.
  split; intros ? ->; reflexivity.
Qed.

Lemma send_handler_panic_witness :
  let handle : ResultHandler := fun _ => inr (PanicError (PlainError "runtime error: index out of range [3] with length 3")) in
  retry_loop 3 [DoErr "refused"; DoResp (mkResponse 200 [])] = RResp (mkResponse 200 []) /\
  handle (mkResponse 200 []) = inr (PanicError (PlainError "runtime error: index out of range [3] with length 3")) /\
  send (Some handle) [DoErr "refused"; DoResp (mkResponse 200 [])] 5 =
    Some (mkRecord 5 0 (Some (PlainError "runtime error: index out of range [3] with length 3")),
          Some "runtime error: index out of range [3] with length 3").
Proof.
  cbv zeta. split; [reflexivity|]. split; [reflexivity|].
  apply (send_handler_panic _ [DoErr "refused"; DoResp (mkResponse 200 [])] (mkResponse 200 [])
           (PanicError (PlainError "runtime error: index out of range [3] with length 3")) 5);
    reflexivity.
Defined.

Lemma classify_response_never_length (status : Z) (err : option ReadErr) (m : string) :
  classify_response status err <> Some (LengthError m).
Proof. unfold classify_response. destruct (_ || _); [done|]. by destruct err. Qed.

(** [Discard.ReadFrom] returns the number of bytes read (modulo
    2^64) and a nil error when the reader ends with [io.EOF], or the
    count and the error when it ends with another error. *)
Theorem ReadFrom_counts (ks : list Z) (k : Z) (e : option ReadErr) :
  Discard_ReadFrom (map (fun k => (k, None)) ks ++ [(k, e)]) =
  match e with
  | None => None
  | Some EOF => Some (wrap64 (sum_Z ks + k), None)
  | Some e' => Some (wrap64 (sum_Z ks + k), Some e')
  end.
Proof.
  unfold Discard_ReadFrom. change 0 with (wrap64 0).
  rewrite readFrom_loop_data. simpl. unfold i64_add. rewrite wrap64_add_l.
  destruct e as [[| |]|]; done.
Qed.

(** The scratch buffer of a worker is [min(contentSize, 8192)]
    bytes, so never more than [MaxBufferSize]; a negative probed size
    makes [NewHTTPWorker] panic in [make]. *)
Theorem NewHTTPWorker_buffer_bounds (c : Context) (n : Z) :
  GetInt c FieldContentSize = Ok n ->
  (0 <= n -> NewHTTPWorker_buffer c = Ok (Z.min n MaxBufferSize) /\
             0 <= Z.min n MaxBufferSize <= MaxBufferSize) /\
  (n < 0 -> NewHTTPWorker_buffer c = Panic "runtime error: makeslice: len out of range").
Proof.
  intros Hget. unfold NewHTTPWorker_buffer. rewrite Hget. simpl.
  unfold MaxBufferSize. split; intros; zcase; (split; [f_equal|]; lia).
Qed.

Lemma NewHTTPWorker_buffer_bounds_witness :
  NewHTTPWorker_buffer (SetInt (mkContext example_config (mkWaitGroup 11) (mkWaitGroup 1) false ∅)
                          FieldContentSize 20000) = Ok 8192.
Proof.
  apply (NewHTTPWorker_buffer_bounds _ 20000); [reflexivity | lia].
Defined.

(** The timed retry loop makes the same attempts as [retry_loop]. *)
Lemma retry_loop_timed_result (retry now : Z) (attempts : list (DoOutcome * Z)) :
  fst (retry_loop_timed retry now attempts) = retry_loop retry (map fst attempts).
Proof.
  revert retry now; induction attempts as [|[o d] attempts IH]; intros retry now; [done|].
  destruct o; simpl; [destruct (retry - 1 <=? 0); [done|apply IH]|done|done].
Qed.

(** C13: the latency of a request.  The [responseTime] the [send]
    goroutine records is the time its stop watch ran: for a request that
    fails three times to connect, the three attempts plus the second of
    [time.Sleep] before giving up, so a connection failure always reports
    at least one second; for a response on the first attempt whose body
    is read in [tb], the attempt plus [tb]. *)
Theorem send_timed_latency (e1 e2 e3 : string) (resp : Response) (d1 d2 d3 t0 tb n : Z)
    (custom : option ResultHandler) (rest : list (DoOutcome * Z)) :
  0 <= t0 -> 0 <= d1 -> 0 <= d2 -> 0 <= d3 -> 0 <= tb ->
  t0 + (d1 + d2 + d3 + Second) <= int64_max -> t0 + (d1 + tb) <= int64_max ->
  send_timed custom ((DoErr e1, d1) :: (DoErr e2, d2) :: (DoErr e3, d3) :: rest) t0 tb =
    Some (mkRecord (d1 + d2 + d3 + Second) 0 (Some (ConnectError e3)), Some (error_msg (ConnectError e3))) /\
  Second <= d1 + d2 + d3 + Second /\
  (200 <= StatusCode resp <= 300 -> Discard_ReadFrom (Body resp) = Some (n, None) ->
   send_timed None ((DoResp resp, d1) :: rest) t0 tb = Some (mkRecord (d1 + tb) n None, None)).
Proof.
  intros H0 H1 H2 H3 Htb Hm1 Hm2. split; [|split; [lia|]].
  - unfold send_timed.
    change (retry_loop_timed 3 t0 ((DoErr e1, d1) :: (DoErr e2, d2) :: (DoErr e3, d3) :: rest))
      with (RGiveUp e3, t0 + d1 + d2 + d3 + Second). cbv iota beta zeta.
    replace (t0 + d1 + d2 + d3 + Second) with (t0 + (d1 + d2 + d3 + Second)) by lia.
    rewrite Elapsed_after by (unfold Second in *; lia). reflexivity.
  - intros Hs Hb. unfold send_timed. cbn [retry_loop_timed]. cbv iota beta zeta.
    replace (t0 + d1 + tb) with (t0 + (d1 + tb)) by lia.
    rewrite Elapsed_after by lia. unfold send. simpl. rewrite Hb. simpl.
    unfold classify_response. destruct (Z.ltb_spec (StatusCode resp) 200); [lia|].
    destruct (Z.ltb_spec 300 (StatusCode resp)); [lia|]. reflexivity.
Qed.

Lemma send_timed_latency_witness :
  send_timed None [(DoErr "connection refused", Millisecond); (DoErr "connection refused", Millisecond);
                   (DoErr "connection refused", 2 * Millisecond)] Second 0 =
    Some (mkRecord (4 * Millisecond + Second) 0 (Some (ConnectError "connection refused")),
          Some (error_msg (ConnectError "connection refused"))).
Proof.
  destruct (send_timed_latency "connection refused" "connection refused" "connection refused"
              (mkResponse 200 [(0, Some EOF)]) Millisecond Millisecond (2 * Millisecond) Second 0 0 None [])
    as [H _]; unfold Second, Millisecond, int64_max in *; try lia.
  rewrite H; reflexivity.
Defined.

(** ** Theorems: the job loop *)

(** A 50ms success of 1KiB, used by the witnesses. *)
Definition ok_record_example : Record_ := mkRecord (50 * Millisecond) 1024 None.

(** What the iteration of the [i]-th job (from 1) sends on the
    collector. *)
Definition job_emits (skip : bool) (i : Z) (o : JobOutcome) : list Record_ :=
  match o with
  | JCompleted r => if negb skip || (1 <? i) then [r] else []
  | JTimedOut => [timeout_record]
  | JStopped => []
  end.

Definition is_timeout (o : JobOutcome) : bool :=
  match o with JTimedOut => true | _ => false end.

Definition is_completed (o : JobOutcome) : bool :=
  match o with JCompleted _ => true | _ => false end.

Definition not_stopped (o : JobOutcome) : Prop :=
  match o with JStopped => False | _ => True end.

Lemma imap_emits_shift {Job} (skip : bool) (c : Z) (jobs : list (Job * JobOutcome)) :
  imap ((fun i jo => job_emits skip (c + Z.of_nat i + 1) jo.2) ∘ S) jobs =
  imap (fun i jo => job_emits skip ((c + 1) + Z.of_nat i + 1) jo.2) jobs.
Proof. apply imap_ext. intros i jo _. simpl. do 2 f_equal. lia. Qed.

(** The worker loop over jobs none of which sees [stop]. *)
Lemma worker_loop_all {Job} (skip : bool) (ws : WorkerState) (jobs : list (Job * JobOutcome)) :
  Forall (fun jo => not_stopped jo.2) jobs ->
  worker_loop skip ws jobs =
    (mkWorkerState (count ws + Z.of_nat (length jobs))
       (emitted ws ++ concat (imap (fun i jo => job_emits skip (count ws + Z.of_nat i + 1) jo.2) jobs))
       (cancelled ws ++ map fst (List.filter (fun jo => is_timeout jo.2) jobs)), false).
Proof.
  revert ws. induction jobs as [|[job o] jobs IH]; intros ws Hns; simpl.
  - destruct ws. simpl. by rewrite Z.add_0_r, !app_nil_r.
  - inversion Hns as [|? ? Ho Hns']; subst.
    destruct o as [r| |]; simpl in Ho |- *; [| |done];
      rewrite IH by done; simpl; rewrite imap_emits_shift, Nat2Z.inj_succ;
      replace (count ws + Z.of_nat 0 + 1) with (count ws + 1) by lia;
      f_equal; f_equal; try lia.
    + destruct (negb skip || (1 <? count ws + 1)); by rewrite <- ?app_assoc.
    + by rewrite <- app_assoc.
    + by rewrite <- app_assoc.
Qed.

(** C14: when [stop] is not closed during its jobs, the worker loop
    processes every job it dequeues, in order: the [i]-th job sends its
    record (the first one is held back under skip-first when it
    completed), each timed-out job sends exactly one timeout record and
    is cancelled, and the loop ends when the channel is drained. *)
Theorem worker_loop_no_stop {Job} (skip : bool) (ws : WorkerState) (jobs : list (Job * JobOutcome)) :
  Forall (fun jo => not_stopped jo.2) jobs ->
  worker_loop skip ws jobs =
    (mkWorkerState (count ws + Z.of_nat (length jobs))
       (emitted ws ++ concat (imap (fun i jo => job_emits skip (count ws + Z.of_nat i + 1) jo.2) jobs))
       (cancelled ws ++ map fst (List.filter (fun jo => is_timeout jo.2) jobs)), false).
Proof. apply worker_loop_all. Qed.

Lemma worker_loop_no_stop_witness :
  worker_loop true worker_start
    [(1%nat, JCompleted ok_record_example); (2%nat, JTimedOut); (3%nat, JCompleted ok_record_example)] =
  (mkWorkerState 3 [timeout_record; ok_record_example] [2%nat], false).
Proof.
  rewrite (worker_loop_no_stop true worker_start); [reflexivity|].
  repeat constructor.
Defined.

Lemma worker_loop_app {Job} (skip : bool) (ws : WorkerState) (pre rest : list (Job * JobOutcome)) :
  Forall (fun jo => not_stopped jo.2) pre ->
  worker_loop skip ws (pre ++ rest) = worker_loop skip (worker_loop skip ws pre).1 rest.
Proof.
  revert ws. induction pre as [|[job o] pre IH]; intros ws Hns; simpl; [done|].
  inversion Hns as [|? ? Ho Hns']; subst.
  destruct o; simpl in Ho; [| |contradiction]; by apply IH.
Qed.

(** C15: stop.  When [stop] is closed while a job is in flight, the
    worker cancels that job, sends no record for it and returns: the jobs
    after it are never dequeued by this worker. *)
Theorem worker_loop_stop {Job} (skip : bool) (ws : WorkerState)
    (pre : list (Job * JobOutcome)) (j : Job) (post : list (Job * JobOutcome)) :
  Forall (fun jo => not_stopped jo.2) pre ->
  worker_loop skip ws (pre ++ (j, JStopped) :: post) =
    (mkWorkerState (count ws + Z.of_nat (length pre) + 1)
       (emitted ws ++ concat (imap (fun i jo => job_emits skip (count ws + Z.of_nat i + 1) jo.2) pre))
       (cancelled ws ++ map fst (List.filter (fun jo => is_timeout jo.2) pre) ++ [j]), true).
Proof.
  intros Hns. rewrite (worker_loop_app _ _ _ _ Hns), (worker_loop_all _ _ _ Hns). simpl.
  by rewrite app_assoc.
Qed.

Lemma worker_loop_stop_witness :
  worker_loop false worker_start
    [(1%nat, JCompleted ok_record_example); (2%nat, JStopped); (3%nat, JTimedOut)] =
  (mkWorkerState 2 [ok_record_example] [2%nat], true).
Proof.
  refine (eq_trans (worker_loop_stop false worker_start [(1%nat, JCompleted ok_record_example)]
                     2%nat [(3%nat, JTimedOut)] _) _); [repeat constructor | reflexivity].
Defined.

Lemma length_emits {Job} (skip : bool) (c : Z) (jobs : list (Job * JobOutcome)) :
  1 <= c -> Forall (fun jo => not_stopped jo.2) jobs ->
  length (concat (imap (fun i jo => job_emits skip (c + Z.of_nat i + 1) jo.2) jobs)) = length jobs.
Proof.
  revert c. induction jobs as [|[job o] jobs IH]; intros c Hc Hns; simpl; [done|].
  inversion Hns as [|? ? Ho Hns']; subst.
  rewrite length_app, imap_emits_shift, IH by (done || lia).
  destruct o; simpl in Ho |- *; [| |contradiction]; [|done].
  replace (1 <? c + Z.of_nat 0 + 1) with true by (symmetry; apply Z.ltb_lt; lia).
  by destruct skip.
Qed.

(** C16: skip-first.  Every job a worker processes yields exactly one
    record, except its first job when skip-first is set and that job
    completed: that record is dropped.  When the first job timed out
    instead, its timeout record is sent and nothing is held back. *)
Theorem worker_skip_first {Job} (skip : bool) (j : Job) (o : JobOutcome)
    (jobs : list (Job * JobOutcome)) :
  Forall (fun jo => not_stopped jo.2) ((j, o) :: jobs) ->
  length (emitted (worker_loop skip worker_start ((j, o) :: jobs)).1) =
    ((if skip && is_completed o then 0 else 1) + length jobs)%nat.
Proof.
  intros Hns. rewrite worker_loop_all by done. simpl.
  inversion Hns as [|? ? Ho Hns']; subst.
  rewrite length_app, imap_emits_shift, length_emits by (done || lia).
  destruct o as [r| |]; simpl in Ho |- *; [| |contradiction].
  - by destruct skip.
  - by destruct skip.
Qed.

Lemma worker_skip_first_witness :
  length (emitted (worker_loop true worker_start
    [(1%nat, JCompleted ok_record_example); (2%nat, JCompleted ok_record_example);
     (3%nat, JTimedOut)]).1) = 2%nat.
Proof.
  rewrite (worker_skip_first true 1%nat (JCompleted ok_record_example)); [|repeat constructor].
  reflexivity.
Defined.
