(* ===== verification/Timer.v ===== *)
(** * The execution timer of a worker ([HTTPWorker.Run], [src/http.go])

    Each worker creates one [time.Timer] after [startRun.Wait()] and, for
    every job, calls [TakeRatelimitToken], [timer.Reset(executionTimeout)]
    and then selects between the job's result and [timer.C].  The timer
    is modelled with the semantics of Go before 1.23, which the code was
    written for: when the deadline passes, the runtime puts one value in
    the one-slot channel [C] (none if the slot is full), [Reset] re-arms
    the deadline and leaves [C] as it is, and a receive empties the slot.
    Time is explicit: a job comes with the idle time before the worker
    gets it (waiting on [jobs] and on the rate limiter), the time [send]
    takes to deliver its record, and that record.  The outcome of each
    select is the [JobOutcome] that [Worker.worker_loop] consumes.

    Theorems: while every job is dequeued before the timer armed for the
    previous one expires, each job gets the full [executionTimeout]
    (result if it is faster, timeout otherwise); a worker idle past the
    previous deadline finds a stale value in [C] and times out its next
    job at once, whatever that job's latency.  (Go 1.23 changed [Reset]
    to empty [C]; with that semantics the stale value cannot arise.) *)

From S2P Require Import Prelude Types Worker.

(** A [time.Timer]: its armed deadline, if any, and whether the slot of
    [C] holds a value. *)
Record Timer := mkTimer { deadline : option Z; buffered : bool }.

(** [time.NewTimer(d)] at time [t]. *)
Definition NewTimer (t d : Z) : Timer := mkTimer (Some (t + d)) false.

(** Time passes until [t]: a deadline at or before [t] fires, putting a
    value in [C] (the runtime's send is dropped if the slot is full). *)
Definition advance (t : Z) (tm : Timer) : Timer :=
  match deadline tm with
  | Some dl => if dl <=? t then mkTimer None true else tm
  | None => tm
  end.

(** [timer.Reset(d)] at time [t]: re-arm, keep the slot. *)
Definition Reset (t d : Z) (tm : Timer) : Timer := mkTimer (Some (t + d)) (buffered tm).

(** A receive from [C]. *)
Definition drain (tm : Timer) : Timer := mkTimer (deadline tm) false.

Record TimedJob (Job : Type) := mkTimedJob {
  tj_job : Job;
  gap : Z;          (** time from the end of the previous select to [timer.Reset] *)
  latency : Z;      (** time from [h.send(job)] to its record on [asyncResult] *)
  result : Record_  (** that record *)
}.
Arguments mkTimedJob {Job}.
Arguments tj_job {Job}.
Arguments gap {Job}.
Arguments latency {Job}.
Arguments result {Job}.

Section Timed.
Context {Job : Type}.
Variable executionTimeout : Z.

(** One iteration of [for job := range h.jobs] starting at time [t]:
    the job is dequeued and the timer reset at [t + gap]; a value already
    in [C] is taken at once; otherwise the select takes the result if it
    comes before the deadline and the timer (which then fires and is
    drained) if not.  A result and a deadline at the same instant are
    both ready and Go may take either; the model takes the timer.  The
    outcome, the timer and the time the select ends. *)
Definition timed_select (t : Z) (j : TimedJob Job) (tm : Timer) : JobOutcome * Timer * Z :=
  let t0 := t + gap j in
  let tm1 := Reset t0 executionTimeout (advance t0 tm) in
  if buffered tm1 then (JTimedOut, drain tm1, t0)
  else if latency j <? executionTimeout then (JCompleted (result j), tm1, t0 + latency j)
  else (JTimedOut, drain (advance (t0 + executionTimeout) tm1), t0 + executionTimeout).

Fixpoint timed_outcomes (t : Z) (tm : Timer) (jobs : list (TimedJob Job)) : list (Job * JobOutcome) :=
  match jobs with
  | [] => []
  | j :: rest =>
      let '(o, tm', t') := timed_select t j tm in
      (tj_job j, o) :: timed_outcomes t' tm' rest
  end.

(** [timer := time.NewTimer(executionTimeout)] at time [ts], then the loop. *)
Definition timed_run (ts : Z) (jobs : list (TimedJob Job)) : list (Job * JobOutcome) :=
  timed_outcomes ts (NewTimer ts executionTimeout) jobs.

(** What the spec asks of each job: its result when it comes within the
    timeout, a timeout otherwise. *)
Definition per_job (j : TimedJob Job) : Job * JobOutcome :=
  (tj_job j, if latency j <? executionTimeout then JCompleted (result j) else JTimedOut).

(** Every job is dequeued before the deadline armed for the previous one
    ([slack] is the time left on it after the previous select, [None]
    when it fired and was drained). *)
Fixpoint on_time (slack : option Z) (jobs : list (TimedJob Job)) : bool :=
  match jobs with
  | [] => true
  | j :: rest =>
      match slack with Some s => gap j <? s | None => true end &&
      on_time (if latency j <? executionTimeout then Some (executionTimeout - latency j) else None) rest
  end.

End Timed.

(** ** Lemmas *)

Section TimedLemmas.
Context {Job : Type}.
Variable d : Z.
Hypothesis d_pos : 0 < d.

(** The timer after a select, described by the slack left on it: [C]
    is empty, and the deadline is [slack] ahead, or disarmed. *)
Definition timer_ok (t : Z) (slack : option Z) (tm : Timer) : Prop :=
  buffered tm = false /\
  match slack with
  | Some s => deadline tm = Some (t + s) /\ 0 < s
  | None => deadline tm = None
  end.

Definition next_slack (j : TimedJob Job) : option Z :=
  if latency j <? d then Some (d - latency j) else None.

Lemma timed_select_on_time (t : Z) (slack : option Z) (tm : Timer) (j : TimedJob Job) :
  timer_ok t slack tm -> 0 <= gap j -> 0 < latency j ->
  match slack with Some s => gap j < s | None => True end ->
  exists tm' t', timed_select d t j tm = ((per_job d j).2, tm', t') /\ timer_ok t' (next_slack j) tm'.
Proof.
  intros [Hb Hs] Hg Hl Hgap. unfold timed_select, per_job, next_slack, advance.
  assert (Hadv : match deadline tm with
                 | Some dl => if dl <=? t + gap j then mkTimer None true else tm
                 | None => tm end = tm).
  { destruct slack as [s|]; [destruct Hs as [-> Hs]|rewrite Hs]; [|reflexivity]. zcase. }
  rewrite Hadv. unfold Reset. cbn [buffered deadline]. rewrite Hb.
  destruct (Z.ltb_spec (latency j) d).
  - eexists _, _. split; [reflexivity|]. split; [reflexivity|]. simpl. split; [f_equal|]; lia.
  - cbn [deadline]. destruct (Z.leb_spec (t + gap j + d) (t + gap j + d)); [|lia].
    eexists _, _. split; [reflexivity|]. split; reflexivity.
Qed.
End TimedLemmas.

(** ** Properties *)

(** C17: per-job timeout.  While every job is dequeued before the timer
    armed for the previous one expires (at start, before
    [executionTimeout] has passed since [NewTimer]), the worker's select
    gives each job exactly what the timeout promises: its record when it
    arrives within [executionTimeout], a timeout otherwise. *)
Theorem timed_run_per_job {Job} (d ts : Z) (jobs : list (TimedJob Job)) :
  0 < d -> Forall (fun j => 0 <= gap j /\ 0 < latency j) jobs -> on_time d (Some d) jobs = true ->
  timed_run d ts jobs = map (per_job d) jobs.
Proof.
  intros Hd Hjobs Hon. unfold timed_run.
  assert (Hok : timer_ok ts (Some d) (NewTimer ts d)) by (repeat split; lia).
  revert Hok Hon. generalize (Some d) as slack. generalize (NewTimer ts d) as tm. revert ts.
  induction jobs as [|j rest IH]; intros t tm slack Hok Hon; [reflexivity|].
  inversion Hjobs as [|? ? [Hg Hl] Hrest]; subst. simpl in Hon. apply andb_prop in Hon as [Hgap Hon].
  destruct (timed_select_on_time d t slack tm j Hok Hg Hl) as (tm' & t' & Hsel & Hok');
    [destruct slack as [s|]; [apply Z.ltb_lt; exact Hgap | exact I]|].
  simpl. rewrite Hsel. rewrite (IH Hrest t' tm' _ Hok' Hon). reflexivity.
Qed.

(** C18: stale timer value.  A worker that stays idle (waiting for a job
    or for a rate-limit token) past the deadline armed for its previous,
    successful job finds that deadline's value still in [timer.C] after
    [Reset]: its next job is reported as timed out at once, however fast
    that job is. *)
Theorem stale_tick_spurious_timeout {Job} (d ts : Z) (j1 j2 : TimedJob Job) (rest : list (TimedJob Job)) :
  0 <= gap j1 < d -> 0 < latency j1 < d -> d <= latency j1 + gap j2 ->
  firstn 2 (timed_run d ts (j1 :: j2 :: rest)) =
    [(tj_job j1, JCompleted (result j1)); (tj_job j2, JTimedOut)].
Proof.
  intros Hg1 Hl1 Hstale. unfold timed_run, NewTimer. simpl.
  unfold timed_select at 1, advance at 1, Reset at 1. cbn [deadline buffered].
  destruct (Z.leb_spec (ts + d) (ts + gap j1)); [lia|]. cbn [buffered].
  destruct (Z.ltb_spec (latency j1) d); [|lia]. simpl.
  unfold timed_select, advance, Reset. cbn [deadline buffered].
  destruct (Z.leb_spec (ts + gap j1 + d) (ts + gap j1 + latency j1 + gap j2)); [|lia].
  reflexivity.
Qed.

Definition ok_job (n : Z) (g : Z) : TimedJob Z := mkTimedJob n g (50 * Millisecond) ok_record_example.

Lemma timed_run_per_job_witness :
  timed_run (30 * Second) 0 [ok_job 1 0; ok_job 2 Second; mkTimedJob 3 0 (31 * Second) ok_record_example] =
  [(1, JCompleted ok_record_example); (2, JCompleted ok_record_example); (3, JTimedOut)].
Proof.
  rewrite (timed_run_per_job (30 * Second) 0 [ok_job 1 0; ok_job 2 Second; mkTimedJob 3 0 (31 * Second) ok_record_example]).
  - reflexivity.
  - unfold Second, Millisecond; lia.
  - repeat constructor; simpl; unfold Second, Millisecond; lia.
  - reflexivity.
Defined.

Lemma stale_tick_spurious_timeout_witness :
  firstn 2 (timed_run (30 * Second) 0 [ok_job 1 0; ok_job 2 (31 * Second)]) =
    [(1, JCompleted ok_record_example); (2, JTimedOut)].
Proof.
  apply (stale_tick_spurious_timeout (30 * Second) 0 (ok_job 1 0) (ok_job 2 (31 * Second)) []);
    simpl; unfold Second, Millisecond; lia.
Defined.
