(* ===== verification/Report.v ===== *)
(** * The latency reducers of [src/report.go]

    The part of [PrintReport] that computes numbers: the guard
    [len(responseTimeData) > 0 && totalResponseTime > 0], [stdDev], the
    sort of the latencies ([sort.Sort(durationSlice(...))], modelled by
    stdpp's [merge_sort] on [Z.le]: any sort yields the same list, see
    [sortDurations_unique]), the mean, min, median, max and the
    percentile lookups [responseTimeData[percentage*len/100]], with
    Go's bounds check on the index.  [stdDev] returns a [float64] square
    root; the model computes the value under the root exactly, in [Q]
    ([stdDev_sq]), and does not model floating-point rounding.  The
    lines [PrintReport] writes are in [Printing]. *)

From Stdlib Require Import QArith.
From stdpp Require Import sorting.
From S2P Require Import Prelude Types Stats.

(** [responseTimeData[i]]: Go panics on an index out of range. *)
Definition go_index (l : list Z) (i : Z) : go Z :=
  if (0 <=? i) && (i <? Z.of_nat (length l)) then Ok (nth (Z.to_nat i) l 0)
  else Panic "runtime error: index out of range".

(** [sort.Sort(durationSlice(responseTimeData))], [Less] is [<]. *)
Definition sortDurations (data : list Z) : list Z := merge_sort Z.le data.

(** [stdDev]: [avg := float64(sum / int64(len(data)))] (an integer
    division, which panics on an empty slice), then the mean of the
    squared deviations; [stdDev] is its square root. *)
Definition stdDev_sq (data : list Z) : go Q :=
  let sum := fold_left (fun acc d => acc +i64 d) data 0 in
  let! avg := go_quot sum (Z.of_nat (length data)) in
  Ok (fold_left (fun acc d => acc + inject_Z ((d - avg) * (d - avg)))%Q data 0%Q
      / inject_Z (Z.of_nat (length data)))%Q.

(** [div]: a duration per count in milliseconds, 0 for no count. *)
Definition div (dur : Z) (count : Z) : Q :=
  if count =? 0 then 0%Q else (inject_Z dur / inject_Z Millisecond / inject_Z count)%Q.

Definition percentages : list Z := [50; 66; 75; 80; 90; 95; 98; 99].

Record LatencyReport := mkLatencyReport {
  minResponseTime : Z;
  meanOfResponseTime : Z;
  stdDevSq : Q;              (* stdDevOfResponseTime squared, in ns^2 *)
  medianOfResponseTime : Z;
  maxResponseTime : Z;
  percentileTimes : list Z   (* one per entry of [percentages], in ms *)
}.

(** The latency block of [PrintReport] ([None] when the guard fails). *)
Definition latency_report (s : Stats) : go (option LatencyReport) :=
  let data := responseTimeData s in
  let len := Z.of_nat (length data) in
  if (0 <? len) && (0 <? totalResponseTime s) then
    let! sd := stdDev_sq data in
    let sorted := sortDurations data in
    let! mean0 := go_quot (totalResponseTime s) (totalRequests s - totalFailedReqeusts s) in
    let! mean := go_quot mean0 Millisecond in
    let! median := go_index sorted (Z.quot len 2) in
    let! mn := go_index sorted 0 in
    let! mx := go_index sorted (len - 1) in
    let! ps := mapM (fun p => let! v := go_index sorted (Z.quot (p * len) 100) in
                              go_quot v Millisecond) percentages in
    Ok (Some (mkLatencyReport (Z.quot mn Millisecond) mean sd
                 (Z.quot median Millisecond) (Z.quot mx Millisecond) ps))
  else Ok None.

(** ** Sorting *)

#[local] Instance Z_le_total : Total Z.le.
Proof. intros x y. lia. Qed.
#[local] Instance Z_le_antisymm : AntiSymm (=) Z.le.
Proof. intros x y ? ?. lia. Qed.
#[local] Instance Z_le_trans : Transitive Z.le.
Proof. intros x y z ? ?. lia. Qed.

Lemma sortDurations_sorted (data : list Z) : Sorted Z.le (sortDurations data).
Proof. apply Sorted_merge_sort. exact Z_le_total. Qed.

Lemma sortDurations_perm (data : list Z) : sortDurations data ≡ₚ data.
Proof. apply merge_sort_Permutation. Qed.

(** Any sorted permutation of the latencies is [sortDurations]: the
    algorithm of [sort.Sort] does not matter. *)
Lemma sortDurations_unique (data l : list Z) :
  Sorted Z.le l -> l ≡ₚ data -> l = sortDurations data.
Proof.
  intros Hs Hp. apply (Sorted_unique Z.le); [done|apply sortDurations_sorted|].
  by rewrite sortDurations_perm.
Qed.

Lemma length_sortDurations (data : list Z) : length (sortDurations data) = length data.
Proof. apply Permutation_length, sortDurations_perm. Qed.

Lemma go_index_ok (l : list Z) (i : Z) :
  0 <= i < Z.of_nat (length l) -> go_index l i = Ok (nth (Z.to_nat i) l 0).
Proof. intros Hi. unfold go_index. zcase. Qed.

Lemma percentile_index_ok (p len : Z) :
  0 <= p <= 99 -> 0 < len -> 0 <= (p * len) ÷ 100 < len.
Proof. intros Hp Hl. rewrite Z.quot_div_nonneg by nia. Z.to_euclidean_division_equations; nia. Qed.

Lemma fold_i64_sum (data : list Z) (a : Z) :
  fold_left (fun acc d => acc +i64 d) data (wrap64 a) = wrap64 (a + sum_Z data).
Proof.
  revert a. induction data as [|d data IH]; intros a; simpl; [by rewrite Z.add_0_r|].
  change (wrap64 a +i64 d) with (wrap64 (wrap64 a + d)).
  rewrite wrap64_add_l, IH. f_equal. lia.
Qed.

Lemma stdDev_sq_ok (data : list Z) :
  data <> [] -> exists q, stdDev_sq data = Ok q.
Proof.
  intros Hne. unfold stdDev_sq. rewrite go_quot_ok; [by eexists|].
  destruct data; [done|simpl; lia].
Qed.

Lemma percentile_le_max (sorted : list Z) (k : Z) :
  Sorted Z.le sorted -> 0 <= k < Z.of_nat (length sorted) ->
  nth (Z.to_nat k) sorted 0 ÷ Millisecond <= nth (length sorted - 1) sorted 0 ÷ Millisecond.
Proof.
  intros Hs Hk. apply Z.quot_le_mono; [unfold Millisecond; lia|].
  apply sorted_le_last; [done|]. apply nth_In. lia.
Qed.

Lemma percentiles_ok (sorted : list Z) :
  Sorted Z.le sorted -> sorted <> [] ->
  exists ps, mapM (fun p => let! v := go_index sorted (Z.quot (p * Z.of_nat (length sorted)) 100) in
                            go_quot v Millisecond) percentages = Ok ps /\
    length ps = length percentages /\
    Forall (fun v => v <= nth (length sorted - 1) sorted 0 ÷ Millisecond) ps.
Proof.
  intros Hs Hne.
  assert (Hlen : 0 < Z.of_nat (length sorted)) by (destruct sorted; [done|simpl; lia]).
  assert (Hp : forall p, In p percentages -> 0 <= p <= 99)
    by (intros p Hin; repeat (destruct Hin as [<-|Hin]; [lia|]); done).
  destruct (go_mapM_ok (fun p => let! v := go_index sorted (Z.quot (p * Z.of_nat (length sorted)) 100) in
                                 go_quot v Millisecond) percentages) as (ps & Hps & Hall).
  { intros p Hin. rewrite go_index_ok by (apply percentile_index_ok; auto).
    cbn [go_then]. rewrite go_quot_ok by (unfold Millisecond; lia). eauto. }
  exists ps. split; [done|]. split; [by apply Forall2_length in Hall|].
  assert (Hp' : Forall (fun p => 0 <= p <= 99) percentages) by (repeat constructor; lia).
  clear Hp Hps. revert Hp'.
  induction Hall as [|p v ps' vs Hpv _ IH]; intros Hp'; constructor;
    inversion Hp' as [|? ? Hp0 Hp1]; subst.
  - rewrite go_index_ok in Hpv by (by apply percentile_index_ok).
    cbn [go_then] in Hpv. rewrite go_quot_ok in Hpv by (unfold Millisecond; lia).
    injection Hpv as <-. apply percentile_le_max; [done|].
    by apply percentile_index_ok.
  - by apply IH.
Qed.

(** ** Theorems *)

Lemma latency_report_props (s : Stats) :
  stats_wf s -> responseTimeData s <> [] -> 0 < totalResponseTime s ->
  exists rep, latency_report s = Ok (Some rep) /\
    meanOfResponseTime rep =
      (wrap64 (sum_Z (responseTimeData s)) ÷ Z.of_nat (length (responseTimeData s))) ÷ Millisecond /\
    (forall d, In d (responseTimeData s) -> d ÷ Millisecond <= maxResponseTime rep) /\
    (exists d, In d (responseTimeData s) /\ maxResponseTime rep = d ÷ Millisecond) /\
    length (percentileTimes rep) = length percentages /\
    Forall (fun v => v <= maxResponseTime rep) (percentileTimes rep).
Proof.
  intros (Htot & _ & Hlen & Hsum & _ & _) Hne Hpos.
  set (data := responseTimeData s) in *. set (sorted := sortDurations data).
  assert (Hl : 0 < Z.of_nat (length data)) by (destruct data; [done|simpl; lia]).
  assert (Hls : length sorted = length data) by apply length_sortDurations.
  assert (Hss : Sorted Z.le sorted) by apply sortDurations_sorted.
  assert (Hsne : sorted <> []) by (intros E; rewrite E in Hls; destruct data; simpl in *; lia).
  assert (Hms : Millisecond <> 0) by (unfold Millisecond; lia).
  destruct (stdDev_sq_ok data Hne) as [sd Hsd].
  destruct (percentiles_ok sorted Hss Hsne) as (ps & Hps & Hpsl & Hpsle).
  unfold latency_report. fold data. fold sorted.
  destruct (Z.ltb_spec 0 (Z.of_nat (length data))); [|lia].
  destruct (Z.ltb_spec 0 (totalResponseTime s)); [|lia]. cbn [andb negb].
  rewrite Hsd. cbn [go_then].
  rewrite go_quot_ok by lia. cbn [go_then]. rewrite go_quot_ok by done. cbn [go_then].
  rewrite !go_index_ok by (rewrite Hls; try rewrite Z.quot_div_nonneg; lia_div).
  cbn [go_then]. rewrite <- Hls, Hps. cbn [go_then].
  eexists. split; [reflexivity|]. cbn [meanOfResponseTime maxResponseTime percentileTimes].
  rewrite to_nat_pred.
  split; [rewrite Htot, Hsum, Hls, Hlen; do 2 f_equal; lia|].
  split; [|split; [|done]].
  - intros d Hd. apply Z.quot_le_mono; [unfold Millisecond; lia|].
    apply sorted_le_last; [done|]. eapply Permutation_in; [|exact Hd].
    symmetry. apply sortDurations_perm.
  - exists (nth (length sorted - 1) sorted 0). split; [|done].
    eapply Permutation_in; [apply sortDurations_perm|]. by apply nth_last_In.
Qed.

(** The latency block never panics on statistics that satisfy the
    accounting invariant: the mean divides by
    [totalRequests - totalFailedReqeusts], which is the number of
    latencies, so it is non-zero inside the guard; every index is in
    range.  The mean is the wrapped sum over the success count, the
    reported maximum is the largest latency, and every reported
    percentile is at most the maximum. *)
Theorem latency_report_spec (s : Stats) :
  stats_wf s -> responseTimeData s <> [] -> 0 < totalResponseTime s ->
  exists rep, latency_report s = Ok (Some rep) /\
    meanOfResponseTime rep =
      (wrap64 (sum_Z (responseTimeData s)) ÷ Z.of_nat (length (responseTimeData s))) ÷ Millisecond /\
    (forall d, In d (responseTimeData s) -> d ÷ Millisecond <= maxResponseTime rep) /\
    (exists d, In d (responseTimeData s) /\ maxResponseTime rep = d ÷ Millisecond) /\
    length (percentileTimes rep) = length percentages /\
    Forall (fun v => v <= maxResponseTime rep) (percentileTimes rep).
Proof. apply latency_report_props. Qed.

(** On well-formed statistics the latency block never panics. *)
Lemma latency_report_total (s : Stats) : stats_wf s -> exists r, latency_report s = Ok r.
Proof.
  intros Hwf. destruct (responseTimeData s) as [|x l] eqn:Hd.
  - exists None. unfold latency_report. by rewrite Hd.
  - destruct (Z.ltb_spec 0 (totalResponseTime s)).
    + destruct (latency_report_props s Hwf ltac:(by rewrite Hd) ltac:(lia)) as (rep & Hrep & _). eauto.
    + exists None. unfold latency_report. rewrite Hd. destruct (Z.ltb_spec 0 (totalResponseTime s)); [lia|].
      by rewrite andb_false_r.
Qed.

(** Statistics of 100 successes of 50ms, for the witnesses. *)
Definition ok50_record : Record_ := mkRecord (50 * Millisecond) 1024 None.
Definition stats_100_ok50 : Stats := fold_left updateStats (repeat ok50_record 100) newStats.

Lemma latency_report_spec_witness :
  exists rep, latency_report stats_100_ok50 = Ok (Some rep) /\
    maxResponseTime rep = 50 /\ meanOfResponseTime rep = 50.
Proof.
  destruct (latency_report_spec stats_100_ok50) as (rep & Hrep & _);
    [apply fold_updateStats_wf, newStats_wf | vm_compute; discriminate | vm_compute; reflexivity |].
  exists rep. split; [exact Hrep|].
  vm_compute in Hrep. injection Hrep as <-. split; reflexivity.
Defined.

(** ** stdDev *)

Section QFold.
Variable f : Z -> Q.

Lemma Qfold_plus (l : list Z) (a : Q) :
  (fold_left (fun acc x => acc + f x) l a == a + fold_left (fun acc x => acc + f x) l 0)%Q.
Proof.
  revert a. induction l as [|x l IH]; intros a; simpl; [ring|].
  rewrite IH, (IH (0 + f x)%Q). ring.
Qed.

Lemma Qfold_zero (l : list Z) :
  Forall (fun x => f x == 0)%Q l -> (fold_left (fun acc x => acc + f x) l 0 == 0)%Q.
Proof.
  induction 1 as [|x l Hx _ IH]; simpl; [reflexivity|].
  rewrite Qfold_plus, IH, Hx. reflexivity.
Qed.
End QFold.

(** The integer mean of [n] equal latencies [d] is [d] (as long as their
    sum fits in an [int64]). *)
Lemma mean_repeat (d : Z) (n : nat) :
  (1 <= n)%nat -> 0 <= d -> Z.of_nat n * d <= int64_max ->
  go_quot (fold_left (fun acc x => acc +i64 x) (repeat d n) 0) (Z.of_nat n) = Ok d.
Proof.
  intros Hn Hd Hmax. change 0 with (wrap64 0) at 1. rewrite fold_i64_sum.
  assert (Hsum : sum_Z (repeat d n) = Z.of_nat n * d)
    by (induction n as [|n IH]; simpl; [lia|destruct n; simpl in *; lia]).
  rewrite Z.add_0_l, Hsum, wrap64_id by (unfold in_int64, int64_min, int64_max in *; lia).
  rewrite go_quot_ok by lia. rewrite Z.mul_comm, Z.quot_mul by lia. reflexivity.
Qed.

(** The deviation of a sample whose latencies are all equal is
    zero, in particular for a single latency (as long as their sum fits
    in an [int64]). *)
Lemma stdDev_const (d : Z) (n : nat) :
  (1 <= n)%nat -> 0 <= d -> Z.of_nat n * d <= int64_max ->
  exists q, stdDev_sq (repeat d n) = Ok q /\ (q == 0)%Q.
Proof.
  intros Hn Hd Hmax. unfold stdDev_sq.
  rewrite repeat_length, mean_repeat by assumption. cbn [go_then].
  eexists. split; [reflexivity|].
  rewrite (Qfold_zero (fun x => inject_Z ((x - d) * (x - d)))); [unfold Qdiv; apply Qmult_0_l|].
  apply List.Forall_forall. intros x Hx%repeat_spec. subst. rewrite Z.sub_diag. reflexivity.
Qed.

(** The mean inside [stdDev] is truncated to whole nanoseconds before the
    deviations are taken: for the latencies 1ns and 2ns the value under
    the root is 1/2, where the population variance is 1/4. *)
Remark stdDev_truncated_mean : stdDev_sq [1; 2] = Ok (1 # 2)%Q.
Proof. reflexivity. Qed.

(** ** A sample of equal latencies *)

Lemma sorted_repeat (d : Z) (n : nat) : Sorted Z.le (repeat d n).
Proof.
  induction n as [|n IH]; simpl; constructor; [done|].
  destruct n; constructor. lia.
Qed.

Lemma go_index_repeat (d i : Z) (n : nat) :
  0 <= i < Z.of_nat n -> go_index (repeat d n) i = Ok d.
Proof.
  intros Hi. rewrite go_index_ok by (rewrite repeat_length; lia). f_equal.
  apply (repeat_spec n d). apply nth_In. rewrite repeat_length. lia.
Qed.

Lemma Forall2_const_repeat {A} (l : list A) (ys : list Z) (c : Z) :
  Forall2 (fun _ y => y = c) l ys -> ys = repeat c (length l).
Proof. induction 1; simpl; congruence. Qed.

(** [n] successes of the same latency [d] and size [cs]. *)
Definition uniform_records (d cs : Z) (n : nat) : list Record_ := repeat (mkRecord d cs None) n.

Lemma uniform_stats (d cs : Z) (n : nat) :
  let s := fold_left updateStats (uniform_records d cs n) newStats in
  responseTimeData s = repeat d n /\ totalRequests s = Z.of_nat n /\
  totalFailedReqeusts s = 0 /\ totalResponseTime s = wrap64 (Z.of_nat n * d).
Proof.
  destruct (fold_summary (uniform_records d cs n)) as (Hd & Ht & _ & Hr & _ & Hf & _).
  unfold uniform_records, successes in *.
  assert (Hs : List.filter (fun r => negb (is_error r)) (repeat (mkRecord d cs None) n) = repeat (mkRecord d cs None) n)
    by (clear; induction n as [|n IH]; cbn; congruence).
  assert (He : List.filter is_error (repeat (mkRecord d cs None) n) = [])
    by (clear; induction n as [|n IH]; cbn; congruence).
  rewrite Hs in Hd, Hr. rewrite He in Hf. rewrite repeat_length in Ht.
  rewrite map_repeat in Hd, Hr. simpl in Hd, Hr. split; [done|]. split; [done|]. split; [done|].
  rewrite Hr. f_equal. clear. induction n as [|n IH]; simpl; [done|]. rewrite IH. lia.
Qed.

Lemma uniform_latency (d cs : Z) (n : nat) :
  (1 <= n)%nat -> 0 < d -> Z.of_nat n * d <= int64_max ->
  exists rep, latency_report (fold_left updateStats (uniform_records d cs n) newStats) = Ok (Some rep) /\
    minResponseTime rep = d ÷ Millisecond /\ meanOfResponseTime rep = d ÷ Millisecond /\
    medianOfResponseTime rep = d ÷ Millisecond /\ maxResponseTime rep = d ÷ Millisecond /\
    (stdDevSq rep == 0)%Q /\ percentileTimes rep = repeat (d ÷ Millisecond) (length percentages).
Proof.
  intros Hn Hd Hmax. destruct (uniform_stats d cs n) as (Hdata & Ht & Hf & Hr).
  set (s := fold_left _ _ _) in *.
  assert (Hms : Millisecond <> 0) by (unfold Millisecond; lia).
  assert (Hin : in_int64 (Z.of_nat n * d)) by (unfold in_int64, int64_min in *; nia).
  rewrite wrap64_id in Hr by exact Hin.
  destruct (stdDev_const d n Hn ltac:(lia) Hmax) as (q & Hq & Hq0).
  assert (Hps : mapM (fun p => let! v := go_index (repeat d n) (Z.quot (p * Z.of_nat n) 100) in
                               go_quot v Millisecond) percentages = Ok (repeat (d ÷ Millisecond) (length percentages))).
  { apply go_mapM_const. intros p Hp. rewrite go_index_repeat; [cbn [go_then]; by rewrite go_quot_ok|].
    apply percentile_index_ok; [|lia]. repeat (destruct Hp as [<-|Hp]; [lia|]); done. }
  unfold latency_report. rewrite Hdata, Hr, Ht, Hf, Hq, repeat_length.
  rewrite <- (sortDurations_unique (repeat d n) (repeat d n)) by (done || apply sorted_repeat).
  destruct (Z.ltb_spec 0 (Z.of_nat n)); [|lia]. destruct (Z.ltb_spec 0 (Z.of_nat n * d)); [|nia].
  cbn [andb go_then]. rewrite Z.sub_0_r, !go_quot_ok by lia. cbn [go_then].
  rewrite Z.mul_comm, Z.quot_mul by lia.
  rewrite !go_index_repeat by (rewrite ?Z.quot_div_nonneg; lia_div). cbn [go_then].
  rewrite Hps. cbn [go_then].
  eexists. split; [reflexivity|]. cbn. by repeat split.
Qed.

(** Equal latencies.  After [n >= 1] successes that all took [d]
    nanoseconds (the sum fitting in an [int64]), the latency block of the
    report gives [d] in whole milliseconds as the minimum, the mean, the
    median, the maximum and every percentile, and a standard deviation of
    zero (the spec's scenario of 100 requests of 50ms). *)
Theorem uniform_latency_report (d cs : Z) (n : nat) :
  (1 <= n)%nat -> 0 < d -> Z.of_nat n * d <= int64_max ->
  exists rep, latency_report (fold_left updateStats (uniform_records d cs n) newStats) = Ok (Some rep) /\
    minResponseTime rep = d ÷ Millisecond /\ meanOfResponseTime rep = d ÷ Millisecond /\
    medianOfResponseTime rep = d ÷ Millisecond /\ maxResponseTime rep = d ÷ Millisecond /\
    (stdDevSq rep == 0)%Q /\ percentileTimes rep = repeat (d ÷ Millisecond) (length percentages).
Proof. apply uniform_latency. Qed.

Lemma uniform_latency_report_witness :
  exists rep, latency_report (fold_left updateStats (uniform_records (50 * Millisecond) 1024 100) newStats) = Ok (Some rep) /\
    meanOfResponseTime rep = 50 /\ percentileTimes rep = repeat 50 8.
Proof.
  destruct (uniform_latency_report (50 * Millisecond) 1024 100) as (rep & H & _ & Hm & _ & _ & _ & Hp);
    [lia | unfold Millisecond; lia | unfold int64_max, Millisecond; lia |].
  exists rep. split; [exact H|]. rewrite Hm, Hp. split; reflexivity.
Defined.
