(* ===== verification/Benchmark.v ===== *)
(** * The dispatcher ([src/benchmark.go])

    [NewBenchmark], [Benchmark.Run] and [Benchmark.RunCustom]: the jobs a
    dispatcher produces (clones of one base request, or the requests of a
    [CustomRequest] strategy), and how it fills the bounded [jobs]
    channel and closes it.  A buffered Go channel is its queue, its
    capacity and whether it is closed ([Chan]); a send on a full channel
    blocks ([ChBlocked]), a send on or a close of a closed channel
    panics.  Request construction ([NewHTTPRequest], [CopyHTTPRequest])
    only calls [net/http] and is a parameter. *)

From S2P Require Import Prelude Types Context Worker.

(** ** The [CustomRequest] interface of [src/http.go] *)

Class CustomRequest (Req : Type) := {
  Prepare : Config -> option Req -> Z -> Req * option GoError;
  HandleResult : ResultHandler
}.

(** ** Buffered channels *)

Record Chan (A : Type) := mkChan { ch_buf : list A; ch_cap : Z; ch_closed : bool }.
Arguments mkChan {A}.
Arguments ch_buf {A}.
Arguments ch_cap {A}.
Arguments ch_closed {A}.

Inductive SendResult (A : Type) := ChSent (c : Chan A) | ChBlocked.
Arguments ChSent {A}.
Arguments ChBlocked {A}.

(** The runtime's bound on one allocation on 64-bit Linux
    ([maxAlloc = 1 << 48]) and the size of a channel header ([hchanSize],
    96 bytes up to Go 1.22). *)
Definition maxAlloc : Z := 2 ^ 48.
Definition hchanSize : Z := 96.

(** [make(chan *T, cap)]: both channels of the program carry pointers
    (8 bytes); [runtime.makechan] panics on a negative capacity and on a
    buffer larger than [maxAlloc - hchanSize]. *)
Definition make_chan {A} (cap : Z) : go (Chan A) :=
  if (cap <? 0) || (maxAlloc - hchanSize <? 8 * cap) then Panic "makechan: size out of range"
  else Ok (mkChan [] cap false).

(** [ch <- x]. *)
Definition chan_send {A} (c : Chan A) (x : A) : go (SendResult A) :=
  if ch_closed c then Panic "send on closed channel"
  else if Z.of_nat (length (ch_buf c)) <? ch_cap c
  then Ok (ChSent (mkChan (ch_buf c ++ [x]) (ch_cap c) false))
  else Ok ChBlocked.

(** [close(ch)]. *)
Definition chan_close {A} (c : Chan A) : go (Chan A) :=
  if ch_closed c then Panic "close of closed channel"
  else Ok (mkChan (ch_buf c) (ch_cap c) true).

(** [x, ok := <-ch]: [None] when the receive blocks. *)
Definition chan_recv {A} (c : Chan A) : option (option A * Chan A) :=
  match ch_buf c with
  | x :: rest => Some (Some x, mkChan rest (ch_cap c) (ch_closed c))
  | [] => if ch_closed c then Some (None, c) else None
  end.

(** ** The jobs of a campaign *)

Section Dispatcher.
Context {Req : Type}.
Variable NewHTTPRequest : Config -> Req.
Variable CopyHTTPRequest : Config -> Req -> Req.

(** [NewBenchmark]: the [Collector] holds [requests] records. *)
Definition NewBenchmark_collector (cfg : Config) : go (Chan Record_) :=
  make_chan (requests cfg).

(** [type Benchmark struct]: the shared context and the [Collector]. *)
Record Benchmark := mkBenchmark { b_c : Context; Collector : Chan Record_ }.

(** [NewBenchmark(context)]. *)
Definition NewBenchmark (c : Context) : go Benchmark :=
  let! col := NewBenchmark_collector (config c) in
  Ok (mkBenchmark c col).

(** [Run]: [jobs] holds [concurrency*GoMaxProcs] requests (a Go [int]
    product, which wraps). *)
Definition Run_jobs_cap (cfg : Config) (g : Globals) : Z := wrap64 (concurrency cfg * GoMaxProcs g).

(** [Run]: [requests] clones of the base request. *)
Definition Run_jobs (cfg : Config) : list Req :=
  let base := NewHTTPRequest cfg in
  map (fun _ => CopyHTTPRequest cfg base) (seq 0 (Z.to_nat (requests cfg))).

(** [RunCustom]: one job more per worker under skip-first. *)
Definition reqscount (cfg : Config) : Z :=
  if skipFirst cfg then requests cfg +i64 concurrency cfg else requests cfg.

(** [RunCustom]: the base request and the [reqscount] jobs, from the
    strategy when one is given. *)
Definition RunCustom_jobs (custom : option (CustomRequest Req)) (cfg : Config) : list Req :=
  let base := match custom with
              | Some cr => (@Prepare _ cr cfg None 0).1
              | None => NewHTTPRequest cfg
              end in
  map (fun i => match custom with
                | Some cr => (@Prepare _ cr cfg (Some base) (Z.of_nat i)).1
                | None => CopyHTTPRequest cfg base
                end) (seq 0 (Z.to_nat (reqscount cfg))).
End Dispatcher.

(** [for ... { jobs <- job }]: the sends of the dispatcher, in order,
    until one would block.  [inl c]: all were buffered; [inr (n, c)]:
    the dispatcher blocks on the send of job [n]. *)
Fixpoint enqueue_all {A} (c : Chan A) (xs : list A) (n : nat) : go (Chan A + (nat * Chan A)) :=
  match xs with
  | [] => Ok (inl c)
  | x :: rest =>
      let! r := chan_send c x in
      match r with
      | ChSent c' => enqueue_all c' rest (S n)
      | ChBlocked => Ok (inr (n, c))
      end
  end.

(** ** Lemmas and theorems *)

Lemma make_chan_ok {A} (cap : Z) :
  0 <= cap -> 8 * cap <= maxAlloc - hchanSize -> @make_chan A cap = Ok (mkChan [] cap false).
Proof.
  intros H0 H1. unfold make_chan.
  destruct (Z.ltb_spec cap 0), (Z.ltb_spec (maxAlloc - hchanSize) (8 * cap)); [lia..|reflexivity].
Qed.

Lemma enqueue_all_fits {A} (c : Chan A) (xs : list A) (n : nat) :
  ch_closed c = false ->
  Z.of_nat (length (ch_buf c) + length xs) <= ch_cap c ->
  enqueue_all c xs n = Ok (inl (mkChan (ch_buf c ++ xs) (ch_cap c) false)).
Proof.
  revert c n. induction xs as [|x xs IH]; intros [buf cap cl] n Hcl Hcap; simpl in *; subst.
  - by rewrite app_nil_r.
  - unfold chan_send. simpl.
    destruct (Z.ltb_spec (Z.of_nat (length buf)) cap); [|lia]. simpl.
    rewrite IH; [| done | simpl; rewrite length_app; simpl; lia]. simpl.
    by rewrite <- app_assoc.
Qed.

Lemma length_RunCustom_jobs {Req} (NewReq : Config -> Req) (Copy : Config -> Req -> Req)
    (custom : option (CustomRequest Req)) (cfg : Config) :
  length (RunCustom_jobs NewReq Copy custom cfg) = Z.to_nat (reqscount cfg).
Proof. unfold RunCustom_jobs. by rewrite length_map, length_seq. Qed.

(** [RunCustom] sizes [jobs] to hold every job, so the dispatcher
    buffers all [reqscount] jobs without ever waiting for a worker and
    closes the channel: [requests] jobs, or [requests + concurrency]
    under skip-first, and with a strategy the [i]-th job is the one it
    prepares for index [i]. *)
Theorem RunCustom_fills_jobs {Req} (NewReq : Config -> Req) (Copy : Config -> Req -> Req)
    (custom : option (CustomRequest Req)) (cfg : Config) :
  0 <= reqscount cfg -> 8 * reqscount cfg <= maxAlloc - hchanSize ->
  exists c, (let! ch := make_chan (reqscount cfg) in
             let! r := enqueue_all ch (RunCustom_jobs NewReq Copy custom cfg) 0 in
             match r with inl ch' => chan_close ch' | inr _ => Panic "blocked" end) = Ok c /\
    ch_buf c = RunCustom_jobs NewReq Copy custom cfg /\ ch_closed c = true /\
    Z.of_nat (length (ch_buf c)) = reqscount cfg /\
    (forall cr i, custom = Some cr -> (i < Z.to_nat (reqscount cfg))%nat ->
       nth_error (ch_buf c) i = Some (@Prepare _ cr cfg (Some (@Prepare _ cr cfg None 0).1) (Z.of_nat i)).1).
Proof.
  intros Hn Hmax. rewrite make_chan_ok by assumption. cbn [go_then].
  rewrite enqueue_all_fits;
    [| done | cbn [ch_buf ch_cap length Nat.add]; rewrite length_RunCustom_jobs; lia].
  cbn [go_then].
  eexists. split; [reflexivity|]. simpl. split; [done|]. split; [done|].
  split; [rewrite length_RunCustom_jobs; lia|].
  intros cr i -> Hi. unfold RunCustom_jobs.
  rewrite nth_error_map, nth_error_seq. apply Nat.ltb_lt in Hi. by rewrite Hi.
Qed.

(** A strategy that numbers the requests, as a campaign with sequential
    ids would (the request is its id). *)
Definition sequential_ids : CustomRequest Z :=
  {| Prepare := fun _ _ i => (i, None); HandleResult := fun _ => inl (0, None) |}.

Lemma RunCustom_fills_jobs_witness :
  let cfg := mkConfig 4 2 0 MaxExecutionTimeout false false true in
  exists c, (let! ch := make_chan (reqscount cfg) in
             let! r := enqueue_all ch (RunCustom_jobs (fun _ => 0) (fun _ r => r) (Some sequential_ids) cfg) 0 in
             match r with inl ch' => chan_close ch' | inr _ => Panic "blocked" end) = Ok c /\
    ch_buf c = [0; 1; 2; 3; 4; 5] /\ ch_closed c = true /\ Z.of_nat (length (ch_buf c)) = 6.
Proof.
  simpl. destruct (RunCustom_fills_jobs (fun _ => 0) (fun _ r => r) (Some sequential_ids)
                     (mkConfig 4 2 0 MaxExecutionTimeout false false true)) as (c & Hc & Hbuf & Hcl & Hlen & _);
    [vm_compute; discriminate|vm_compute; discriminate|].
  exists c. split; [exact Hc|]. split; [rewrite Hbuf; reflexivity|]. split; [exact Hcl|]. exact Hlen.
Defined.

(** [Run] sizes [jobs] to [concurrency*GoMaxProcs] only: when more
    requests are planned, its dispatcher blocks on the send of job
    [concurrency*GoMaxProcs] until a worker receives. *)
Lemma Run_blocks_when_full {Req} (NewReq : Config -> Req) (Copy : Config -> Req -> Req)
    (cfg : Config) (g : Globals) :
  0 <= Run_jobs_cap cfg g < requests cfg -> 8 * Run_jobs_cap cfg g <= maxAlloc - hchanSize ->
  exists c, (let! ch := make_chan (Run_jobs_cap cfg g) in
             enqueue_all ch (Run_jobs NewReq Copy cfg) 0) = Ok (inr (Z.to_nat (Run_jobs_cap cfg g), c)).
Proof.
  intros [H0 Hlt] Hmax. rewrite make_chan_ok by assumption. cbn [go_then].
  unfold Run_jobs. remember (Run_jobs_cap cfg g) as cap.
  assert (Hsplit : seq 0 (Z.to_nat (requests cfg)) =
                   seq 0 (Z.to_nat cap) ++ seq (Z.to_nat cap) (Z.to_nat (requests cfg) - Z.to_nat cap))
    by (rewrite <- seq_app; f_equal; lia).
  rewrite Hsplit, map_app.
  assert (Hpre : forall (ys : list Req) c n, ch_closed c = false ->
            Z.of_nat (length (ch_buf c) + length ys) = ch_cap c ->
            forall y zs, enqueue_all c (ys ++ y :: zs) n =
                         Ok (inr (n + length ys, mkChan (ch_buf c ++ ys) (ch_cap c) false))%nat).
  { induction ys as [|y0 ys IH]; intros [buf cp cl] n Hcl Hcap y zs;
      simpl in Hcl, Hcap |- *; subst cl.
    - unfold chan_send. simpl. destruct (Z.ltb_spec (Z.of_nat (length buf)) cp); [lia|].
      by rewrite Nat.add_0_r, app_nil_r.
    - unfold chan_send. simpl. destruct (Z.ltb_spec (Z.of_nat (length buf)) cp); [|lia]. simpl.
      rewrite IH; [|done|simpl; rewrite length_app; simpl; lia]. simpl.
      by rewrite <- app_assoc, Nat.add_succ_r. }
  destruct (Z.to_nat (requests cfg) - Z.to_nat cap)%nat as [|k] eqn:Hk; [lia|].
  simpl. rewrite Hpre; [|done|simpl; rewrite length_map, length_seq; lia].
  rewrite length_map, length_seq. by eexists.
Qed.
