(* ===== verification/Startup.v ===== *)
(** * The startup barrier of a campaign

    The goroutines of a campaign and the synchronisation they go through
    before load starts: each worker ([HTTPWorker.Run], [src/http.go])
    calls [start.Done()] then blocks in [startRun.Wait()]; the
    dispatcher ([Benchmark.Run] or [Benchmark.RunCustom],
    [src/benchmark.go]) sends its jobs, closes [jobs] and, in
    [RunCustom] only, calls [start.Done()]; the monitor ([Monitor.Run],
    [src/monitor.go]) blocks in [start.Wait()] and then calls
    [startRun.Done()].  The state is the [Context] (its two WaitGroups),
    the phase of each goroutine, the [jobs] channel and the jobs the
    dispatcher has still to send; [step] is one atomic action of one
    goroutine, in any interleaving.  Theorems: every worker that runs
    does so after all workers and the dispatcher reported ready;
    [RunCustom] reaches the state where all workers run; [Run] never
    does, because its dispatcher never calls [start.Done()]. *)

From S2P Require Import Prelude Types Context Benchmark.

Inductive WPhase := WInit | WWaitRun | WRunning.
Inductive DPhase := DFilling | DWaiting.
Inductive MPhase := MWaitStart | MRunning.
Inductive Mode := ModeRun | ModeRunCustom.

#[export] Instance WPhase_eq_dec : EqDecision WPhase.
Proof. solve_decision. Defined.
#[export] Instance DPhase_eq_dec : EqDecision DPhase.
Proof. solve_decision. Defined.
#[export] Instance MPhase_eq_dec : EqDecision MPhase.
Proof. solve_decision. Defined.

Record Sys (Req : Type) := mkSys {
  sctx : Context;
  workers : list WPhase;
  disp : DPhase;
  mon : MPhase;
  jobq : Chan Req;
  pending : list Req
}.
Arguments mkSys {Req}.
Arguments sctx {Req}.
Arguments workers {Req}.
Arguments disp {Req}.
Arguments mon {Req}.
Arguments jobq {Req}.
Arguments pending {Req}.

Section Startup.
Context {Req : Type}.
Variable mode : Mode.

Inductive step : Sys Req -> Sys Req -> Prop :=
(** a worker: [h.c.start.Done()] *)
| step_worker_ready s i c' :
    workers s !! i = Some WInit -> start_Done (sctx s) = Ok c' ->
    step s (mkSys c' (<[i := WWaitRun]> (workers s)) (disp s) (mon s) (jobq s) (pending s))
(** a worker: [h.c.startRun.Wait()] returns *)
| step_worker_go s i :
    workers s !! i = Some WWaitRun -> wg_released (startRun (sctx s)) = true ->
    step s (mkSys (sctx s) (<[i := WRunning]> (workers s)) (disp s) (mon s) (jobq s) (pending s))
(** a running worker: [for job := range h.jobs] receives a job *)
| step_worker_recv s i x q' :
    workers s !! i = Some WRunning -> chan_recv (jobq s) = Some (Some x, q') ->
    step s (mkSys (sctx s) (workers s) (disp s) (mon s) q' (pending s))
(** the dispatcher: [jobs <- ...] *)
| step_disp_send s x rest q' :
    disp s = DFilling -> pending s = x :: rest -> chan_send (jobq s) x = Ok (ChSent q') ->
    step s (mkSys (sctx s) (workers s) (disp s) (mon s) q' rest)
(** [RunCustom]: [close(jobs); b.c.start.Done()] *)
| step_disp_close_custom s q' c' :
    mode = ModeRunCustom -> disp s = DFilling -> pending s = [] ->
    chan_close (jobq s) = Ok q' -> start_Done (sctx s) = Ok c' ->
    step s (mkSys c' (workers s) DWaiting (mon s) q' [])
(** [Run]: [close(jobs)] *)
| step_disp_close_run s q' :
    mode = ModeRun -> disp s = DFilling -> pending s = [] ->
    chan_close (jobq s) = Ok q' ->
    step s (mkSys (sctx s) (workers s) DWaiting (mon s) q' [])
(** the monitor: [m.c.start.Wait()] returns, [m.c.startRun.Done()] *)
| step_mon_start s c' :
    mon s = MWaitStart -> wg_released (start (sctx s)) = true -> startRun_Done (sctx s) = Ok c' ->
    step s (mkSys c' (workers s) (disp s) MRunning (jobq s) (pending s)).

(** The campaign right after [NewContext], [NewBenchmark] and the [go]
    statements: every worker before [start.Done()]. *)
Definition init_sys (c : Context) (q : Chan Req) (jobs : list Req) : Sys Req :=
  mkSys c (replicate (Z.to_nat (concurrency (config c))) WInit) DFilling MWaitStart q jobs.

Definition n_init (ws : list WPhase) : nat :=
  length (List.filter (fun w => bool_decide (w = WInit)) ws).

(** The dispatcher's share of the [start] counter. *)
Definition disp_pending (s : Sys Req) : Z :=
  match mode, disp s with
  | ModeRun, _ => 1
  | ModeRunCustom, DFilling => 1
  | ModeRunCustom, DWaiting => 0
  end.

(** The barrier invariant: the [start] counter is the number of workers
    that have not called [Done] plus the dispatcher's share; [startRun]
    is released exactly when the monitor has passed [start.Wait()]; no
    worker runs before that, and afterwards [start] stays at zero. *)
Definition barrier_inv (s : Sys Req) : Prop :=
  wg_counter (start (sctx s)) = Z.of_nat (n_init (workers s)) + disp_pending s /\
  wg_counter (startRun (sctx s)) = (if decide (mon s = MWaitStart) then 1 else 0) /\
  (mon s = MWaitStart -> forall i, workers s !! i <> Some WRunning) /\
  (mon s = MRunning -> wg_counter (start (sctx s)) = 0).

Definition reachable (c : Context) (q : Chan Req) (jobs : list Req) (s : Sys Req) : Prop :=
  steps step (init_sys c q jobs) s.
End Startup.

(** ** Lemmas *)

Lemma n_init_insert_ready (ws : list WPhase) (i : nat) (x : WPhase) :
  ws !! i = Some WInit -> x <> WInit -> (n_init (<[i := x]> ws) + 1 = n_init ws)%nat.
Proof.
  unfold n_init. revert i. induction ws as [|w ws IH]; intros [|i] Hi Hx; simpl in *; try done.
  - injection Hi as ->. rewrite bool_decide_false, bool_decide_true by done. simpl. lia.
  - case_bool_decide; simpl; rewrite <- (IH i) by done; lia.
Qed.

Lemma n_init_insert_other (ws : list WPhase) (i : nat) (x y : WPhase) :
  ws !! i = Some y -> y <> WInit -> x <> WInit -> n_init (<[i := x]> ws) = n_init ws.
Proof.
  unfold n_init. revert i. induction ws as [|w ws IH]; intros [|i] Hi Hy Hx; simpl in *; try done.
  - injection Hi as ->. by rewrite !bool_decide_false.
  - case_bool_decide; simpl; by rewrite (IH i).
Qed.

Lemma n_init_replicate (n : nat) : n_init (replicate n WInit) = n.
Proof. unfold n_init. induction n; simpl; lia. Qed.

Lemma start_Done_inv (c c' : Context) :
  start_Done c = Ok c' ->
  wg_counter (start c') = wg_counter (start c) - 1 /\ startRun c' = startRun c /\
  0 <= wg_counter (start c) - 1.
Proof.
  unfold start_Done, wg_Done, wg_Add. destruct (Z.ltb_spec (wg_counter (start c) + -1) 0);
    simpl; intros Hc; [done|]. injection Hc as <-. simpl. repeat split; done || lia.
Qed.

Lemma startRun_Done_inv (c c' : Context) :
  startRun_Done c = Ok c' ->
  wg_counter (startRun c') = wg_counter (startRun c) - 1 /\ start c' = start c.
Proof.
  unfold startRun_Done, wg_Done, wg_Add. destruct (Z.ltb_spec (wg_counter (startRun c) + -1) 0);
    simpl; intros Hc; [done|]. injection Hc as <-. simpl. repeat split; done || lia.
Qed.

Lemma barrier_inv_init (mode : Mode) {Req} (cfg : Config) (c : Context) (q : Chan Req) (jobs : list Req) :
  0 <= concurrency cfg -> NewContext cfg = Ok c -> barrier_inv mode (init_sys c q jobs).
Proof.
  intros Hc0. unfold NewContext, wg_Add. simpl.
  destruct (Z.ltb_spec (0 + (concurrency cfg + 1)) 0); [done|]. simpl. intros Hc. injection Hc as <-.
  unfold barrier_inv, init_sys, disp_pending. simpl. rewrite n_init_replicate.
  repeat split; [destruct mode; lia| |done].
  intros _ i. rewrite lookup_replicate. intros [? _]. done.
Qed.

Lemma barrier_inv_step (mode : Mode) {Req} (s s' : Sys Req) :
  barrier_inv mode s -> step mode s s' -> barrier_inv mode s'.
Proof.
  intros (Hst & Hsr & Hnorun & Hzero) Hstep.
  destruct Hstep as [s i c' Hi Hd|s i Hi Hrel|s i x q' Hi Hr|s x rest q' Hd Hp Hs
                    |s q' c' Hm Hd Hp Hc Hdone|s q' Hm Hd Hp Hc|s c' Hm Hrel Hdone];
    unfold barrier_inv, disp_pending in *; simpl in *.
  - apply start_Done_inv in Hd as (Hd1 & Hd2 & Hd3). rewrite Hd2.
    pose proof (n_init_insert_ready _ _ WWaitRun Hi ltac:(done)).
    repeat split; [lia|done| |].
    + intros Hw j. destruct (decide (j = i)) as [->|Hne].
      * rewrite list_lookup_insert_eq by (eapply lookup_lt_Some; eauto). by intros [=].
      * rewrite list_lookup_insert_ne by done. by apply Hnorun.
    + intros Hr. specialize (Hzero Hr). destruct mode, (disp s); lia.
  - unfold wg_released in Hrel. apply Z.eqb_eq in Hrel.
    rewrite (n_init_insert_other _ _ WRunning WWaitRun) by done.
    repeat split; [lia|done| |done].
    intros Hw. rewrite Hw in Hsr. simpl in Hsr. lia.
  - done.
  - done.
  - subst mode. rewrite Hd in Hst. apply start_Done_inv in Hdone as (Hd1 & Hd2 & Hd3). rewrite Hd2.
    repeat split; [lia|done|done|]. intros Hr. specialize (Hzero Hr). lia.
  - subst mode. done.
  - unfold wg_released in Hrel. apply Z.eqb_eq in Hrel.
    apply startRun_Done_inv in Hdone as (Hd1 & Hd2). rewrite Hd2.
    rewrite Hm in Hsr. simpl in Hsr. repeat split; [lia|lia|done|done].
Qed.

Lemma reachable_inv (mode : Mode) {Req} (cfg : Config) (c : Context) (q : Chan Req) (jobs : list Req)
    (s : Sys Req) :
  0 <= concurrency cfg -> NewContext cfg = Ok c -> reachable mode c q jobs s -> barrier_inv mode s.
Proof.
  intros Hc0 Hc Hr. eapply steps_inv; [|apply (barrier_inv_init mode cfg c q jobs Hc0 Hc)|exact Hr].
  intros a b. apply barrier_inv_step.
Qed.

(** ** Theorems *)

(** C5: barrier safety.  In every state a campaign can reach, a worker
    that has passed [startRun.Wait()] finds the monitor released, every
    worker past its [start.Done()] and the dispatcher's share of [start]
    paid ([RunCustom]: all jobs sent and [jobs] closed). *)
Theorem barrier_safety (mode : Mode) {Req} (cfg : Config) (c : Context) (q : Chan Req)
    (jobs : list Req) (s : Sys Req) (i : nat) :
  0 <= concurrency cfg -> NewContext cfg = Ok c -> reachable mode c q jobs s ->
  workers s !! i = Some WRunning ->
  mon s = MRunning /\ n_init (workers s) = 0%nat /\ disp_pending mode s = 0.
Proof.
  intros Hc0 Hc Hr Hw.
  destruct (reachable_inv mode cfg c q jobs s Hc0 Hc Hr) as (Hst & _ & Hnorun & Hzero).
  destruct (mon s) eqn:Hm; [by destruct (Hnorun eq_refl i)|].
  specialize (Hzero eq_refl).
  assert (0 <= disp_pending mode s) by (unfold disp_pending; destruct mode, (disp s); lia).
  split; [done|]. split; lia.
Qed.

(** C6: [Benchmark.Run] never calls [b.c.start.Done()], so the [start]
    counter never drops below one: in every reachable state the monitor
    is still blocked in [start.Wait()] and no worker has started
    sending; the campaign deadlocks. *)
Theorem Run_barrier_never_opens {Req} (cfg : Config) (c : Context) (q : Chan Req)
    (jobs : list Req) (s : Sys Req) :
  0 <= concurrency cfg -> NewContext cfg = Ok c -> reachable ModeRun c q jobs s ->
  mon s = MWaitStart /\ (forall i, workers s !! i <> Some WRunning).
Proof.
  intros Hc0 Hc Hr.
  destruct (reachable_inv ModeRun cfg c q jobs s Hc0 Hc Hr) as (Hst & _ & Hnorun & Hzero).
  destruct (mon s) eqn:Hm; [by split; [|apply Hnorun]|].
  specialize (Hzero eq_refl). unfold disp_pending in Hst. lia.
Qed.

(** ** A schedule that opens the barrier of [RunCustom] *)

Lemma insert_after_replicate {A} (n : nat) (x y : A) (rest : list A) :
  <[n := y]> (replicate n y ++ x :: rest) = replicate (S n) y ++ rest.
Proof.
  rewrite insert_app_r_alt by (rewrite length_replicate; lia).
  rewrite length_replicate, Nat.sub_diag.
  change (<[0%nat := y]> (x :: rest)) with ([y] ++ rest).
  by rewrite app_assoc, <- replicate_S_end.
Qed.

Lemma lookup_after_replicate {A} (n : nat) (x y : A) (rest : list A) :
  (replicate n y ++ x :: rest) !! n = Some x.
Proof. apply list_lookup_middle. by rewrite length_replicate. Qed.

Definition with_counters (c : Context) (st sr : Z) : Context :=
  mkContext (config c) (mkWaitGroup st) (mkWaitGroup sr) (stop_closed c) (store c).

Section Schedule.
Context {Req : Type}.
Variable mode : Mode.
Variables (c : Context) (sr : Z) (d : DPhase) (m : MPhase) (q : Chan Req) (p : list Req).

(** Workers call [start.Done()] one after the other. *)
Lemma all_ready (k n : nat) (st : Z) :
  0 <= st ->
  steps (step mode)
    (mkSys (with_counters c (st + Z.of_nat k) sr) (replicate n WWaitRun ++ replicate k WInit) d m q p)
    (mkSys (with_counters c st sr) (replicate (n + k) WWaitRun) d m q p).
Proof.
  intros Hst. revert n. induction k as [|k IH]; intros n.
  - rewrite Z.add_0_r, app_nil_r, Nat.add_0_r. constructor.
  - econstructor.
    + apply (step_worker_ready mode _ n (with_counters c (st + Z.of_nat k) sr)).
      * apply lookup_after_replicate.
      * unfold start_Done, wg_Done, wg_Add. simpl.
        destruct (Z.ltb_spec (st + Z.of_nat (S k) + -1) 0); [lia|]. simpl.
        unfold with_counters. do 3 f_equal. lia.
    + simpl. rewrite insert_after_replicate, Nat.add_succ_r. apply (IH (S n)).
Qed.

(** Workers return from [startRun.Wait()] one after the other. *)
Lemma all_go (k n : nat) (st : Z) :
  steps (step mode)
    (mkSys (with_counters c st 0) (replicate n WRunning ++ replicate k WWaitRun) d m q p)
    (mkSys (with_counters c st 0) (replicate (n + k) WRunning) d m q p).
Proof.
  revert n. induction k as [|k IH]; intros n.
  - rewrite app_nil_r, Nat.add_0_r. constructor.
  - econstructor.
    + apply (step_worker_go mode _ n); [apply lookup_after_replicate|reflexivity].
    + simpl. rewrite insert_after_replicate, Nat.add_succ_r. apply (IH (S n)).
Qed.
End Schedule.

(** The dispatcher sends its pending jobs one after the other. *)
Lemma all_sent {Req} (mode : Mode) (c : Context) (ws : list WPhase) (m : MPhase)
    (buf pend : list Req) (cap : Z) :
  Z.of_nat (length buf + length pend) <= cap ->
  steps (step mode) (mkSys c ws DFilling m (mkChan buf cap false) pend)
                    (mkSys c ws DFilling m (mkChan (buf ++ pend) cap false) []).
Proof.
  revert buf. induction pend as [|x pend IH]; intros buf Hcap.
  - rewrite app_nil_r. constructor.
  - econstructor.
    + apply (step_disp_send mode _ x pend (mkChan (buf ++ [x]) cap false)); [done|done|].
      unfold chan_send. simpl. destruct (Z.ltb_spec (Z.of_nat (length buf)) cap); [done|].
      simpl in Hcap. lia.
    + replace (buf ++ x :: pend) with ((buf ++ [x]) ++ pend) by (by rewrite <- app_assoc).
      apply IH. rewrite length_app. simpl in *. lia.
Qed.

Lemma with_counters_twice (c : Context) (a b x y : Z) :
  with_counters (with_counters c a b) x y = with_counters c x y.
Proof. done. Qed.

(** The schedule that opens the barrier under [RunCustom]. *)
Lemma RunCustom_schedule {Req} (cfg : Config) (c : Context) (jobs : list Req) (cap : Z) :
  0 <= concurrency cfg -> NewContext cfg = Ok c -> Z.of_nat (length jobs) <= cap ->
  exists s, reachable ModeRunCustom c (mkChan [] cap false) jobs s /\ mon s = MRunning /\
    workers s = replicate (Z.to_nat (concurrency cfg)) WRunning /\ jobq s = mkChan jobs cap true.
Proof.
  intros Hc0 Hc Hcap. set (k := Z.to_nat (concurrency cfg)).
  unfold NewContext, wg_Add in Hc. simpl in Hc.
  destruct (Z.ltb_spec (0 + (concurrency cfg + 1)) 0); [done|]. simpl in Hc.
  injection Hc as <-. set (c := mkContext cfg _ _ false ∅).
  assert (Hc : c = with_counters c (1 + Z.of_nat k) 1).
  { unfold with_counters, k, c. simpl. f_equal; f_equal; lia. }
  exists (mkSys (with_counters c 0 0) (replicate k WRunning) DWaiting MRunning (mkChan jobs cap true) []).
  split; [|split; [|split]]; [|reflexivity|reflexivity|reflexivity].
  unfold reachable, init_sys. simpl. fold k.
  eapply steps_trans.
  { rewrite Hc at 1. apply (all_ready ModeRunCustom c 1 DFilling MWaitStart _ jobs k 0 1). lia. }
  simpl. eapply steps_trans.
  { apply (all_sent ModeRunCustom _ _ MWaitStart [] jobs cap). simpl. lia. }
  simpl. econstructor.
  { apply (step_disp_close_custom ModeRunCustom _ (mkChan jobs cap true) (with_counters c 0 1));
      [done|done|done|done|reflexivity]. }
  simpl. econstructor.
  { apply (step_mon_start ModeRunCustom _ (with_counters c 0 0)); [done|reflexivity|reflexivity]. }
  simpl. apply (all_go ModeRunCustom c DWaiting MRunning _ [] k 0 0).
Qed.

(** C7: [RunCustom] opens the barrier.  From the state after
    [NewContext], when [jobs] can hold every job, there is an
    interleaving in which every worker reports ready, the dispatcher
    sends all its jobs, closes [jobs] and reports ready, the monitor
    passes [start.Wait()] and releases [startRun], and every worker
    starts running. *)
Theorem RunCustom_all_workers_start {Req} (cfg : Config) (c : Context) (jobs : list Req) (cap : Z) :
  0 <= concurrency cfg -> NewContext cfg = Ok c -> Z.of_nat (length jobs) <= cap ->
  exists s, reachable ModeRunCustom c (mkChan [] cap false) jobs s /\ mon s = MRunning /\
    workers s = replicate (Z.to_nat (concurrency cfg)) WRunning /\ jobq s = mkChan jobs cap true.
Proof. apply RunCustom_schedule. Qed.

(** Witnesses: a [RunCustom] campaign of 4 requests on 2 workers under
    skip-first (6 jobs), and the same campaign started by [Run]. *)
Definition example_cfg : Config := mkConfig 4 2 0 MaxExecutionTimeout false false true.
Definition example_ctx : Context := mkContext example_cfg (mkWaitGroup 3) (mkWaitGroup 1) false ∅.

Lemma RunCustom_all_workers_start_witness :
  exists s, reachable ModeRunCustom example_ctx (mkChan [] 6 false) [0; 1; 2; 3; 4; 5] s /\
    mon s = MRunning /\ workers s = [WRunning; WRunning] /\ jobq s = mkChan [0; 1; 2; 3; 4; 5] 6 true.
Proof.
  destruct (RunCustom_all_workers_start example_cfg example_ctx [0; 1; 2; 3; 4; 5] 6)
    as (s & Hr & Hm & Hw & Hq); [simpl; lia | reflexivity | simpl; lia |].
  exists s. split; [exact Hr|]. split; [exact Hm|]. split; [exact Hw|exact Hq].
Defined.

Lemma barrier_safety_witness :
  exists s, reachable ModeRunCustom example_ctx (mkChan [] 6 false) [0; 1; 2; 3; 4; 5] s /\
    mon s = MRunning /\ n_init (workers s) = 0%nat /\ disp_pending ModeRunCustom s = 0.
Proof.
  destruct (RunCustom_schedule example_cfg example_ctx [0; 1; 2; 3; 4; 5] 6)
    as (s & Hr & _ & Hw & _); [simpl; lia | reflexivity | simpl; lia |].
  exists s. split; [exact Hr|].
  apply (barrier_safety ModeRunCustom example_cfg example_ctx (mkChan [] 6 false) [0; 1; 2; 3; 4; 5] s 0%nat);
    [simpl; lia | reflexivity | exact Hr | rewrite Hw; reflexivity].
Defined.

Lemma Run_barrier_never_opens_witness :
  mon (init_sys example_ctx (mkChan [] 2 false) [0; 0; 0; 0]) = MWaitStart.
Proof.
  apply (Run_barrier_never_opens example_cfg example_ctx (mkChan [] 2 false) [0; 0; 0; 0]
           (init_sys example_ctx (mkChan [] 2 false) [0; 0; 0; 0]));
    [simpl; lia | reflexivity | constructor].
Defined.
