(* ===== verification/Diagnostics.v ===== *)
(** * The diagnostics sink ([src/common.go])

    [TraceException] receives the message of every error record [send]
    produces ([src/http.go], the deferred function) and decides whether to
    print it.  Its state is two package variables: the map [errorCount]
    from message to number of calls (nil until the first call) and
    [cancelCnt], the number of transport-cancellation messages printed.
    A message is printed on its first and second call only, and of the
    messages ending in ["net/http: request canceled"] only the first one
    is printed at all.  [ReportAll] lists the map.  Printing is reduced to
    the message and the form [Verbosity] selects (stack or one line).
    The calls run one after the other here; [DiagRace] interleaves
    them. *)

From S2P Require Import Prelude.

Record Diag := mkDiag {
  errorCount : option (gmap string Z);
  cancelCnt : Z
}.

(** [var errorCount map[string]int; var cancelCnt int = 0] *)
Definition diag_init : Diag := mkDiag None 0.

Inductive TraceOut :=
| PrintStack (msg : string)     (** [Verbosity > 1]: message and stack trace *)
| PrintRecover (msg : string).  (** [Verbosity > 0]: ["recover: " + msg] *)

Definition out_msg (o : TraceOut) : string :=
  match o with PrintStack m | PrintRecover m => m end.

(** [strings.HasSuffix] *)
Definition has_suffix (s suf : string) : bool :=
  (String.length suf <=? String.length s)%nat &&
  String.eqb (String.substring (String.length s - String.length suf) (String.length suf) s) suf.

Definition canceled_suffix : string := "net/http: request canceled".

Definition is_canceled (s : string) : bool := has_suffix s canceled_suffix.

(** The [switch] on [Verbosity]. *)
Definition trace_print (verbosity : Z) (str : string) : option TraceOut :=
  if 1 <? verbosity then Some (PrintStack str)
  else if 0 <? verbosity then Some (PrintRecover str)
  else None.

Definition count_of (d : Diag) (str : string) : Z :=
  default 0 (default ∅ (errorCount d) !! str).

(** [TraceException(msg)] with [str = fmt.Sprintf("%s", msg)]. *)
Definition TraceException (verbosity : Z) (str : string) (d : Diag) : Diag * option TraceOut :=
  let m := default ∅ (errorCount d) in
  let c := default 0 (m !! str) in
  let d1 := mkDiag (Some (<[str := c +i64 1]> m)) (cancelCnt d) in
  if 1 <? c then (d1, None)
  else if is_canceled str then
    if 0 <? cancelCnt d then (d1, None)
    else (mkDiag (errorCount d1) (cancelCnt d +i64 1), trace_print verbosity str)
  else (d1, trace_print verbosity str).

(** A sequence of calls, in the order the workers make them. *)
Fixpoint trace_all (verbosity : Z) (msgs : list string) (d : Diag) : Diag * list TraceOut :=
  match msgs with
  | [] => (d, [])
  | s :: rest =>
      let '(d1, o) := TraceException verbosity s d in
      let '(d2, os) := trace_all verbosity rest d1 in
      (d2, option_list o ++ os)
  end.

(** [ReportAll]: one line per key.  Go ranges over a map in an
    unspecified order; the model lists the pairs in the map's order. *)
Definition ReportAll (d : Diag) : list (string * Z) :=
  map_to_list (default ∅ (errorCount d)).

(** Occurrences of a message in a sequence of calls. *)
Definition occurrences (s : string) (msgs : list string) : nat :=
  length (List.filter (String.eqb s) msgs).

Definition printed_about (s : string) (os : list TraceOut) : nat :=
  length (List.filter (fun o => String.eqb s (out_msg o)) os).

Definition printed_canceled (os : list TraceOut) : nat :=
  length (List.filter (fun o => is_canceled (out_msg o)) os).

(** ** Lemmas *)

Lemma count_of_init (s : string) : count_of diag_init s = 0.
Proof. unfold count_of; simpl. by rewrite lookup_empty. Qed.

Lemma count_of_insert (d : Diag) (k : Z) (str s : string) (x : Z) :
  count_of (mkDiag (Some (<[str := x]> (default ∅ (errorCount d)))) k) s =
  if String.eqb s str then x else count_of d s.
Proof.
  unfold count_of; simpl.
  destruct (String.eqb_spec s str) as [->|Hne]; simplify_map_eq; done.
Qed.

(** One call counts its message once and leaves the others alone. *)
Lemma count_of_TraceException (v : Z) (str s : string) (d : Diag) :
  count_of (fst (TraceException v str d)) s =
  if String.eqb s str then count_of d str +i64 1 else count_of d s.
Proof.
  unfold TraceException; cbn zeta.
  destruct (1 <? _), (is_canceled str), (0 <? cancelCnt d); simpl;
    rewrite count_of_insert; reflexivity.
Qed.

Lemma trace_print_msg (v : Z) (s : string) (o : TraceOut) :
  trace_print v s = Some o -> out_msg o = s.
Proof. unfold trace_print; intros H; repeat case_match; simplify_eq; reflexivity. Qed.

Lemma trace_print_some (v : Z) (s : string) :
  0 < v -> exists o, trace_print v s = Some o.
Proof. unfold trace_print; intros Hv; repeat case_match; eauto; lia. Qed.

(** Every output of a call is about its message. *)
Lemma TraceException_out (v : Z) (str : string) (d : Diag) (o : TraceOut) :
  snd (TraceException v str d) = Some o -> out_msg o = str.
Proof.
  unfold TraceException; cbn zeta.
  destruct (1 <? _), (is_canceled str), (0 <? cancelCnt d); simpl; intros Ho;
    try discriminate; eauto using trace_print_msg.
Qed.

Lemma filter_option_list {A} (f : A -> bool) (o : option A) :
  length (List.filter f (option_list o)) = match o with Some x => if f x then 1%nat else 0%nat | None => 0%nat end.
Proof. destruct o as [x|]; simpl; [destruct (f x)|]; reflexivity. Qed.

Lemma trace_all_cons (v : Z) (s : string) (rest : list string) (d : Diag) :
  trace_all v (s :: rest) d =
  (fst (trace_all v rest (fst (TraceException v s d))),
   option_list (snd (TraceException v s d)) ++ snd (trace_all v rest (fst (TraceException v s d)))).
Proof. simpl. destruct (TraceException v s d), (trace_all v rest _); reflexivity. Qed.

Lemma occurrences_cons (s m : string) (rest : list string) :
  Z.of_nat (occurrences s (m :: rest)) =
  (if String.eqb s m then 1 else 0) + Z.of_nat (occurrences s rest).
Proof. unfold occurrences; simpl; destruct (String.eqb s m); simpl; lia. Qed.

Section Counting.
Variable verbosity : Z.

(** The count of a message grows by its number of calls, as long as the
    Go [int] does not overflow. *)
Lemma trace_all_count (msgs : list string) (d : Diag) (s : string) :
  0 <= count_of d s -> count_of d s + Z.of_nat (occurrences s msgs) <= int64_max ->
  count_of (fst (trace_all verbosity msgs d)) s = count_of d s + Z.of_nat (occurrences s msgs).
Proof.
  revert d; induction msgs as [|m rest IH]; intros d H0 Hmax; [unfold occurrences; simpl; lia|].
  rewrite trace_all_cons, occurrences_cons in *; cbn [fst].
  pose proof (count_of_TraceException verbosity m s d) as Hc.
  str_case s m.
  - rewrite i64_add_small in Hc by (unfold int64_min in *; lia).
    rewrite IH; rewrite Hc; try lia.
  - rewrite IH; rewrite Hc; lia.
Qed.

(** The outputs about a message that is not a cancellation: printed
    while its count is below 2. *)
Lemma trace_all_printed_gen (msgs : list string) (d : Diag) (s : string) :
  0 < verbosity -> is_canceled s = false ->
  0 <= count_of d s -> count_of d s + Z.of_nat (occurrences s msgs) <= int64_max ->
  Z.of_nat (printed_about s (snd (trace_all verbosity msgs d))) =
  Z.min 2 (count_of d s + Z.of_nat (occurrences s msgs)) - Z.min 2 (count_of d s).
Proof.
  intros Hv Hs. revert d; induction msgs as [|m rest IH]; intros d H0 Hmax; [unfold occurrences, printed_about; simpl; lia|].
  rewrite trace_all_cons, occurrences_cons in *; cbn [snd].
  unfold printed_about in *; rewrite List.filter_app, length_app, filter_option_list, Nat2Z.inj_add.
  pose proof (count_of_TraceException verbosity m s d) as Hc.
  str_case s m.
  - rewrite i64_add_small in Hc by (unfold int64_min in *; lia).
    rewrite IH by lia; rewrite Hc.
    unfold TraceException; cbn zeta; fold (count_of d s).
    destruct (1 <? count_of d s) eqn:Hlt; [simpl; zcase|].
    rewrite Hs. destruct (trace_print_some verbosity s Hv) as [o Ho]; rewrite Ho.
    cbn [snd]. rewrite (trace_print_msg _ _ _ Ho), String.eqb_refl. zcase.
  - rewrite IH by lia; rewrite Hc.
    destruct (snd (TraceException verbosity m d)) as [o|] eqn:Ho; [|lia].
    rewrite (TraceException_out _ _ _ _ Ho), Hne. lia.
Qed.

Lemma cancelCnt_TraceException (str : string) (d : Diag) :
  0 < cancelCnt d -> cancelCnt (fst (TraceException verbosity str d)) = cancelCnt d.
Proof.
  intros H. unfold TraceException; cbn zeta.
  destruct (1 <? _), (is_canceled str), (0 <? cancelCnt d) eqn:Hc; simpl; zcase.
Qed.

(** The output of one call is a cancellation message only if the call's
    message is one. *)
Lemma printed_canceled_TraceException (str : string) (d : Diag) :
  printed_canceled (option_list (snd (TraceException verbosity str d))) =
  match snd (TraceException verbosity str d) with
  | Some _ => if is_canceled str then 1%nat else 0%nat | None => 0%nat end.
Proof.
  unfold printed_canceled; rewrite filter_option_list.
  destruct (snd (TraceException verbosity str d)) as [o|] eqn:Ho; [|reflexivity].
  by rewrite (TraceException_out _ _ _ _ Ho).
Qed.

Lemma printed_canceled_app (a b : list TraceOut) :
  printed_canceled (a ++ b) = (printed_canceled a + printed_canceled b)%nat.
Proof. unfold printed_canceled; by rewrite List.filter_app, length_app. Qed.

Lemma trace_canceled_after (msgs : list string) (d : Diag) :
  0 < cancelCnt d -> printed_canceled (snd (trace_all verbosity msgs d)) = 0%nat.
Proof.
  revert d; induction msgs as [|m rest IH]; intros d Hc; [reflexivity|].
  rewrite trace_all_cons; cbn [snd].
  rewrite printed_canceled_app, printed_canceled_TraceException, IH by (rewrite cancelCnt_TraceException; lia).
  unfold TraceException; cbn zeta.
  destruct (1 <? _), (is_canceled m) eqn:Hm, (0 <? cancelCnt d) eqn:Hd; simpl; zcase;
    destruct (trace_print verbosity m); reflexivity.
Qed.

Lemma trace_canceled_first (msgs : list string) (d : Diag) :
  0 < verbosity -> cancelCnt d = 0 ->
  (forall m, is_canceled m = true -> count_of d m <= 1) ->
  printed_canceled (snd (trace_all verbosity msgs d)) =
  if existsb is_canceled msgs then 1%nat else 0%nat.
Proof.
  intros Hv. revert d; induction msgs as [|m rest IH]; intros d Hc Hinv; [reflexivity|].
  rewrite trace_all_cons; cbn [snd existsb].
  rewrite printed_canceled_app, printed_canceled_TraceException.
  destruct (is_canceled m) eqn:Hm; simpl.
  - pose proof (Hinv m Hm) as Hle.
    rewrite trace_canceled_after; unfold TraceException; cbn zeta; fold (count_of d m);
      rewrite Hm, Hc; destruct (1 <? count_of d m) eqn:Hlt; zcase;
      destruct (trace_print_some verbosity m Hv) as [o ->]; simpl; zcase.
  - rewrite IH; [destruct (snd (TraceException verbosity m d)); reflexivity| |].
    + unfold TraceException; cbn zeta; rewrite Hm.
      destruct (1 <? _); exact Hc.
    + intros m' Hm'. rewrite count_of_TraceException.
      str_case m' m; [congruence | auto].
Qed.
End Counting.

(** ** Properties *)

(** [errorCount] counts every call: after any sequence of
    [TraceException] calls from the initial state, the count of a message
    is its number of occurrences (while that fits in a Go [int]). *)
Theorem trace_all_counts (verbosity : Z) (msgs : list string) (s : string) :
  Z.of_nat (occurrences s msgs) <= int64_max ->
  count_of (fst (trace_all verbosity msgs diag_init)) s = Z.of_nat (occurrences s msgs).
Proof. intros H. rewrite trace_all_count; rewrite ?count_of_init; lia. Qed.

(** C34: suppression of repeats.  With [Verbosity > 0], a message that
    is not a transport cancellation is printed on its first two calls and
    never again ([c > 1] tests the count before this call). *)
Theorem trace_repeated_printed_twice (verbosity : Z) (msgs : list string) (s : string) :
  0 < verbosity -> is_canceled s = false -> Z.of_nat (occurrences s msgs) <= int64_max ->
  printed_about s (snd (trace_all verbosity msgs diag_init)) = Nat.min 2 (occurrences s msgs).
Proof.
  intros Hv Hs Hmax.
  pose proof (trace_all_printed_gen verbosity msgs diag_init s Hv Hs) as H.
  rewrite count_of_init in H. specialize (H ltac:(lia) ltac:(lia)). lia.
Qed.

(** Transport cancellations.  With [Verbosity > 0], exactly one
    message ending in ["net/http: request canceled"] is printed over a
    whole run if any occurs, whatever the messages. *)
Theorem trace_canceled_printed_once (verbosity : Z) (msgs : list string) :
  0 < verbosity ->
  printed_canceled (snd (trace_all verbosity msgs diag_init)) =
  if existsb is_canceled msgs then 1%nat else 0%nat.
Proof.
  intros Hv. apply trace_canceled_first; [exact Hv|reflexivity|].
  intros m _. rewrite count_of_init. lia.
Qed.

Definition canceled_a : string := "Get http://a: net/http: request canceled".
Definition canceled_b : string := "Get http://b: net/http: request canceled".
Definition refused : string := "dial tcp: connection refused".

Lemma trace_all_counts_witness :
  count_of (fst (trace_all 1 [refused; canceled_a; refused] diag_init)) refused = 2.
Proof. apply (trace_all_counts 1 [refused; canceled_a; refused] refused). vm_compute. discriminate. Defined.

Lemma trace_repeated_printed_twice_witness :
  printed_about refused (snd (trace_all 1 [refused; refused; canceled_a; refused] diag_init)) = 2%nat.
Proof.
  apply (trace_repeated_printed_twice 1 [refused; refused; canceled_a; refused] refused);
    [lia | vm_compute; reflexivity | vm_compute; discriminate].
Defined.

Lemma trace_canceled_printed_once_witness :
  printed_canceled (snd (trace_all 2 [canceled_a; refused; canceled_b; canceled_a] diag_init)) = 1%nat.
Proof. apply (trace_canceled_printed_once 2 [canceled_a; refused; canceled_b; canceled_a]). lia. Defined.
