(* ===== verification/DiagRace.v ===== *)
(** * Concurrent calls of [TraceException] ([src/common.go])

    [send] runs in one goroutine per request, and its deferred function
    calls [TraceException] on every error.  [TraceException] reads and
    writes the package variables [errorCount] and [cancelCnt] without a
    lock.  [Diagnostics] runs the calls one after the other.  Here each
    call is a goroutine whose statements touch the shared variables one
    access at a time:
    - the [nil] test of line 34 and the [make] of line 35;
    - the read [c := errorCount[str]] of line 39;
    - the read and then the write of [errorCount[str] = errorCount[str] + 1]
      on line 40;
    - the test [cancelCnt > 0] of line 47;
    - the load and then the store of [cancelCnt++] on line 50;
    - the print of lines 53-71.
    A schedule is the list of goroutines that take a step, in order.
    Interleavings are sequentially consistent; the Go memory model
    allows those executions, and more, of a racy program.

    Theorems.  The schedule that runs the calls one at a time computes
    [trace_all] ([sequential_schedule_refines]).  Other schedules lose an
    update of the count ([TraceException_lost_update]) and print two
    transport cancellations, where [trace_all] prints one
    ([TraceException_cancel_race]).  No schedule adds a count: the count
    plus the writes still pending never exceeds the count before the
    calls plus their number ([count_inv], kept by every step), so it
    stays within that bound and never wraps
    ([TraceException_no_overcount]).  Go's runtime may also stop the
    program with "concurrent map writes" when two goroutines write the
    map at once; the model does not detect that. *)

From S2P Require Import Prelude Diagnostics.

(** The statement a goroutine executes next in [TraceException]. *)
Inductive PC :=
| AtNilCheck               (** line 34: [if errorCount == nil] *)
| AtMake                   (** line 35: [errorCount = make(map[string]int, 100)] *)
| AtRead                   (** line 39: [var c = errorCount[str]] *)
| AtIncRead                (** line 40: the read [errorCount[str] + 1] *)
| AtIncWrite (v : Z)       (** line 40: the write [errorCount[str] = v] *)
| AtCancelCheck            (** line 47: [if cancelCnt > 0] *)
| AtCancelIncRead          (** line 50: the load of [cancelCnt++] *)
| AtCancelIncWrite (v : Z) (** line 50: its store *)
| AtPrint                  (** lines 53-71: the [switch] on [Verbosity] *)
| Done.

(** A goroutine in [TraceException]: the message, the statement it
    executes next and its local [c]. *)
Record Call := mkCall { call_str : string; call_pc : PC; call_c : Z }.

Definition call_start (str : string) : Call := mkCall str AtNilCheck 0.

(** One step of a goroutine: the shared state after it, the goroutine
    after it, and what it prints. *)
Definition call_step (verbosity : Z) (d : Diag) (k : Call) : Diag * Call * option TraceOut :=
  let str := call_str k in
  let goto pc := mkCall str pc (call_c k) in
  match call_pc k with
  | AtNilCheck =>
      match errorCount d with
      | None => (d, goto AtMake, None)
      | Some _ => (d, goto AtRead, None)
      end
  | AtMake => (mkDiag (Some ∅) (cancelCnt d), goto AtRead, None)
  | AtRead => (d, mkCall str AtIncRead (count_of d str), None)
  | AtIncRead => (d, goto (AtIncWrite (count_of d str +i64 1)), None)
  | AtIncWrite v =>
      (mkDiag (Some (<[str := v]> (default ∅ (errorCount d)))) (cancelCnt d),
       goto (if 1 <? call_c k then Done else if is_canceled str then AtCancelCheck else AtPrint), None)
  | AtCancelCheck => (d, goto (if 0 <? cancelCnt d then Done else AtCancelIncRead), None)
  | AtCancelIncRead => (d, goto (AtCancelIncWrite (cancelCnt d +i64 1)), None)
  | AtCancelIncWrite v => (mkDiag (errorCount d) v, goto AtPrint, None)
  | AtPrint => (d, goto Done, trace_print verbosity str)
  | Done => (d, k, None)
  end.

(** The goroutines of a run: the shared state, each call, and the lines
    printed so far. *)
Record Sys := mkSys { sys_diag : Diag; sys_calls : list Call; sys_out : list TraceOut }.

(** Goroutine [i] takes a step; an index with no goroutine does nothing. *)
Definition sys_step (verbosity : Z) (st : Sys) (i : nat) : Sys :=
  match sys_calls st !! i with
  | Some k =>
      let '(d', k', o) := call_step verbosity (sys_diag st) k in
      mkSys d' (<[i := k']> (sys_calls st)) (sys_out st ++ option_list o)
  | None => st
  end.

Definition run_schedule (verbosity : Z) (sched : list nat) (st : Sys) : Sys :=
  fold_left (sys_step verbosity) sched st.

(** The calls of [msgs] started together on the shared state [d]. *)
Definition sys_start (d : Diag) (msgs : list string) : Sys := mkSys d (map call_start msgs) [].

(** Every goroutine in turn runs to its end: nine steps are the longest
    path through [TraceException]. *)
Definition seq_schedule (n : nat) : list nat := concat (map (fun i => repeat i 9) (seq 0 n)).

(** [n] steps of one goroutine alone. *)
Fixpoint call_iter (n : nat) (verbosity : Z) (d : Diag) (k : Call) : Diag * Call * list TraceOut :=
  match n with
  | O => (d, k, [])
  | S n =>
      let '(d1, k1, o) := call_step verbosity d k in
      let '(d2, k2, os) := call_iter n verbosity d1 k1 in
      (d2, k2, option_list o ++ os)
  end.

(** A goroutine past line 40: it no longer touches [errorCount]. *)
Definition past_count (k : Call) : bool :=
  match call_pc k with
  | AtCancelCheck | AtCancelIncRead | AtCancelIncWrite _ | AtPrint | Done => true
  | _ => false
  end.

(** The goroutines of [s] that have not yet written [errorCount[s]]:
    each may still add one to the count. *)
Definition pending (s : string) (k : Call) : nat :=
  if String.eqb (call_str k) s && negb (past_count k) then 1 else 0.
Arguments pending s k /.

Definition pendings (s : string) (ks : list Call) : Z := Z.of_nat (sum_list_with (pending s) ks).

(** A goroutine about to write [w] into [errorCount[s]] read a count
    that leaves room for the writes still pending. *)
Definition write_ok (s : string) (B P : Z) (k : Call) : Prop :=
  call_str k = s -> forall w, call_pc k = AtIncWrite w -> 0 <= w /\ w - 1 + P <= B.

(** The count of [s] plus the writes still to come stays within [B]. *)
Definition count_inv (s : string) (B : Z) (st : Sys) : Prop :=
  0 <= count_of (sys_diag st) s /\ pendings s (sys_calls st) <= B /\
  count_of (sys_diag st) s + pendings s (sys_calls st) <= B /\
  Forall (write_ok s B (pendings s (sys_calls st))) (sys_calls st).

(** ** Lemmas *)

Lemma insert_middle {A} (pre post : list A) (x y : A) :
  <[length pre := y]> (pre ++ x :: post) = pre ++ y :: post.
Proof. rewrite <- (Nat.add_0_r (length pre)), insert_app_r. reflexivity. Qed.

Lemma run_schedule_app (v : Z) (s1 s2 : list nat) (st : Sys) :
  run_schedule v (s1 ++ s2) st = run_schedule v s2 (run_schedule v s1 st).
Proof. apply fold_left_app. Qed.

Lemma run_schedule_cons (v : Z) (i : nat) (s : list nat) (st : Sys) :
  run_schedule v (i :: s) st = run_schedule v s (sys_step v st i).
Proof. reflexivity. Qed.

(** Steps of one goroutine touch its own entry only. *)
Lemma run_repeat_focus (v : Z) (n : nat) (pre post : list Call) (k : Call) (d : Diag) (out : list TraceOut) :
  run_schedule v (repeat (length pre) n) (mkSys d (pre ++ k :: post) out) =
  let '(d', k', os) := call_iter n v d k in mkSys d' (pre ++ k' :: post) (out ++ os).
Proof.
  revert d k out; induction n as [|n IH]; intros d k out.
  - cbn. by rewrite app_nil_r.
  - cbn [repeat]. rewrite run_schedule_cons. unfold sys_step. cbn [sys_calls sys_diag sys_out].
    rewrite list_lookup_middle by reflexivity.
    cbn [call_iter]. destruct (call_step v d k) as [[d1 k1] o]. rewrite insert_middle, IH.
    destruct (call_iter n v d1 k1) as [[d2 k2] os]. by rewrite <- app_assoc.
Qed.

(** A goroutine alone runs [TraceException] to its end in nine steps. *)
Lemma call_iter_TraceException (v : Z) (d : Diag) (str : string) :
  exists k, call_pc k = Done /\
    call_iter 9 v d (call_start str) =
      (fst (TraceException v str d), k, option_list (snd (TraceException v str d))).
Proof.
  unfold TraceException. cbn zeta.
  change (default 0 (default ∅ (errorCount d) !! str)) with (count_of d str).
  assert (Hmk : forall k, errorCount d = None -> count_of (mkDiag (Some ∅) k) str = count_of d str)
    by (intros k Hn; unfold count_of; rewrite Hn; reflexivity).
  destruct (errorCount d) as [m|] eqn:Hm;
    repeat first [ progress cbn - [trace_print count_of] | rewrite Hm | rewrite Hmk by reflexivity
                 | match goal with |- context [if ?b then _ else _] => destruct b end ];
    rewrite ?app_nil_r; eexists; (split; [|reflexivity]); reflexivity.
Qed.


Lemma run_seq_gen (v : Z) (rest : list string) : forall (pre : list Call) (d : Diag) (out : list TraceOut),
  exists ks, Forall (fun k => call_pc k = Done) ks /\ length ks = length rest /\
    run_schedule v (concat (map (fun i => repeat i 9) (seq (length pre) (length rest))))
      (mkSys d (pre ++ map call_start rest) out) =
    mkSys (fst (trace_all v rest d)) (pre ++ ks) (out ++ snd (trace_all v rest d)).
Proof.
  induction rest as [|s rest IH]; intros pre d out.
  - exists []. cbn. rewrite !app_nil_r. auto.
  - cbn [length seq map concat]. rewrite run_schedule_app, run_repeat_focus.
    destruct (call_iter_TraceException v d s) as [k [Hk ->]].
    destruct (IH (pre ++ [k]) (fst (TraceException v s d)) (out ++ option_list (snd (TraceException v s d))))
      as (ks & Hd & Hl & Heq).
    rewrite length_app, Nat.add_1_r, <- app_assoc in Heq. cbn [app] in Heq.
    exists (k :: ks). split; [constructor; auto|]. split; [cbn; lia|].
    rewrite Heq, trace_all_cons. cbn [fst snd]. by rewrite <- !app_assoc.
Qed.

(** Goroutines past line 40 leave [errorCount] as it is. *)
Lemma call_step_past (v : Z) (d : Diag) (k : Call) :
  past_count k = true ->
  errorCount (fst (fst (call_step v d k))) = errorCount d /\ past_count (snd (fst (call_step v d k))) = true.
Proof.
  destruct k as [str pc c]. unfold past_count, call_step; cbn.
  destruct pc; cbn; intros Hp; try discriminate Hp; try destruct (0 <? cancelCnt d); auto.
Qed.

Lemma run_past (v : Z) (sched : list nat) (st : Sys) :
  Forall (fun k => past_count k = true) (sys_calls st) ->
  errorCount (sys_diag (run_schedule v sched st)) = errorCount (sys_diag st).
Proof.
  revert st; induction sched as [|i sched IH]; intros st Hall; [reflexivity|].
  rewrite run_schedule_cons. unfold sys_step.
  destruct (sys_calls st !! i) as [k|] eqn:Hk; [|by apply IH].
  pose proof (Forall_lookup_1 _ _ _ _ Hall Hk) as Hp. pose proof (call_step_past v (sys_diag st) k Hp) as [He Hp'].
  destruct (call_step v (sys_diag st) k) as [[d' k'] o]. cbn in He, Hp'.
  rewrite IH; [exact He|]. apply Forall_insert; assumption.
Qed.

(** Two calls of one message interleaved read by read: both read the
    same count and both write it plus one. *)
Lemma race8 (v : Z) (d : Diag) (m : gmap string Z) (str : string) :
  errorCount d = Some m ->
  run_schedule v [0;1;0;1;0;1;0;1]%nat (sys_start d [str; str]) =
  let c := count_of d str in
  let pc := if 1 <? c then Done else if is_canceled str then AtCancelCheck else AtPrint in
  mkSys (mkDiag (Some (<[str := c +i64 1]> (<[str := c +i64 1]> m))) (cancelCnt d))
        [mkCall str pc c; mkCall str pc c] [].
Proof.
  intros Hm. unfold sys_start.
  repeat first [rewrite Hm | progress cbn - [count_of is_canceled i64_add]].
  reflexivity.
Qed.

Lemma past_count_after_write (str : string) (c : Z) :
  past_count (mkCall str (if 1 <? c then Done else if is_canceled str then AtCancelCheck else AtPrint) c) = true.
Proof. unfold past_count; cbn. destruct (1 <? c), (is_canceled str); reflexivity. Qed.

Lemma count_of_write (d : Diag) (m : gmap string Z) (k s : string) (x c : Z) :
  errorCount d = Some m ->
  count_of (mkDiag (Some (<[k := x]> m)) c) s = if String.eqb s k then x else count_of d s.
Proof.
  intros Hm. unfold count_of; cbn. rewrite Hm; cbn.
  destruct (String.eqb_spec s k) as [->|Hne]; simplify_map_eq; done.
Qed.

Lemma write_ok_mono (s : string) (B P P' : Z) (k : Call) :
  P' <= P -> write_ok s B P k -> write_ok s B P' k.
Proof. intros HP Hk Hs w Hw. specialize (Hk Hs w Hw). lia. Qed.

Lemma count_of_make (k : Z) (s : string) : count_of (mkDiag (Some ∅) k) s = 0.
Proof. unfold count_of; cbn. by rewrite lookup_empty. Qed.

Lemma count_of_cancel (d : Diag) (v : Z) (s : string) : count_of (mkDiag (errorCount d) v) s = count_of d s.
Proof. reflexivity. Qed.

(** Every step of every goroutine keeps [count_inv]: a [make] resets
    the count to 0, a write stores a count read while the writer was
    pending, and no step makes a goroutine pending again. *)
Lemma count_inv_step (v : Z) (s : string) (B : Z) (st : Sys) (i : nat) :
  B <= int64_max -> count_inv s B st -> count_inv s B (sys_step v st i).
Proof.
  intros HB (H0 & HPB & HcP & Hw). unfold sys_step.
  destruct (sys_calls st !! i) as [k|] eqn:Hk; [|by split].
  pose proof (sum_list_with_insert (pending s) _ i k (snd (fst (call_step v (sys_diag st) k))) Hk) as Hsum.
  pose proof (Forall_lookup_1 _ _ _ _ Hw Hk) as Hwk.
  destruct st as [d calls out]; cbn in *. unfold count_inv, pendings in *.
  destruct k as [str pc c]. unfold write_ok in Hwk; cbn in Hwk.
  destruct pc; cbn [call_step call_str call_pc call_c] in Hsum |- *.
  all: repeat match goal with |- context [if ?b then _ else _] => destruct b end.
  all: cbn [fst snd pending past_count call_str call_pc negb andb sys_diag sys_calls] in Hsum |- *.
  all: rewrite ?count_of_insert, ?count_of_make, ?count_of_cancel.
  all: destruct (String.eqb_spec str s) as [<-|Hne];
    [rewrite ?String.eqb_refl in Hsum; rewrite ?String.eqb_refl; try specialize (Hwk eq_refl _ eq_refl)
    | pose proof Hne as Hf; apply String.eqb_neq in Hf; rewrite ?Hf in Hsum];
    cbn [andb] in Hsum.
  all: try (destruct (String.eqb_spec s str); [congruence|]).
  all: split_and!; try lia.
  all: apply Forall_insert; [eapply Forall_impl; [exact Hw|]; intros; eapply write_ok_mono; [|eassumption]; lia|].
  all: unfold write_ok; cbn; intros Hs w Hw'; try discriminate Hw'; try congruence.
  pose proof (sum_list_with_lookup (pending str) _ _ _ Hk) as Hpos; cbn in Hpos; rewrite String.eqb_refl in Hpos.
  cbn [andb] in Hpos. set (l' := <[i:=_]> calls) in Hsum |- *. injection Hw' as <-.
  rewrite i64_add_small by (unfold int64_min, int64_max in *; lia). lia.
Qed.

Lemma count_inv_run (v : Z) (s : string) (B : Z) (sched : list nat) (st : Sys) :
  B <= int64_max -> count_inv s B st -> count_inv s B (run_schedule v sched st).
Proof.
  intros HB. revert st; induction sched as [|i sched IH]; intros st Hinv; [exact Hinv|].
  rewrite run_schedule_cons. apply IH, count_inv_step; assumption.
Qed.

Lemma pendings_start (s : string) (msgs : list string) :
  pendings s (map call_start msgs) = Z.of_nat (occurrences s msgs).
Proof.
  unfold pendings. induction msgs as [|m rest IH]; [reflexivity|].
  rewrite occurrences_cons, <- IH. cbn [map].
  change (sum_list_with ?f (?x :: ?l)) with (f x + sum_list_with f l)%nat.
  cbn [pending call_start call_str past_count call_pc negb]. rewrite (String.eqb_sym m s).
  destruct (String.eqb s m); cbn [andb]; lia.
Qed.

Lemma count_inv_start (d : Diag) (msgs : list string) (s : string) :
  0 <= count_of d s ->
  count_inv s (count_of d s + Z.of_nat (occurrences s msgs)) (sys_start d msgs).
Proof.
  intros H0. unfold count_inv, sys_start; cbn [sys_diag sys_calls]. rewrite pendings_start.
  split_and!; try lia. apply Forall_forall. intros k Hk. apply list_elem_of_fmap in Hk as (m & -> & _).
  intros _ w Hw. discriminate Hw.
Qed.

(** ** Properties *)

(** The sequential schedule refines [trace_all].  When the calls of
    [msgs] run one after the other, each to its end, the interleaved
    model computes what [Diagnostics.trace_all] computes: the same
    [errorCount] and [cancelCnt], the same printed lines in the same
    order, and every goroutine ends. *)
Theorem sequential_schedule_refines (verbosity : Z) (d : Diag) (msgs : list string) :
  exists ks, Forall (fun k => call_pc k = Done) ks /\
    run_schedule verbosity (seq_schedule (length msgs)) (sys_start d msgs) =
    mkSys (fst (trace_all verbosity msgs d)) ks (snd (trace_all verbosity msgs d)).
Proof.
  destruct (run_seq_gen verbosity msgs [] d []) as (ks & Hd & _ & Heq).
  exists ks. split; [exact Hd|exact Heq].
Qed.

(** C35: lost updates.  [TraceException] counts every call when the
    calls run one after the other, but two goroutines that call it at
    once can lose a count.  With the map made, two calls of one message
    that both read the count before either writes it add one to it, not
    two, whatever the goroutines do next.  At the program's start
    ([errorCount] nil) both calls can see [nil] and both [make] the map:
    the second map replaces the first and the first message's count is
    lost. *)
Theorem TraceException_lost_update (verbosity : Z) (d : Diag) (m : gmap string Z) (str a b : string)
    (rest : list nat) :
  errorCount d = Some m -> a <> b ->
  count_of (fst (trace_all verbosity [str; str] d)) str = count_of d str +i64 1 +i64 1 /\
  count_of (sys_diag (run_schedule verbosity ([0;1;0;1;0;1;0;1]%nat ++ rest) (sys_start d [str; str]))) str =
    count_of d str +i64 1 /\
  count_of (sys_diag (run_schedule verbosity ([0;1;0;0;0;0;1;1;1;1]%nat ++ rest) (sys_start diag_init [a; b]))) a = 0.
Proof.
  intros Hm Hab. split; [|split].
  - rewrite trace_all_cons, trace_all_cons. cbn [fst trace_all].
    rewrite !count_of_TraceException, String.eqb_refl. reflexivity.
  - rewrite run_schedule_app, (race8 _ _ m) by exact Hm. cbv zeta. unfold count_of at 1.
    rewrite run_past by (repeat constructor; apply past_count_after_write).
    cbn. by rewrite lookup_insert_eq.
  - rewrite run_schedule_app. unfold count_of at 1.
    rewrite run_past; cbn - [count_of is_canceled i64_add partial_alter];
      [|repeat constructor; apply past_count_after_write].
    change (default 0 ((<[b := count_of (mkDiag (Some ∅) 0) b +i64 1]> (∅ : gmap string Z)) !! a) = 0).
    by rewrite lookup_insert_ne, lookup_empty by congruence.
Qed.

(** C36: a second cancellation printed.  When the calls run one after the
    other, only the first transport cancellation is printed.  Two
    goroutines with different cancellation messages that both test
    [cancelCnt > 0] before either increments it both print theirs. *)
Theorem TraceException_cancel_race (verbosity : Z) (d : Diag) (m : gmap string Z) (a b : string) :
  0 < verbosity -> errorCount d = Some m -> cancelCnt d = 0 -> a <> b ->
  is_canceled a = true -> is_canceled b = true ->
  (forall s, is_canceled s = true -> count_of d s <= 1) ->
  printed_canceled (snd (trace_all verbosity [a; b] d)) = 1%nat /\
  printed_canceled (sys_out (run_schedule verbosity [0;0;0;0;1;1;1;1;0;1;0;0;0;1;1;1]%nat (sys_start d [a; b]))) = 2%nat.
Proof.
  intros Hv Hm Hc Hab Ha Hb Hinv. split.
  - rewrite trace_canceled_first by assumption. cbn. by rewrite Ha.
  - assert (Ha1 : (1 <? count_of d a) = false) by (apply Z.ltb_ge, Hinv, Ha).
    assert (Hb1 : (1 <? count_of d b) = false) by (apply Z.ltb_ge, Hinv, Hb).
    assert (Hba : String.eqb b a = false) by (apply String.eqb_neq; congruence).
    unfold sys_start.
    repeat first [ rewrite Hm | rewrite Hc | rewrite Ha | rewrite Hb | rewrite Ha1 | rewrite Hb1 | rewrite Hba
                 | rewrite (count_of_write d m _ _ _ _ Hm)
                 | progress cbn - [count_of is_canceled i64_add trace_print partial_alter] ].
    destruct (trace_print_some verbosity a Hv) as [oa Hoa], (trace_print_some verbosity b Hv) as [ob Hob].
    rewrite Hoa, Hob. cbn.
    rewrite (trace_print_msg _ _ _ Hoa), (trace_print_msg _ _ _ Hob), Ha, Hb. reflexivity.
Qed.

(** C37: no schedule over-counts.  Whatever the interleaving of the
    goroutines that call [TraceException] on [msgs], the count of a
    message [s] stays between 0 and its count before the calls plus its
    number of calls: races lose counts (C38) but never add one, and the
    Go [int] never wraps.  The sequential schedule reaches that bound. *)
Theorem TraceException_no_overcount (verbosity : Z) (d : Diag) (msgs : list string) (s : string)
    (sched : list nat) :
  0 <= count_of d s -> count_of d s + Z.of_nat (occurrences s msgs) <= int64_max ->
  0 <= count_of (sys_diag (run_schedule verbosity sched (sys_start d msgs))) s <=
       count_of d s + Z.of_nat (occurrences s msgs) /\
  count_of (sys_diag (run_schedule verbosity (seq_schedule (length msgs)) (sys_start d msgs))) s =
       count_of d s + Z.of_nat (occurrences s msgs).
Proof.
  intros H0 Hmax. split.
  - destruct (count_inv_run verbosity s _ sched _ Hmax (count_inv_start d msgs s H0)) as (Hc0 & HP & Hc & _).
    unfold pendings in Hc. lia.
  - destruct (run_seq_gen verbosity msgs [] d []) as (ks & _ & _ & Heq).
    unfold seq_schedule, sys_start. cbn [length app] in Heq. rewrite Heq. cbn [sys_diag].
    apply trace_all_count; assumption.
Qed.

Lemma TraceException_no_overcount_witness :
  0 <= count_of (mkDiag (Some ∅) 0) refused /\
  count_of (mkDiag (Some ∅) 0) refused + Z.of_nat (occurrences refused [refused; refused]) <= int64_max /\
  0 <= count_of (sys_diag (run_schedule 1 ([0;1;0;1;0;1;0;1]%nat ++ seq_schedule 2)
                             (sys_start (mkDiag (Some ∅) 0) [refused; refused]))) refused <= 2 /\
  count_of (sys_diag (run_schedule 1 (seq_schedule 2) (sys_start (mkDiag (Some ∅) 0) [refused; refused]))) refused = 2.
Proof.
  assert (H0 : 0 <= count_of (mkDiag (Some ∅) 0) refused) by (vm_compute; discriminate).
  assert (Hm : count_of (mkDiag (Some ∅) 0) refused + Z.of_nat (occurrences refused [refused; refused]) <= int64_max)
    by (vm_compute; discriminate).
  split; [exact H0|]. split; [exact Hm|].
  exact (TraceException_no_overcount 1 (mkDiag (Some ∅) 0) [refused; refused] refused
           ([0;1;0;1;0;1;0;1]%nat ++ seq_schedule 2) H0 Hm).
Defined.

Lemma TraceException_lost_update_witness :
  errorCount (mkDiag (Some ∅) 0) = Some ∅ /\ canceled_a <> refused /\
  count_of (fst (trace_all 1 [refused; refused] (mkDiag (Some ∅) 0))) refused =
    count_of (mkDiag (Some ∅) 0) refused +i64 1 +i64 1 /\
  count_of (sys_diag (run_schedule 1 ([0;1;0;1;0;1;0;1]%nat ++ seq_schedule 2)
                        (sys_start (mkDiag (Some ∅) 0) [refused; refused]))) refused =
    count_of (mkDiag (Some ∅) 0) refused +i64 1 /\
  count_of (sys_diag (run_schedule 1 ([0;1;0;0;0;0;1;1;1;1]%nat ++ seq_schedule 2)
                        (sys_start diag_init [canceled_a; refused]))) canceled_a = 0.
Proof.
  split; [reflexivity|]. split; [unfold canceled_a, refused; discriminate|].
  apply (TraceException_lost_update 1 (mkDiag (Some ∅) 0) ∅ refused canceled_a refused (seq_schedule 2));
    [reflexivity|unfold canceled_a, refused; discriminate].
Defined.

Lemma TraceException_cancel_race_witness :
  canceled_a <> canceled_b /\ is_canceled canceled_a = true /\ is_canceled canceled_b = true /\
  printed_canceled (snd (trace_all 1 [canceled_a; canceled_b] (mkDiag (Some ∅) 0))) = 1%nat /\
  printed_canceled (sys_out (run_schedule 1 [0;0;0;0;1;1;1;1;0;1;0;0;0;1;1;1]%nat
                               (sys_start (mkDiag (Some ∅) 0) [canceled_a; canceled_b]))) = 2%nat.
Proof.
  split; [unfold canceled_a, canceled_b; discriminate|].
  split; [vm_compute; reflexivity|]. split; [vm_compute; reflexivity|].
  apply (TraceException_cancel_race 1 (mkDiag (Some ∅) 0) ∅ canceled_a canceled_b);
    try reflexivity; try (vm_compute; reflexivity).
  - unfold canceled_a, canceled_b; discriminate.
  - intros s _. vm_compute. discriminate.
Defined.
