(* ===== verification/Probe.v ===== *)
(** * The pre-flight probe ([DetectHost], [src/http.go])

    Before the campaign, [DetectHost] sends one request and writes into
    the [Context] store the [Server] header and the expected body size:
    [strconv.Atoi] of the [Content-Length] header, or the length of the
    body read when the header is absent.  A panic on the way is recovered
    and handed to [TraceException]; a failed request returns its error
    and writes nothing.  [NewHTTPWorker] later sizes each worker's
    scratch buffer from that store entry, and [Discard.ReadFrom] reads
    every response body through that buffer.

    This file holds [strconv.Atoi] (Go's fast path and its reference
    [ParseInt]), a body reader with the [io.Reader] behaviour of an HTTP
    body, the probe itself, and their composition with [NewHTTPWorker]
    and [Discard.ReadFrom].  [strconv.FormatInt], which writes the
    [Content-Length] header on the server side, is modelled to state
    that [Atoi] reads back every [int64]. *)

From S2P Require Import Prelude Types Context Worker Diagnostics.
From Stdlib Require Import Ascii.

(** ** [strconv.Atoi] *)

Inductive NumErr := ErrSyntax | ErrRange.

Definition maxUint64 : Z := 2 ^ 64 - 1.

(** [cutoff = maxUint64/10 + 1] of [ParseUint] for base 10. *)
Definition cutoff10 : Z := maxUint64 / 10 + 1.

Definition digit_of (ch : ascii) : option Z :=
  let c := Z.of_nat (nat_of_ascii ch) in
  if (48 <=? c) && (c <=? 57) then Some (c - 48) else None.

(** The digit loop of [ParseUint(s, 10, 64)]: a byte that is not a
    decimal digit is a syntax error (value 0); an overflow is a range
    error with value [maxUint64], reported as soon as it happens. *)
Fixpoint parseUint_loop (n : Z) (s : string) : Z * option NumErr :=
  match s with
  | EmptyString => (n, None)
  | String ch rest =>
      match digit_of ch with
      | None => (0, Some ErrSyntax)
      | Some d =>
          if cutoff10 <=? n then (maxUint64, Some ErrRange)
          else
            let n1 := n * 10 + d in
            if maxUint64 <? n1 then (maxUint64, Some ErrRange)
            else parseUint_loop n1 rest
      end
  end.

Definition ParseUint (s : string) : Z * option NumErr :=
  match s with
  | EmptyString => (0, Some ErrSyntax)
  | _ => parseUint_loop 0 s
  end.

(** [ParseInt(s, 10, 0)] on a 64-bit target: sign, [ParseUint], then the
    clamp to [int64] on overflow. *)
Definition ParseInt (s : string) : Z * option NumErr :=
  match s with
  | EmptyString => (0, Some ErrSyntax)
  | String ch rest =>
      let '(neg, body) :=
        if Ascii.eqb ch "+" then (false, rest)
        else if Ascii.eqb ch "-" then (true, rest) else (false, s) in
      let '(un, err) := ParseUint body in
      match err with
      | Some ErrSyntax => (0, Some ErrSyntax)
      | _ =>
          if negb neg && (2 ^ 63 <=? un) then (2 ^ 63 - 1, Some ErrRange)
          else if neg && (2 ^ 63 <? un) then (- 2 ^ 63, Some ErrRange)
          else (if neg then - un else un, None)
      end
  end.

(** The digit loop of [Atoi]'s fast path: [n = n*10 + int(ch)] with no
    overflow check. *)
Fixpoint digits_loop (n : Z) (s : string) : option Z :=
  match s with
  | EmptyString => Some n
  | String ch rest =>
      match digit_of ch with
      | None => None
      | Some d => digits_loop (n * 10 + d) rest
      end
  end.

(** The fast path, taken for [0 < len(s) < 19]. *)
Definition atoi_fast (s0 : string) : Z * option NumErr :=
  match s0 with
  | EmptyString => (0, Some ErrSyntax)
  | String ch rest =>
      let signed := Ascii.eqb ch "-" || Ascii.eqb ch "+" in
      let s := if signed then rest else s0 in
      if signed && (String.length s <? 1)%nat then (0, Some ErrSyntax)
      else match digits_loop 0 s with
           | None => (0, Some ErrSyntax)
           | Some n => (if Ascii.eqb ch "-" then - n else n, None)
           end
  end.

(** [strconv.Atoi]. *)
Definition Atoi (s : string) : Z * option NumErr :=
  if (0 <? String.length s)%nat && (String.length s <? 19)%nat then atoi_fast s
  else ParseInt s.

(** ** Lemmas on [Atoi] *)

Lemma cutoff10_val : cutoff10 = 1844674407370955162.
Proof. reflexivity. Qed.

Lemma maxUint64_val : maxUint64 = 18446744073709551615.
Proof. reflexivity. Qed.

Lemma digit_of_range (ch : ascii) (d : Z) : digit_of ch = Some d -> 0 <= d <= 9.
Proof. unfold digit_of. intros H. destruct (_ && _) eqn:Hc; [|discriminate]. apply andb_prop in Hc as [Ha Hb]. injection H as <-. lia. Qed.

Lemma pow10_S (l : nat) : 10 ^ Z.of_nat (S l) = 10 * 10 ^ Z.of_nat l.
Proof. rewrite Nat2Z.inj_succ, Z.pow_succ_r by lia. lia. Qed.

Lemma pow10_pos (l : nat) : 1 <= 10 ^ Z.of_nat l.
Proof. pose proof (Z.pow_pos_nonneg 10 (Z.of_nat l)). lia. Qed.

(** A digit string is bounded by its length. *)
Lemma digits_loop_bound (s : string) (n v : Z) :
  0 <= n -> digits_loop n s = Some v ->
  n * 10 ^ Z.of_nat (String.length s) <= v < (n + 1) * 10 ^ Z.of_nat (String.length s).
Proof.
  revert n; induction s as [|ch rest IH]; intros n Hn H; simpl in *.
  - injection H as <-. lia.
  - destruct (digit_of ch) as [d|] eqn:Hd; [|discriminate].
    pose proof (digit_of_range _ _ Hd). pose proof (pow10_pos (String.length rest)).
    rewrite pow10_S. specialize (IH (n * 10 + d) ltac:(lia) H). nia.
Qed.

(** While the numeral stays below [10^18], [ParseUint]'s overflow checks
    never fire and its loop is the fast path's loop. *)
Lemma parseUint_loop_digits (s : string) (n : Z) :
  0 <= n -> (n + 1) * 10 ^ Z.of_nat (String.length s) <= 10 ^ 18 ->
  parseUint_loop n s =
  match digits_loop n s with Some v => (v, None) | None => (0, Some ErrSyntax) end.
Proof.
  revert n; induction s as [|ch rest IH]; intros n Hn Hb; [reflexivity|].
  simpl in *. destruct (digit_of ch) as [d|] eqn:Hd; [|reflexivity].
  pose proof (digit_of_range _ _ Hd). pose proof (pow10_pos (String.length rest)).
  rewrite pow10_S in Hb. rewrite cutoff10_val, maxUint64_val.
  assert (n + 1 <= 10 ^ 17) by nia.
  destruct (1844674407370955162 <=? n) eqn:Hc; [apply Z.leb_le in Hc; lia|].
  destruct (18446744073709551615 <? n * 10 + d) eqn:Hm; [apply Z.ltb_lt in Hm; lia|].
  apply IH; nia.
Qed.

Lemma parseUint_loop_range (s : string) (n : Z) :
  0 <= n <= maxUint64 -> 0 <= fst (parseUint_loop n s) <= maxUint64.
Proof.
  revert n; induction s as [|ch rest IH]; intros n Hn; simpl; [lia|].
  destruct (digit_of ch) as [d|] eqn:Hd; simpl; [|rewrite maxUint64_val; lia].
  pose proof (digit_of_range _ _ Hd).
  destruct (cutoff10 <=? n) eqn:Hc; simpl; [lia|].
  destruct (maxUint64 <? n * 10 + d) eqn:Hm; simpl; [lia|]. apply IH; lia.
Qed.

Lemma ParseUint_range (s : string) : 0 <= fst (ParseUint s) <= maxUint64.
Proof.
  unfold ParseUint; destruct s; [simpl; rewrite maxUint64_val; lia|].
  apply parseUint_loop_range. rewrite maxUint64_val; lia.
Qed.

(** [ParseInt] always returns an [int64]. *)
Lemma ParseInt_range (s : string) : in_int64 (fst (ParseInt s)).
Proof.
  unfold in_int64, int64_min, int64_max. destruct s as [|ch rest]; simpl; [lia|].
  destruct (if Ascii.eqb ch "+" then _ else _) as [neg body].
  pose proof (ParseUint_range body) as Hr.
  destruct (ParseUint body) as [un err]; simpl in Hr.
  destruct err as [[|]|]; simpl; [lia| |];
    destruct neg; simpl; zcase; simpl; lia.
Qed.

Lemma pow10_le18 (l : nat) : (l <= 18)%nat -> 10 ^ Z.of_nat l <= 10 ^ 18.
Proof. intros H. apply Z.pow_le_mono_r; lia. Qed.

(** [ParseUint] on at most 18 bytes is the fast path's loop, and its
    value is below [10^18]. *)
Lemma ParseUint_short (body : string) :
  (String.length body <= 18)%nat -> body <> EmptyString ->
  ParseUint body = match digits_loop 0 body with Some v => (v, None) | None => (0, Some ErrSyntax) end /\
  (forall v, digits_loop 0 body = Some v -> 0 <= v < 10 ^ 18).
Proof.
  intros Hl Hne. pose proof (pow10_le18 _ Hl). split.
  - unfold ParseUint. destruct body as [|ch rest]; [congruence|].
    apply parseUint_loop_digits; lia.
  - intros v Hv. pose proof (digits_loop_bound body 0 v ltac:(lia) Hv). lia.
Qed.

Lemma ascii_sign_excl (ch : ascii) :
  Ascii.eqb ch "+" = true -> Ascii.eqb ch "-" = true -> False.
Proof. intros Hp Hm. apply Ascii.eqb_eq in Hp, Hm. congruence. Qed.

(** The fast path of [Atoi] agrees with [ParseInt] wherever it is taken. *)
Lemma atoi_fast_ParseInt (s : string) :
  (0 < String.length s < 19)%nat -> atoi_fast s = ParseInt s.
Proof.
  intros Hl. destruct s as [|ch rest]; simpl in Hl; [lia|].
  unfold atoi_fast, ParseInt.
  destruct (Ascii.eqb ch "+") eqn:Hp, (Ascii.eqb ch "-") eqn:Hm; cbn -[ParseUint digits_loop];
    try (exfalso; eapply ascii_sign_excl; eassumption).
  - destruct rest as [|c r]; [reflexivity|].
    destruct (ParseUint_short (String c r) ltac:(simpl in *; lia) ltac:(discriminate)) as [-> Hb].
    destruct (digits_loop 0 (String c r)) as [v|]; [|reflexivity].
    specialize (Hb v eq_refl). simpl. zcase.
  - destruct rest as [|c r]; [reflexivity|].
    destruct (ParseUint_short (String c r) ltac:(simpl in *; lia) ltac:(discriminate)) as [-> Hb].
    destruct (digits_loop 0 (String c r)) as [v|]; [|reflexivity].
    specialize (Hb v eq_refl). simpl. zcase.
  - destruct (ParseUint_short (String ch rest) ltac:(simpl in *; lia) ltac:(discriminate)) as [-> Hb].
    destruct (digits_loop 0 (String ch rest)) as [v|]; [|reflexivity].
    specialize (Hb v eq_refl). simpl. zcase.
Qed.

(** [Atoi] is [ParseInt] on every string. *)
Lemma Atoi_eq_ParseInt (s : string) : Atoi s = ParseInt s.
Proof.
  unfold Atoi. destruct (_ && _) eqn:H; [|reflexivity].
  apply andb_prop in H as [H1 H2]. apply atoi_fast_ParseInt.
  apply Nat.ltb_lt in H1, H2. lia.
Qed.

(** ** [strconv.FormatInt(n, 10)]

    How the server side of the probe (Go's [net/http]) writes the
    [Content-Length] header that [DetectHost] reads back with [Atoi]:
    the decimal digits of [|n|], most significant first, after a ['-']
    for a negative [n].  The digit loop is bounded by [fuel] digits;
    20 digits are enough for every [int64] ([|n| <= 2^63 < 10^20]). *)
Definition digit_char (d : Z) : ascii := ascii_of_nat (48 + Z.to_nat d).

Fixpoint format_digits (fuel : nat) (n : Z) (acc : string) : string :=
  match fuel with
  | O => acc
  | S f =>
      let acc' := String (digit_char (n mod 10)) acc in
      if n <? 10 then acc' else format_digits f (n / 10) acc'
  end.

Definition FormatInt (n : Z) : string :=
  if n <? 0 then String "-" (format_digits 20 (- n) EmptyString)
  else format_digits 20 n EmptyString.

(** ** Lemmas on [FormatInt] *)

Lemma digit_of_digit_char (d : Z) : 0 <= d <= 9 -> digit_of (digit_char d) = Some d.
Proof.
  intros Hd. assert (d = 0 \/ d = 1 \/ d = 2 \/ d = 3 \/ d = 4 \/ d = 5 \/ d = 6 \/
                     d = 7 \/ d = 8 \/ d = 9) as Hc by lia.
  repeat destruct Hc as [->|Hc]; subst; reflexivity.
Qed.

(** Reading the digits [format_digits] prepends continues the numeral
    being read: [k] becomes [k * 10^L + n] for the number [L] of digits
    written. *)
Lemma digits_loop_format (f : nat) (n : Z) :
  0 <= n < 10 ^ Z.of_nat f ->
  forall k acc, exists L : nat,
    digits_loop k (format_digits f n acc) = digits_loop (k * 10 ^ Z.of_nat L + n) acc.
Proof.
  revert n; induction f as [|f IH]; intros n Hn k acc.
  - change (10 ^ Z.of_nat 0) with 1 in Hn. exists 0%nat. cbn [format_digits].
    f_equal. change (10 ^ Z.of_nat 0) with 1. lia.
  - rewrite pow10_S in Hn. cbn [format_digits].
    assert (Hd : digit_of (digit_char (n mod 10)) = Some (n mod 10))
      by (apply digit_of_digit_char; lia_div).
    destruct (Z.ltb_spec n 10).
    + exists 1%nat. cbn [digits_loop]. rewrite Hd. f_equal.
      change (10 ^ Z.of_nat 1) with 10. rewrite Z.mod_small by lia. lia.
    + destruct (IH (n / 10) ltac:(lia_div) k (String (digit_char (n mod 10)) acc)) as [L HL].
      exists (S L). rewrite HL, pow10_S. cbn [digits_loop]. rewrite Hd. f_equal.
      pose proof (Z.div_mod n 10 ltac:(lia)). lia.
Qed.

Lemma format_digits_cons (f : nat) (n : Z) (acc : string) :
  exists c r d, format_digits (S f) n acc = String c r /\ digit_of c = Some d.
Proof.
  revert n acc; induction f as [|f IH]; intros n acc; cbn [format_digits].
  - exists (digit_char (n mod 10)), acc, (n mod 10).
    destruct (n <? 10); (split; [reflexivity|apply digit_of_digit_char; lia_div]).
  - destruct (n <? 10); [|apply IH].
    exists (digit_char (n mod 10)), acc, (n mod 10). split; [reflexivity|apply digit_of_digit_char; lia_div].
Qed.

(** A decimal digit is neither sign. *)
Lemma digit_not_sign (c : ascii) (d : Z) :
  digit_of c = Some d -> Ascii.eqb c "+" = false /\ Ascii.eqb c "-" = false.
Proof.
  intros Hc. split; apply Bool.not_true_iff_false; intros He;
    apply Ascii.eqb_eq in He; subst; discriminate.
Qed.

(** Within [uint64], [ParseUint]'s overflow checks never fire on a
    numeral, and its loop computes the numeral's value. *)
Lemma parseUint_loop_ok (s : string) (k v : Z) :
  0 <= k -> digits_loop k s = Some v -> v <= maxUint64 -> parseUint_loop k s = (v, None).
Proof.
  revert k; induction s as [|ch rest IH]; intros k Hk Hs Hv; cbn [digits_loop parseUint_loop] in *.
  - congruence.
  - destruct (digit_of ch) as [d|] eqn:Hd; [|discriminate].
    pose proof (digit_of_range _ _ Hd).
    pose proof (digits_loop_bound rest (k * 10 + d) v ltac:(lia) Hs).
    pose proof (pow10_pos (String.length rest)).
    assert (k * 10 + d <= v) by nia.
    rewrite maxUint64_val in Hv. rewrite cutoff10_val, maxUint64_val.
    destruct (Z.leb_spec 1844674407370955162 k); [lia|].
    destruct (Z.ltb_spec 18446744073709551615 (k * 10 + d)); [lia|].
    apply IH; [lia|exact Hs|rewrite maxUint64_val; lia].
Qed.

(** [ParseUint] reads back what [FormatInt]'s digit loop writes, for
    every magnitude of an [int64]; the first byte is a digit. *)
Lemma ParseUint_format_digits (m : Z) :
  0 <= m <= 2 ^ 63 ->
  ParseUint (format_digits 20 m EmptyString) = (m, None) /\
  exists c r d, format_digits 20 m EmptyString = String c r /\ digit_of c = Some d.
Proof.
  intros Hm.
  destruct (digits_loop_format 20 m ltac:(change (10 ^ Z.of_nat 20) with (10 ^ 20); lia) 0 EmptyString)
    as [L HL].
  replace (0 * 10 ^ Z.of_nat L + m) with m in HL by lia. cbn [digits_loop] in HL.
  destruct (format_digits_cons 19 m EmptyString) as (c & r & d & Hs & Hc).
  rewrite Hs in *. split; [|eauto]. unfold ParseUint.
  apply parseUint_loop_ok; [lia|exact HL|rewrite maxUint64_val; lia].
Qed.

(** ** A response body as an [io.Reader] *)

(** The results of successive [Read(p)] calls with [len(p) = len] on a
    body of [rem] bytes, for at most [fuel] calls: [io.EOF] once the
    body is consumed, else as many bytes as fit, which is none when the
    buffer is empty ([0, nil] is what [Read] returns for an empty [p]). *)
Fixpoint body_reads (fuel : nat) (len rem : Z) : list ReadResult :=
  match fuel with
  | O => []
  | S f =>
      if rem <=? 0 then [(0, Some EOF)]
      else let k := Z.min len rem in (k, None) :: body_reads f len (rem - k)
  end.

(** ** [DetectHost] *)

(** What the probe's request does: [NewHTTPRequest] fails, something
    panics before the response (a malformed [-H], [-C] or [-A] value
    makes [NewHTTPRequest] index past the end of a [strings.Split]),
    [client.Do] fails, or a response arrives with its [Server] and
    [Content-Length] headers and the length of the body [ReadAll] read. *)
Inductive ProbeOutcome :=
| ProbeRequestError (msg : string)
| ProbePanic (v : PanicVal)
| ProbeDoError (msg : string)
| ProbeResponse (server contentLength : string) (bodyLen : Z).

(** [fmt.Sprintf("%s", r)] of a recovered value. *)
Definition panic_msg (v : PanicVal) : string :=
  match v with PanicError e => error_msg e | PanicValue s => s end.

(** [DetectHost(context)]: the context and diagnostics state after it,
    and the error it returns. *)
Definition DetectHost (verbosity : Z) (o : ProbeOutcome) (c : Context) (d : Diag) :
    Context * Diag * option string :=
  match o with
  | ProbeRequestError msg => (c, d, Some msg)
  | ProbePanic v => (c, fst (TraceException verbosity (panic_msg v) d), None)
  | ProbeDoError msg => (c, d, Some msg)
  | ProbeResponse server cl bodyLen =>
      let c1 := SetString c FieldServerName server in
      if String.eqb cl "" then (SetInt c1 FieldContentSize bodyLen, d, None)
      else (SetInt c1 FieldContentSize (fst (Atoi cl)), d, None)
  end.

(** The size [DetectHost] records for a response. *)
Definition probed_size (cl : string) (bodyLen : Z) : Z :=
  if String.eqb cl "" then bodyLen else fst (Atoi cl).

(** ** Lemmas on the probe and the body reader *)

Lemma GetInt_SetInt_same (c : Context) (k : string) (v : Z) : GetInt (SetInt c k v) k = Ok v.
Proof. unfold GetInt. rewrite store_SetInt. by rewrite lookup_insert_eq. Qed.

Lemma GetString_SetString_same (c : Context) (k s : string) : GetString (SetString c k s) k = Ok s.
Proof. unfold GetString. rewrite store_SetString. by rewrite lookup_insert_eq. Qed.

(** The buffer of a worker created after the size was recorded. *)
Lemma NewHTTPWorker_buffer_SetInt (c : Context) (v : Z) :
  NewHTTPWorker_buffer (SetInt c FieldContentSize v) =
  if v <? 0 then Panic "runtime error: makeslice: len out of range" else Ok (Z.min v MaxBufferSize).
Proof.
  unfold NewHTTPWorker_buffer. rewrite GetInt_SetInt_same. simpl.
  unfold MaxBufferSize. zcase; f_equal; lia.
Qed.

(** Each read with a non-empty buffer consumes part of the body, so the
    loop reaches [io.EOF] with the byte count. *)
Lemma readFrom_body (fuel : nat) (len rem n : Z) :
  0 < len -> 0 <= rem -> 0 <= n -> n + rem <= int64_max ->
  rem <= len * (Z.of_nat fuel - 1) ->
  readFrom_loop n (body_reads fuel len rem) = Some (n + rem, None).
Proof.
  revert rem n; induction fuel as [|f IH]; intros rem n Hl Hr Hn Hmax Hf; [lia|].
  simpl. destruct (rem <=? 0) eqn:Hz; simpl.
  - rewrite i64_add_small by (unfold int64_min in *; lia). f_equal. f_equal. lia.
  - apply Z.leb_gt in Hz. rewrite i64_add_small by (unfold int64_min in *; lia).
    assert (Hf1 : 1 <= Z.of_nat f) by (destruct f; [simpl in Hf; lia | lia]).
    assert (Hk : (len < rem /\ Z.min len rem = len) \/ (rem <= len /\ Z.min len rem = rem))
      by apply Z.min_spec.
    rewrite IH by (destruct Hk as [[? Hm]|[? Hm]]; rewrite ?Hm; nia).
    f_equal. f_equal. lia.
Qed.

(** With an empty buffer every [Read] of a non-empty body returns
    [0, nil]: the loop never returns, whatever the number of reads. *)
Lemma readFrom_zero_buffer (fuel : nat) (rem n : Z) :
  0 < rem -> readFrom_loop n (body_reads fuel 0 rem) = None.
Proof.
  revert n; induction fuel as [|f IH]; intros n Hr; [reflexivity|].
  simpl. destruct (rem <=? 0) eqn:Hz; [lia|]. simpl.
  replace (Z.min 0 rem) with 0 by lia. replace (rem - 0) with rem by lia. apply IH, Hr.
Qed.

Lemma FormatInt_nonempty (n : Z) : FormatInt n <> EmptyString.
Proof.
  unfold FormatInt. destruct (n <? 0); [discriminate|].
  destruct (format_digits_cons 19 n EmptyString) as (c & r & d & Hs & _). rewrite Hs. discriminate.
Qed.

(** [ParseInt] reads back every [int64] that [FormatInt] writes. *)
Lemma ParseInt_FormatInt (n : Z) : in_int64 n -> ParseInt (FormatInt n) = (n, None).
Proof.
  unfold in_int64, int64_min, int64_max. intros Hn. unfold FormatInt.
  destruct (Z.ltb_spec n 0).
  - destruct (ParseUint_format_digits (- n) ltac:(lia)) as [Hp _].
    unfold ParseInt. change (Ascii.eqb "-" "+") with false. change (Ascii.eqb "-" "-") with true.
    cbv iota beta. rewrite Hp. cbn [negb andb]. destruct (Z.ltb_spec (2 ^ 63) (- n)); [lia|].
    f_equal. lia.
  - destruct (ParseUint_format_digits n ltac:(lia)) as [Hp (c & r & d & Hs & Hc)].
    rewrite Hs in *. destruct (digit_not_sign c d Hc) as [Hplus Hminus].
    unfold ParseInt. rewrite Hplus, Hminus, Hp. cbn [negb andb].
    destruct (Z.leb_spec (2 ^ 63) n); [lia|]. reflexivity.
Qed.

(** The size [DetectHost] records from a [Content-Length] that
    [FormatInt] wrote. *)
Lemma probed_size_FormatInt (n bodyLen : Z) : in_int64 n -> probed_size (FormatInt n) bodyLen = n.
Proof.
  intros Hn. unfold probed_size.
  destruct (String.eqb_spec (FormatInt n) EmptyString) as [He|_]; [by apply FormatInt_nonempty in He|].
  rewrite Atoi_eq_ParseInt, ParseInt_FormatInt by exact Hn. reflexivity.
Qed.

(** ** Properties *)

(** [Atoi]'s fast path for short strings computes exactly what the
    general [ParseInt] computes, value and error, on every string. *)
Theorem Atoi_fast_path_equiv (s : string) : Atoi s = ParseInt s.
Proof. apply Atoi_eq_ParseInt. Qed.

(** A probe that gets a response records its [Server] header and a
    size ([Atoi] of [Content-Length], or the body length when the header
    is empty), returns no error, and every worker created afterwards gets
    a buffer of [min(size, 8192)] bytes; a negative size makes
    [NewHTTPWorker] panic. *)
Theorem DetectHost_sizes_buffer (verbosity : Z) (server cl : string) (bodyLen : Z) (c : Context) (d : Diag) :
  let '(c', d', err) := DetectHost verbosity (ProbeResponse server cl bodyLen) c d in
  err = None /\ d' = d /\ GetString c' FieldServerName = Ok server /\
  NewHTTPWorker_buffer c' =
    if probed_size cl bodyLen <? 0 then Panic "runtime error: makeslice: len out of range"
    else Ok (Z.min (probed_size cl bodyLen) MaxBufferSize).
Proof.
  unfold DetectHost, probed_size.
  assert (Hne : FieldServerName <> FieldContentSize) by (unfold FieldServerName, FieldContentSize; discriminate).
  destruct (String.eqb cl ""); (split; [reflexivity|split; [reflexivity|split]]);
    try apply NewHTTPWorker_buffer_SetInt;
    rewrite (proj1 (proj2 (proj2 (store_other _ FieldContentSize FieldServerName _ server Hne))));
    apply GetString_SetString_same.
Qed.

(** C21: a probe that gets no response (the request cannot be built,
    something panics, or [client.Do] fails) leaves the store as it was:
    on a fresh context, every [NewHTTPWorker] then panics on the missing
    content size, so a failed probe aborts the campaign. *)
Theorem probe_failure_worker_panics (verbosity : Z) (o : ProbeOutcome) (c : Context) (d : Diag) :
  (forall server cl bodyLen, o <> ProbeResponse server cl bodyLen) ->
  store c !! FieldContentSize = None ->
  NewHTTPWorker_buffer (fst (fst (DetectHost verbosity o c d))) =
    Panic "interface conversion: interface {} is nil, not int".
Proof.
  intros Ho Hs. destruct o as [msg|v|msg|server cl bodyLen]; simpl;
    try (unfold NewHTTPWorker_buffer, GetInt; rewrite Hs; reflexivity).
  exfalso. eapply Ho. reflexivity.
Qed.

(** C19: a probe whose response recorded size 0 (an empty body without
    [Content-Length], or [Content-Length: 0]) gives every worker an empty
    scratch buffer, and [Discard.ReadFrom] then never returns on any
    later non-empty body: each [Read] into the empty buffer returns
    [0, nil], for any number of reads. *)
Theorem probe_empty_body_worker_spins (verbosity : Z) (server cl : string) (bodyLen rem : Z)
    (c : Context) (d : Diag) :
  probed_size cl bodyLen = 0 -> 0 < rem ->
  exists len, NewHTTPWorker_buffer (fst (fst (DetectHost verbosity (ProbeResponse server cl bodyLen) c d))) = Ok len /\
    forall fuel, Discard_ReadFrom (body_reads fuel len rem) = None.
Proof.
  intros Hz Hr. exists 0. split.
  - unfold DetectHost. unfold probed_size in Hz.
    destruct (String.eqb cl ""); simpl; rewrite NewHTTPWorker_buffer_SetInt, Hz; reflexivity.
  - intros fuel. apply readFrom_zero_buffer, Hr.
Qed.

(** C20: with a non-empty buffer, [Discard.ReadFrom] drains a body of
    [rem] bytes and returns [rem, nil] once it has been allowed enough
    reads to cover the body ([ceil(rem/len)] reads and the one that sees
    [io.EOF]). *)
Theorem ReadFrom_body_terminates (fuel : nat) (len rem : Z) :
  0 < len -> 0 <= rem <= int64_max -> rem <= len * (Z.of_nat fuel - 1) ->
  Discard_ReadFrom (body_reads fuel len rem) = Some (rem, None).
Proof. intros Hl Hr Hf. unfold Discard_ReadFrom. rewrite readFrom_body; try lia. reflexivity. Qed.

Definition fresh_context : Context :=
  mkContext (mkConfig 100 10 0 MaxExecutionTimeout false false false) (mkWaitGroup 11) (mkWaitGroup 1) false ∅.

Lemma probe_failure_worker_panics_witness :
  NewHTTPWorker_buffer (fst (fst (DetectHost 1 (ProbeDoError "dial tcp: connection refused") fresh_context diag_init))) =
    Panic "interface conversion: interface {} is nil, not int".
Proof. apply probe_failure_worker_panics; [intros ? ? ? ?; discriminate | reflexivity]. Defined.

Lemma probe_empty_body_worker_spins_witness :
  exists len, NewHTTPWorker_buffer (fst (fst (DetectHost 1 (ProbeResponse "nginx" "" 0) fresh_context diag_init))) = Ok len /\
    forall fuel, Discard_ReadFrom (body_reads fuel len 512) = None.
Proof. apply probe_empty_body_worker_spins; reflexivity. Defined.

Lemma ReadFrom_body_terminates_witness :
  Discard_ReadFrom (body_reads 3 1024 2000) = Some (2000, None).
Proof. apply ReadFrom_body_terminates; unfold int64_max; simpl; lia. Defined.

(** C31: decimal round trip.  [strconv.Atoi] reads back every [int64]
    that [strconv.FormatInt(n, 10)] writes, value and no error, on its
    fast path and on [ParseInt] alike; so the body size [DetectHost]
    records from a [Content-Length] header the server wrote for a body of
    [n] bytes is [n]. *)
Theorem Atoi_FormatInt_roundtrip (n : Z) :
  in_int64 n -> Atoi (FormatInt n) = (n, None) /\ (0 <= n -> forall bodyLen, probed_size (FormatInt n) bodyLen = n).
Proof.
  intros Hn. rewrite Atoi_eq_ParseInt, ParseInt_FormatInt by exact Hn. split; [reflexivity|].
  intros _ bodyLen. by apply probed_size_FormatInt.
Qed.

Lemma Atoi_FormatInt_roundtrip_witness :
  Atoi (FormatInt (- 2 ^ 63)) = (- 2 ^ 63, None) /\ probed_size (FormatInt 1234567890123456789) 0 = 1234567890123456789.
Proof.
  split.
  - apply (Atoi_FormatInt_roundtrip (- 2 ^ 63)). unfold in_int64, int64_min, int64_max; lia.
  - apply (Atoi_FormatInt_roundtrip 1234567890123456789); unfold in_int64, int64_min, int64_max; lia.
Defined.
