(* ===== verification/Config.v ===== *)
(** * Building and validating the configuration ([src/config.go])

    [LoadConfig] turns the parsed command line into a [Config]: it exits
    on [-h], on a missing or malformed URL and on a malformed proxy URL;
    it picks the method from [-p], [-u], [-i]; with a time limit and the
    default request count it raises the count to [MaxRequests]; it
    splits the URL's host and port ([extractHostAndPort]); and it
    rejects counts, concurrency levels, [GoMaxProcs] and verbosities out
    of range.  Flag parsing itself (the fork
    [github.com/maximmartynov/flag], not in the repository) is not
    modelled: its result is the record [Flags]; the [stringSet] methods
    it calls for [-H] and [-C] and [loadFile] are.  [url.Parse] and
    [ioutil.ReadFile] are parameters of the section.  The accepted
    request count has no upper bound, while the channels sized by it
    must fit the runtime's allocation bound
    ([LoadConfig_unbounded_requests]). *)

From S2P Require Import Prelude Types Context Benchmark Probe.
From Stdlib Require Import Ascii.

(** [*url.URL], the two fields the program reads. *)
Record URL := mkURL { Scheme : string; Host : string }.

(** The [Config] struct: the fields the campaign reads ([Types.Config])
    and those used to build requests. *)
Record ConfigExt := mkConfigExt {
  core : Config;
  method : string;
  bodyContent : option string;
  contentType : string;
  headers : list string;
  cookies : list string;
  basicAuthentication : string;
  userAgent : string;
  proxyURL : option URL;
  url : string;
  host : string;
  port : Z
}.

(** The flag values after [flagSet.Parse(os.Args[1:])], and its
    positional arguments. *)
Record Flags := mkFlags {
  flag_v : Z; flag_G : Z; flag_r : bool;
  flag_n : Z; flag_c : Z; flag_t : Z;
  flag_p : string; flag_x : string; flag_u : string; flag_i : bool; flag_T : string;
  flag_H : list string; flag_C : list string;
  flag_A : string; flag_k : bool; flag_z : bool; flag_h : bool;
  flag_args : list string
}.

(** How [LoadConfig] ends: [os.Exit] after printing the usage (with the
    message set in [defaultErrmsg]), a returned error, or a
    configuration with the globals the flags set. *)
Inductive LoadResult :=
| LoadExit (code : Z) (msg : string)
| LoadErr (err : string)
| LoadOk (cfg : ConfigExt) (g : Globals).

Definition GBVersion : string := "0.1.9".

(** ** String helpers of the [strings] and [regexp] packages *)

Fixpoint trim_left_space (s : string) : string :=
  match s with
  | String c r => if Ascii.eqb c " " then trim_left_space r else s
  | EmptyString => s
  end.

Definition rev_string (s : string) : string :=
  String.string_of_list_ascii (List.rev (String.list_ascii_of_string s)).

(** [strings.Trim(s, " ")] *)
Definition trim_space (s : string) : string :=
  rev_string (trim_left_space (rev_string (trim_left_space s))).

(** [strings.Join(args, "")] *)
Definition join_empty (args : list string) : string :=
  fold_right String.append EmptyString args.

(** [.*?://] at the head of [s]: some ["://"] starts in [s] with no
    newline before it (Go's [.] matches any character but a newline). *)
Fixpoint sep_ahead (s : string) : bool :=
  String.prefix "://" s ||
  match s with
  | String c r => negb (Ascii.eqb c "010"%char) && sep_ahead r
  | EmptyString => false
  end.

(** [regexp.MatchString(`http.*?://.*`, s)]: the pattern is not
    anchored, so it matches when at some position ["http"] is followed
    by [.*?://]; the final [.*] also matches the empty string. *)
Fixpoint is_url (s : string) : bool :=
  (String.prefix "http" s && sep_ahead (String.substring 4 (String.length s - 4) s)) ||
  match s with
  | String _ r => is_url r
  | EmptyString => false
  end.

(** [strings.LastIndex(s, ":")] for a one-byte separator: the last
    position of the byte, or -1. *)
Fixpoint last_index_from (i : nat) (c : ascii) (s : string) (acc : Z) : Z :=
  match s with
  | EmptyString => acc
  | String d r => last_index_from (S i) c r (if Ascii.eqb d c then Z.of_nat i else acc)
  end.

Definition LastIndexByte (s : string) (c : ascii) : Z := last_index_from 0 c s (-1).

(** Whether a string contains a byte. *)
Fixpoint has_byte (c : ascii) (s : string) : bool :=
  match s with
  | EmptyString => false
  | String d r => Ascii.eqb d c || has_byte c r
  end.

(** [extractHostAndPort(url)]: the part after the last [':'] is the port
    ([Atoi], error ignored) when that [':'] is not the first byte;
    otherwise the scheme's default port, and a panic for any scheme
    other than [http] and [https]. *)
Definition extractHostAndPort (u : URL) : go (string * Z) :=
  let hostname := Host u in
  let pos := LastIndexByte hostname ":" in
  if 0 <? pos then
    Ok (String.substring 0 (Z.to_nat pos) hostname,
        fst (Atoi (String.substring (Z.to_nat pos + 1) (String.length hostname) hostname)))
  else if String.eqb (Scheme u) "http" then Ok (hostname, 80)
  else if String.eqb (Scheme u) "https" then Ok (hostname, 443)
  else Panic ("unsupported protocol schema:" +:+ Scheme u).

(** ** The [-H] and [-C] flag values ([stringSet]) *)

(** [stringSet.Set(value)] (pointer receiver): the flag package calls it once per
    occurrence of the flag, in order. *)
Definition stringSet_Set (f : list string) (value : string) : list string * option string :=
  (f ++ [value], None).

(** [stringSet.String()]: [fmt.Sprint] of the slice, the elements
    separated by spaces between brackets. *)
Definition stringSet_String (f : list string) : string :=
  "[" +:+ String.concat " " f +:+ "]".

(** [config.GetKeepAlive()]. *)
Definition GetKeepAlive (c : Config) : bool := keepAlive c.

Section Load.
(** [url.Parse] and [ioutil.ReadFile]: a value or an error message. *)
Variable url_Parse : string -> URL + string.
Variable ReadFile : string -> string + string.

(** [config.SetProxy(proxyURL)]. *)
Definition SetProxy (proxy : string) : option URL + string :=
  if String.eqb proxy "" then inl None
  else match url_Parse proxy with inl u => inl (Some u) | inr e => inr e end.

(** [loadFile(config, filename)]: [config.bodyContent] becomes the
    file's bytes, or the error of [ioutil.ReadFile] is returned and
    [bodyContent] is left as it was. *)
Definition loadFile (bodyContent : option string) (filename : string) : option string * option string :=
  match ReadFile filename with
  | inl bytes => (Some bytes, None)
  | inr err => (bodyContent, Some err)
  end.

(** The [switch] choosing the method, with [loadFile]: the method and
    the body, or the error that [LoadConfig] returns. *)
Definition choose_method (fl : Flags) : (string * option string) + string :=
  if negb (String.eqb (flag_p fl) "") then
    match loadFile None (flag_p fl) with (b, None) => inl ("POST", b) | (_, Some e) => inr e end
  else if negb (String.eqb (flag_u fl) "") then
    match loadFile None (flag_u fl) with (b, None) => inl ("PUT", b) | (_, Some e) => inr e end
  else if flag_i fl then inl ("HEAD", None)
  else inl ("GET", None).

(** The requests and time limit after [if *timelimit > 0 { ... }]. *)
Definition plan_counts (fl : Flags) : Z * Z :=
  if 0 <? flag_t fl then
    (if flag_n fl =? 1 then MaxRequests else flag_n fl, flag_t fl)
  else (flag_n fl, 0).

(** [LoadConfig()] from [flagSet.Parse] on. *)
Definition LoadConfig (fl : Flags) : go LoadResult :=
  let g := mkGlobals (flag_v fl) (flag_G fl) (flag_r fl) in
  if flag_h fl then Ok (LoadExit 0 "") else
  if negb (length (flag_args fl) =? 1)%nat then Ok (LoadExit (-1) "err:no url") else
  let urlStr := trim_space (join_empty (flag_args fl)) in
  if negb (is_url urlStr) then Ok (LoadExit (-1) "err:not url string") else
  match SetProxy (flag_x fl) with
  | inr _ => Ok (LoadExit (-1) "")
  | inl proxy =>
  match choose_method fl with
  | inr e => Ok (LoadErr e)
  | inl (meth, body) =>
  let '(requests, timelimit) := plan_counts fl in
  match url_Parse urlStr with
  | inr e => Ok (LoadErr e)
  | inl URL =>
  let! hp := extractHostAndPort URL in
  let cfg := mkConfigExt
    (mkConfig requests (flag_c fl) timelimit MaxExecutionTimeout (flag_k fl) (flag_z fl) false)
    meth body (flag_T fl) (flag_H fl) (flag_C fl) (flag_A fl) ("GoHttpBench/" +:+ GBVersion)
    proxy urlStr (fst hp) (snd hp) in
  if (requests <? 1) || (flag_c fl <? 1) || (timelimit <? 0) || (flag_G fl <? 1) || (flag_v fl <? 0) then
    Ok (LoadErr "wrong number of arguments")
  else if requests <? flag_c fl then
    Ok (LoadErr "Cannot use concurrency level greater than total number of requests")
  else Ok (LoadOk cfg g)
  end end end.
End Load.

(** ** Lemmas *)

Section LoadLemmas.
Variable url_Parse : string -> URL + string.
Variable ReadFile : string -> string + string.

(** What a successful [LoadConfig] returns, and the checks it passed. *)
Lemma LoadConfig_ok_inv (fl : Flags) (cfg : ConfigExt) (g : Globals) :
  LoadConfig url_Parse ReadFile fl = Ok (LoadOk cfg g) ->
  g = mkGlobals (flag_v fl) (flag_G fl) (flag_r fl) /\
  core cfg = mkConfig (fst (plan_counts fl)) (flag_c fl) (snd (plan_counts fl))
               MaxExecutionTimeout (flag_k fl) (flag_z fl) false /\
  1 <= fst (plan_counts fl) /\ 1 <= flag_c fl <= fst (plan_counts fl) /\
  0 <= snd (plan_counts fl) /\ 1 <= flag_G fl /\ 0 <= flag_v fl.
Proof.
  intros Hok. unfold LoadConfig, go_then in Hok. destruct (plan_counts fl) as [rq tl] eqn:Hp.
  repeat (case_match; simplify_eq/=; try discriminate).
  repeat match goal with Hb : (_ || _) = false |- _ => apply orb_false_elim in Hb as [? ?] end.
  rewrite !Z.ltb_ge in *. repeat split; lia.
Qed.
End LoadLemmas.

Lemma last_index_none (c : ascii) (s : string) (i : nat) (acc : Z) :
  has_byte c s = false -> last_index_from i c s acc = acc.
Proof.
  revert i; induction s as [|d r IH]; intros i H; [reflexivity|].
  simpl in *. apply orb_false_elim in H as [Hd Hr]. rewrite Hd. apply IH, Hr.
Qed.

(** The last [c] of [h ++ c :: p], when [p] has none, is the one after [h]. *)
Lemma last_index_app (c : ascii) (h p : string) (i : nat) (acc : Z) :
  has_byte c p = false ->
  last_index_from i c (h +:+ String c p) acc = Z.of_nat (i + String.length h).
Proof.
  revert i acc; induction h as [|d r IH]; intros i acc Hp; simpl.
  - rewrite Ascii.eqb_refl, last_index_none by exact Hp. f_equal. lia.
  - rewrite IH by exact Hp. f_equal. lia.
Qed.

Lemma substring_prefix (h s : string) : String.substring 0 (String.length h) (h +:+ s) = h.
Proof. induction h as [|d r IH]; simpl; [by destruct s|by rewrite IH]. Qed.

Lemma substring_whole (p : string) (m : nat) : (String.length p <= m)%nat -> String.substring 0 m p = p.
Proof.
  revert m; induction p as [|d r IH]; intros m Hm; [by destruct m|].
  destruct m as [|m]; simpl in *; [lia|]. rewrite IH; [done|lia].
Qed.

Lemma substring_after (c : ascii) (h p : string) (m : nat) :
  (String.length p <= m)%nat ->
  String.substring (String.length h + 1) m (h +:+ String c p) = p.
Proof.
  intros Hm. induction h as [|d r IH]; simpl; [|exact IH].
  apply substring_whole, Hm.
Qed.

Lemma length_app_string (a b : string) : String.length (a +:+ b) = (String.length a + String.length b)%nat.
Proof. induction a as [|d r IH]; simpl; [done|by rewrite IH]. Qed.

(** ** Properties *)

(** C23: every configuration [LoadConfig] accepts is a valid load plan:
    at least one request, a concurrency level between 1 and the request
    count, a non-negative time limit, the fixed execution timeout, and
    [GoMaxProcs >= 1], [Verbosity >= 0]. *)
Theorem LoadConfig_plan_invariant url_Parse ReadFile (fl : Flags) (cfg : ConfigExt) (g : Globals) :
  LoadConfig url_Parse ReadFile fl = Ok (LoadOk cfg g) ->
  1 <= requests (core cfg) /\ 1 <= concurrency (core cfg) <= requests (core cfg) /\
  0 <= timelimit (core cfg) /\ executionTimeout (core cfg) = MaxExecutionTimeout /\
  1 <= GoMaxProcs g /\ 0 <= Verbosity g.
Proof.
  intros H. destruct (LoadConfig_ok_inv _ _ _ _ _ H) as (-> & Hc & ?). rewrite Hc. simpl. lia.
Qed.

(** C24: the request count and time limit of an accepted configuration:
    with a positive [-t] and a request count of 1 (the default, or an
    explicit [-n 1]) the count becomes [MaxRequests]; a non-positive
    [-t] is accepted and means no time limit. *)
Theorem LoadConfig_request_count url_Parse ReadFile (fl : Flags) (cfg : ConfigExt) (g : Globals) :
  LoadConfig url_Parse ReadFile fl = Ok (LoadOk cfg g) ->
  requests (core cfg) = (if (0 <? flag_t fl) && (flag_n fl =? 1) then MaxRequests else flag_n fl) /\
  timelimit (core cfg) = Z.max 0 (flag_t fl) /\ concurrency (core cfg) = flag_c fl.
Proof.
  intros H. destruct (LoadConfig_ok_inv _ _ _ _ _ H) as (_ & Hc & _). rewrite Hc. simpl.
  unfold plan_counts. destruct (Z.ltb_spec 0 (flag_t fl)); simpl; repeat split; try lia.
Qed.

(** [extractHostAndPort] splits [host:port] at the last [':'] when
    the port part has none: the host is everything before it (which may
    contain [':']) and the port is [Atoi] of the rest. *)
Theorem extractHostAndPort_split (sch h p : string) :
  h <> EmptyString -> has_byte ":" p = false ->
  extractHostAndPort (mkURL sch (h +:+ String ":" p)) = Ok (h, fst (Atoi p)).
Proof.
  intros Hh Hp. unfold extractHostAndPort, LastIndexByte. simpl Host.
  rewrite last_index_app by exact Hp. simpl Nat.add.
  assert (0 < String.length h)%nat by (destruct h; [congruence|simpl; lia]).
  destruct (Z.ltb_spec 0 (Z.of_nat (String.length h))); [|lia].
  rewrite Nat2Z.id, substring_prefix, substring_after; [reflexivity|].
  rewrite length_app_string. simpl. lia.
Qed.

(** The channels of an accepted configuration can be made when their
    buffers fit the runtime's allocation bound: the [Collector] of
    [NewBenchmark], the [jobs] channel of [RunCustom], and the [jobs]
    channel of [Run] (the product [concurrency*GoMaxProcs] then does not
    wrap). *)
Theorem LoadConfig_channels_ok url_Parse ReadFile (fl : Flags) (cfg : ConfigExt) (g : Globals) :
  LoadConfig url_Parse ReadFile fl = Ok (LoadOk cfg g) ->
  8 * requests (core cfg) <= maxAlloc - hchanSize ->
  8 * (concurrency (core cfg) * GoMaxProcs g) <= maxAlloc - hchanSize ->
  (exists ch, NewBenchmark_collector (core cfg) = Ok ch /\ ch_cap ch = requests (core cfg)) /\
  (exists ch : Chan Z, make_chan (reqscount (core cfg)) = Ok ch) /\
  (exists ch : Chan Z, make_chan (Run_jobs_cap (core cfg) g) = Ok ch /\
     ch_cap ch = concurrency (core cfg) * GoMaxProcs g).
Proof.
  intros H Hr8 Hm. destruct (LoadConfig_ok_inv _ _ _ _ _ H) as (-> & Hc & Hr & Hcc & Ht & HG & Hv).
  rewrite Hc in *. unfold NewBenchmark_collector, reqscount, Run_jobs_cap; simpl in *.
  assert (Hb : maxAlloc - hchanSize < int64_max) by (unfold maxAlloc, hchanSize, int64_max; lia).
  rewrite wrap64_id by (unfold in_int64, int64_min in *; nia).
  split_and!; eexists; [split; [apply make_chan_ok; nia|reflexivity] | apply make_chan_ok; nia
                      | split; [apply make_chan_ok; nia|reflexivity]].
Qed.

(** Inputs for the witnesses: a URL parser for one target and a file
    system without files. *)
Definition example_parse (s : string) : URL + string :=
  if String.eqb s "http://example.com:8080/" then inl (mkURL "http" "example.com:8080")
  else inr ("parse " +:+ s +:+ ": invalid URI").

Definition no_files (name : string) : string + string := inr ("open " +:+ name +:+ ": no such file or directory").

Definition example_flags (n c t : Z) : Flags :=
  mkFlags 0 4 false n c t "" "" "" false "text/plain" [] [] "" false false false ["http://example.com:8080/"].

(** [gohttpbench -n N http://example.com:8080/] passes [LoadConfig]
    for every [N >= 1]. *)
Lemma LoadConfig_example_accepts (n : Z) :
  1 <= n ->
  exists cfg g, LoadConfig example_parse no_files (example_flags n 1 0) = Ok (LoadOk cfg g) /\
    requests (core cfg) = n.
Proof.
  intros Hn. assert (H1 : (n <? 1) = false) by (apply Z.ltb_ge; lia).
  unfold LoadConfig. cbn - [Z.ltb is_url trim_space join_empty extractHostAndPort].
  replace (is_url _) with true by (vm_compute; reflexivity).
  change (plan_counts (example_flags n 1 0)) with (n, 0).
  replace (example_parse _) with (inl (B:=string) (mkURL "http" "example.com:8080")) by (vm_compute; reflexivity).
  replace (extractHostAndPort _) with (Ok (A:=string*Z) ("example.com", 8080)) by (vm_compute; reflexivity).
  cbn - [Z.ltb]. rewrite H1. cbn. eexists _, _. split; reflexivity.
Qed.

(** C25: [-n] has no upper bound.  [LoadConfig] accepts every request
    count [N] of the [int] flag, and [NewBenchmark] makes the
    [Collector] with room for [N] records: it is made when its buffer
    of [N] pointers fits the runtime's allocation bound, and above
    [(maxAlloc - hchanSize) / 8] (about 3.5e13 requests) [make] panics
    with "makechan: size out of range" before any request is sent. *)
Theorem LoadConfig_unbounded_requests (n : Z) (c : Context) :
  1 <= n <= int64_max ->
  exists cfg g, LoadConfig example_parse no_files (example_flags n 1 0) = Ok (LoadOk cfg g) /\
    requests (core cfg) = n /\
    (config c = core cfg ->
       (8 * n <= maxAlloc - hchanSize -> exists b, NewBenchmark c = Ok b /\ ch_cap (Collector b) = n) /\
       (maxAlloc - hchanSize < 8 * n -> NewBenchmark c = Panic "makechan: size out of range")).
Proof.
  intros Hn. destruct (LoadConfig_example_accepts n) as (cfg & g & Hl & Hr); [lia|].
  exists cfg, g. split_and!; [exact Hl|exact Hr|]. intros Hc.
  unfold NewBenchmark, NewBenchmark_collector. rewrite Hc, Hr. split.
  - intros Hb. rewrite make_chan_ok by lia. eexists. split; reflexivity.
  - intros Hb. unfold make_chan. destruct (Z.ltb_spec n 0); [lia|].
    destruct (Z.ltb_spec (maxAlloc - hchanSize) (8 * n)); [reflexivity|lia].
Qed.

Lemma LoadConfig_plan_invariant_witness :
  exists cfg g, LoadConfig example_parse no_files (example_flags 100 10 0) = Ok (LoadOk cfg g) /\
    1 <= requests (core cfg) /\ 1 <= concurrency (core cfg) <= requests (core cfg).
Proof.
  eexists _, _. split; [reflexivity|].
  edestruct (LoadConfig_plan_invariant example_parse no_files (example_flags 100 10 0)) as (? & ? & _);
    [reflexivity|]. split; [assumption|assumption].
Defined.

Lemma LoadConfig_request_count_witness :
  exists cfg g, LoadConfig example_parse no_files (example_flags 1 1 10) = Ok (LoadOk cfg g) /\
    requests (core cfg) = MaxRequests.
Proof.
  eexists _, _. split; [reflexivity|].
  edestruct (LoadConfig_request_count example_parse no_files (example_flags 1 1 10)) as (Hr & _);
    [reflexivity|]. exact Hr.
Defined.

Lemma extractHostAndPort_split_witness :
  extractHostAndPort (mkURL "http" ("[::1]" +:+ String ":" "8080")) = Ok ("[::1]", 8080).
Proof. apply (extractHostAndPort_split "http" "[::1]" "8080"); [discriminate|reflexivity]. Defined.

Lemma LoadConfig_channels_ok_witness :
  exists cfg g, LoadConfig example_parse no_files (example_flags 100 10 0) = Ok (LoadOk cfg g) /\
    exists ch : Chan Z, make_chan (Run_jobs_cap (core cfg) g) = Ok ch /\ ch_cap ch = 40.
Proof.
  eexists _, _. split; [reflexivity|].
  edestruct (LoadConfig_channels_ok example_parse no_files (example_flags 100 10 0)) as (_ & _ & Hj);
    [reflexivity|vm_compute; discriminate..|]. exact Hj.
Defined.

Lemma LoadConfig_unbounded_requests_witness :
  1 <= 2 ^ 46 <= int64_max /\
  exists cfg g, LoadConfig example_parse no_files (example_flags (2 ^ 46) 1 0) = Ok (LoadOk cfg g) /\
    requests (core cfg) = 2 ^ 46 /\
    (config (mkContext (core cfg) (mkWaitGroup 2) (mkWaitGroup 1) false ∅) = core cfg ->
       (8 * 2 ^ 46 <= maxAlloc - hchanSize ->
          exists b, NewBenchmark (mkContext (core cfg) (mkWaitGroup 2) (mkWaitGroup 1) false ∅) = Ok b /\
                    ch_cap (Collector b) = 2 ^ 46) /\
       (maxAlloc - hchanSize < 8 * 2 ^ 46 ->
          NewBenchmark (mkContext (core cfg) (mkWaitGroup 2) (mkWaitGroup 1) false ∅) =
            Panic "makechan: size out of range")).
Proof.
  assert (Hn : 1 <= 2 ^ 46 <= int64_max) by (unfold int64_max; lia).
  split; [exact Hn|].
  destruct (LoadConfig_unbounded_requests (2 ^ 46) (mkContext (mkConfig 0 0 0 0 false false false)
              (mkWaitGroup 2) (mkWaitGroup 1) false ∅) Hn) as (cfg & g & Hl & Hr & _).
  exists cfg, g. split; [exact Hl|]. split; [exact Hr|].
  edestruct (LoadConfig_unbounded_requests (2 ^ 46)) as (cfg' & g' & Hl' & _ & Hnb); [exact Hn|].
  rewrite Hl in Hl'. injection Hl' as <- <-. exact Hnb.
Defined.

(** A bracketed IPv6 host without a port is split at its last [':']. *)
Remark extractHostAndPort_ipv6 : extractHostAndPort (mkURL "http" "[::1]") = Ok ("[:", 0).
Proof. reflexivity. Qed.
