(* ===== verification/Request.v ===== *)
(** * Request construction and the HTTP client ([src/http.go])

    [NewHTTPRequest] builds the base request of a campaign from the
    configuration: [http.NewRequest] with the body for [POST] and [PUT],
    the [Content-Type], [User-Agent] and [Connection] headers, then each
    [-H] value split at [':'] ([pair[0]], [pair[1]]), each [-C] value
    split at ['='], and the [-A] value split at [':'].  The indexing
    [pair[1]] panics when the separator is missing, and [strings.Split]
    cuts at every separator, so only the text up to the second one is
    kept.  [CopyHTTPRequest] copies the request struct (the header map is
    shared) with a fresh body reader; [NewClient] configures the
    transport.  Header keys go through [textproto]'s canonicalisation;
    cookie and authorization encoding ([AddCookie], [SetBasicAuth]) is
    kept as the pairs given to them.  [NewHTTPWorker] assembles a worker
    from the context, the client, the two channels and the scratch
    buffer sized from the probe. *)

From S2P Require Import Prelude Types Context Worker Diagnostics Probe Config.
From Stdlib Require Import Ascii.

(** ** [strings.Split] with a one-byte separator *)

(** Every piece between separators, [[""]] for the empty string. *)
Fixpoint split_byte (sep : ascii) (s : string) : list string :=
  match s with
  | EmptyString => [EmptyString]
  | String c r =>
      let rest := split_byte sep r in
      if Ascii.eqb c sep then EmptyString :: rest
      else match rest with
           | x :: xs => String c x :: xs
           | [] => [String c EmptyString]
           end
  end.

(** ** [textproto.CanonicalMIMEHeaderKey] *)

Definition ascii_in (c : ascii) (set : string) : bool :=
  existsb (Ascii.eqb c) (String.list_ascii_of_string set).

Definition is_lower (c : ascii) : bool :=
  let n := nat_of_ascii c in (97 <=? n)%nat && (n <=? 122)%nat.
Definition is_upper (c : ascii) : bool :=
  let n := nat_of_ascii c in (65 <=? n)%nat && (n <=? 90)%nat.
Definition is_digit (c : ascii) : bool :=
  let n := nat_of_ascii c in (48 <=? n)%nat && (n <=? 57)%nat.

(** A token byte of RFC 7230 ([validHeaderFieldByte]). *)
Definition validHeaderFieldByte (c : ascii) : bool :=
  is_lower c || is_upper c || is_digit c || ascii_in c "!#$%&'*+-.^_`|~".

Definition flip_case (c : ascii) (up : bool) : ascii :=
  ascii_of_nat (if up then nat_of_ascii c - 32 else nat_of_ascii c + 32).

(** The loop of [canonicalMIMEHeaderKey]: the first letter and every
    letter after a ['-'] upper case, the others lower case. *)
Fixpoint canon_go (upper : bool) (s : string) : string :=
  match s with
  | EmptyString => EmptyString
  | String c r =>
      let c' := if upper && is_lower c then flip_case c true
                else if negb upper && is_upper c then flip_case c false
                else c in
      String c' (canon_go (Ascii.eqb c' "-") r)
  end.

(** A key with a byte that is not a token byte is left as it is. *)
Definition CanonicalMIMEHeaderKey (s : string) : string :=
  if forallb validHeaderFieldByte (String.list_ascii_of_string s) then canon_go true s else s.

(** ** Requests *)

(** [http.Header]: canonical key to values. *)
Definition Header := gmap string (list string).

(** [h.Set(key, value)] *)
Definition header_Set (h : Header) (key value : string) : Header :=
  <[CanonicalMIMEHeaderKey key := [value]]> h.

(** [h.Add(key, value)] *)
Definition header_Add (h : Header) (key value : string) : Header :=
  let k := CanonicalMIMEHeaderKey key in
  <[k := default [] (h !! k) ++ [value]]> h.

(** The [*http.Request] fields the program sets. *)
Record Request := mkRequest {
  rq_method : string;
  rq_url : URL;
  rq_body : option string;              (** [bytes.NewReader(config.bodyContent)] *)
  rq_header : Header;
  rq_cookies : list (string * string);  (** [AddCookie(&http.Cookie{Name, Value})], in order *)
  rq_auth : option (string * string)    (** [SetBasicAuth(user, password)] *)
}.

Definition with_header (r : Request) (h : Header) : Request :=
  mkRequest (rq_method r) (rq_url r) (rq_body r) h (rq_cookies r) (rq_auth r).

(** [pair := strings.Split(s, sep)] and its two first pieces. *)
Definition split_pair (sep : ascii) (s : string) : go (string * string) :=
  let pair := split_byte sep s in
  let! k := go_nth pair 0 in
  let! v := go_nth pair 1 in
  Ok (k, v).

(** [for _, header := range config.headers { ... request.Header.Add(pair[0], pair[1]) }] *)
Fixpoint add_headers (r : Request) (hs : list string) : go Request :=
  match hs with
  | [] => Ok r
  | h :: rest =>
      let! kv := split_pair ":" h in
      add_headers (with_header r (header_Add (rq_header r) kv.1 kv.2)) rest
  end.

(** [for _, cookie := range config.cookies { ... request.AddCookie(c) }] *)
Fixpoint add_cookies (r : Request) (cs : list string) : go Request :=
  match cs with
  | [] => Ok r
  | c :: rest =>
      let! nv := split_pair "=" c in
      add_cookies (mkRequest (rq_method r) (rq_url r) (rq_body r) (rq_header r)
                     (rq_cookies r ++ [nv]) (rq_auth r)) rest
  end.

Section Build.
(** [url.Parse], which [http.NewRequest] calls. *)
Variable url_Parse : string -> URL + string.

(** [http.NewRequest(method, url, body)]: the methods the program uses
    are valid, so only the URL can make it fail. *)
Definition http_NewRequest (meth url : string) (body : option string) : Request + string :=
  match url_Parse url with
  | inl u => inl (mkRequest meth u body ∅ [] None)
  | inr e => inr e
  end.

(** [simpleNewHTTPRequest(config)]: returns [nil, nil]; nothing calls it. *)
Definition simpleNewHTTPRequest (cfg : ConfigExt) : option Request * option string := (None, None).

(** [NewHTTPRequest(config)]. *)
Definition NewHTTPRequest (cfg : ConfigExt) : go (Request + string) :=
  let body := if String.eqb (method cfg) "POST" || String.eqb (method cfg) "PUT"
              then Some (default "" (bodyContent cfg)) else None in
  match http_NewRequest (method cfg) (url cfg) body with
  | inr e => Ok (inr e)
  | inl r0 =>
      let h1 := header_Set (header_Set (rq_header r0) "Content-Type" (contentType cfg))
                  "User-Agent" (userAgent cfg) in
      let h2 := if keepAlive (core cfg) then header_Set h1 "Connection" "keep-alive" else h1 in
      let! r1 := add_headers (with_header r0 h2) (headers cfg) in
      let! r2 := add_cookies r1 (cookies cfg) in
      if String.eqb (basicAuthentication cfg) "" then Ok (inl r2)
      else
        let! up := split_pair ":" (basicAuthentication cfg) in
        Ok (inl (mkRequest (rq_method r2) (rq_url r2) (rq_body r2) (rq_header r2)
                   (rq_cookies r2) (Some up)))
  end.
End Build.

(** [CopyHTTPRequest(config, request)]: [newRequest := *request], and a
    fresh reader over [config.bodyContent] when the request has a body. *)
Definition CopyHTTPRequest (cfg : ConfigExt) (r : Request) : Request :=
  match rq_body r with
  | Some _ => mkRequest (rq_method r) (rq_url r) (Some (default "" (bodyContent cfg)))
                (rq_header r) (rq_cookies r) (rq_auth r)
  | None => r
  end.

(** The [http.Transport] settings of [NewClient]. *)
Record Transport := mkTransport {
  DisableCompression : bool;
  DisableKeepAlives : bool;
  InsecureSkipVerify : bool;
  MaxIdleConnsPerHost : Z;
  Proxy : option URL
}.

(** [NewClient(config)]; [concurrency * 2] is a Go [int] product. *)
Definition NewClient (cfg : ConfigExt) : Transport :=
  mkTransport (negb (gzip (core cfg))) (negb (keepAlive (core cfg))) true
    (wrap64 (concurrency (core cfg) * 2)) (proxyURL cfg).

(** ** [NewHTTPWorker] *)

(** The [HTTPWorker] struct; [discard] is the [Discard] with its scratch
    buffer, given by its length. *)
Record HTTPWorker := mkHTTPWorker {
  hw_c : Context;
  hw_client : Transport;
  hw_jobs : ChanId;
  hw_collector : ChanId;
  hw_discard : Z;
  hw_Custom : option ResultHandler
}.

(** [NewHTTPWorker(context, jobs, collector)]: the buffer, then the
    struct with [NewClient(context.config)] and no custom handler.
    [cfg] is [context.config], whose fields the campaign reads are
    [config c]. *)
Definition NewHTTPWorker (cfg : ConfigExt) (c : Context) (jobs collector : ChanId) : go HTTPWorker :=
  let! buf := NewHTTPWorker_buffer c in
  Ok (mkHTTPWorker c (NewClient cfg) jobs collector buf None).

(** [h.GetReader()] and [d.GetBuffer()]: the [Discard] and its buffer. *)
Definition GetReader (h : HTTPWorker) : Z := hw_discard h.
Definition GetBuffer (discard : Z) : Z := discard.

(** ** Lemmas *)

Lemma split_byte_none (sep : ascii) (s : string) :
  has_byte sep s = false -> split_byte sep s = [s].
Proof.
  induction s as [|c r IH]; intros H; [reflexivity|].
  simpl in *. apply orb_false_elim in H as [Hc Hr]. rewrite Hc, IH by exact Hr. reflexivity.
Qed.

(** The first piece ends at the first separator. *)
Lemma split_byte_app (sep : ascii) (k v : string) :
  has_byte sep k = false -> split_byte sep (k +:+ String sep v) = k :: split_byte sep v.
Proof.
  induction k as [|c r IH]; intros H; simpl; [by rewrite Ascii.eqb_refl|].
  simpl in H. apply orb_false_elim in H as [Hc Hr]. rewrite Hc, IH by exact Hr. reflexivity.
Qed.

Lemma split_pair_app (sep : ascii) (k v : string) :
  has_byte sep k = false ->
  split_pair sep (k +:+ String sep v) = Ok (k, hd EmptyString (split_byte sep v)).
Proof.
  intros Hk. unfold split_pair. rewrite split_byte_app by exact Hk.
  unfold go_nth. simpl. destruct v as [|c r]; simpl; [reflexivity|].
  by destruct (split_byte sep r), (Ascii.eqb c sep).
Qed.

Lemma split_pair_none (sep : ascii) (s : string) :
  has_byte sep s = false -> split_pair sep s = Panic "runtime error: index out of range [1] with length 1".
Proof. intros H. unfold split_pair. rewrite split_byte_none by exact H. reflexivity. Qed.

Lemma add_headers_app (r : Request) (pre post : list string) :
  add_headers r (pre ++ post) = (let! r' := add_headers r pre in add_headers r' post).
Proof.
  revert r; induction pre as [|h pre IH]; intros r; [reflexivity|].
  simpl. destruct (split_pair ":" h) as [kv|m]; simpl; [apply IH|reflexivity].
Qed.

Lemma split_byte_cons (sep : ascii) (s : string) : exists x xs, split_byte sep s = x :: xs.
Proof.
  induction s as [|c r IH]; simpl; [by eexists _, _|].
  destruct IH as (x & xs & ->). destruct (Ascii.eqb c sep); by eexists _, _.
Qed.

(** A string with the separator splits into at least two pieces. *)
Lemma split_pair_some (sep : ascii) (s : string) :
  has_byte sep s = true -> exists kv, split_pair sep s = Ok kv.
Proof.
  intros H. assert (Hs : exists x y ys, split_byte sep s = x :: y :: ys).
  { induction s as [|c r IH]; simpl in *; [discriminate|].
    destruct (Ascii.eqb c sep) eqn:Hc.
    - destruct (split_byte_cons sep r) as (y & ys & ->). by eexists _, _, _.
    - destruct (IH H) as (x & y & ys & ->). by eexists _, _, _. }
  destruct Hs as (x & y & ys & Hs). unfold split_pair. rewrite Hs. by eexists.
Qed.

(** Headers that all contain [':'] are all added. *)
Lemma add_headers_ok (r : Request) (hs : list string) :
  Forall (fun h => has_byte ":" h = true) hs -> exists r', add_headers r hs = Ok r'.
Proof.
  revert r; induction hs as [|h hs IH]; intros r Hall; [by eexists|].
  inversion Hall as [|? ? Hh Hrest]; subst. simpl.
  destruct (split_pair_some ":" h Hh) as [kv ->]. simpl. apply IH, Hrest.
Qed.

(** ** Properties *)

(** Splitting [k ++ sep ++ v] at [sep] gives back [k] and
    [v] when neither contains the separator: a header [Name:value], a
    cookie [name=value] and an [-A user:password] value are read as
    written. *)
Theorem split_pair_roundtrip (sep : ascii) (k v : string) :
  has_byte sep k = false -> has_byte sep v = false ->
  split_pair sep (k +:+ String sep v) = Ok (k, v).
Proof. intros Hk Hv. rewrite split_pair_app, split_byte_none by assumption. reflexivity. Qed.

(** C29: a value that itself contains the separator is cut at
    it: [pair[1]] is the text between the first and the second
    separator, so [-H "Referer: http://host/"] sends [Referer: http], a
    cookie value with ['='] padding and a password with [':'] lose their
    tail. *)
Theorem split_pair_truncates (sep : ascii) (k v1 v2 : string) :
  has_byte sep k = false -> has_byte sep v1 = false ->
  split_pair sep (k +:+ String sep (v1 +:+ String sep v2)) = Ok (k, v1).
Proof.
  intros Hk Hv. rewrite split_pair_app, split_byte_app by assumption. reflexivity.
Qed.

Lemma NewHTTPRequest_panics_on_header url_Parse (cfg : ConfigExt) (u : URL)
    (pre : list string) (h : string) (post : list string) :
  url_Parse (url cfg) = inl u ->
  headers cfg = pre ++ h :: post ->
  Forall (fun x => has_byte ":" x = true) pre -> has_byte ":" h = false ->
  NewHTTPRequest url_Parse cfg = Panic "runtime error: index out of range [1] with length 1".
Proof.
  intros Hu Hh Hpre Hno. unfold NewHTTPRequest, http_NewRequest. rewrite Hu, Hh, add_headers_app.
  edestruct add_headers_ok as [r' ->]; [exact Hpre|]. simpl.
  rewrite split_pair_none by exact Hno. reflexivity.
Qed.

(** A [-H] value without [':'] makes [NewHTTPRequest] panic on
    [pair[1]], after the headers before it were added, whatever follows. *)
Theorem NewHTTPRequest_header_panics url_Parse (cfg : ConfigExt) (u : URL)
    (pre : list string) (h : string) (post : list string) :
  url_Parse (url cfg) = inl u ->
  headers cfg = pre ++ h :: post ->
  Forall (fun x => has_byte ":" x = true) pre -> has_byte ":" h = false ->
  NewHTTPRequest url_Parse cfg = Panic "runtime error: index out of range [1] with length 1".
Proof. apply NewHTTPRequest_panics_on_header. Qed.

Definition example_request_cfg (hs : list string) : ConfigExt :=
  mkConfigExt (mkConfig 100 10 0 MaxExecutionTimeout false false false) "GET" None "text/plain"
    hs [] "" ("GoHttpBench/" +:+ GBVersion) None "http://example.com:8080/" "example.com" 8080.

Lemma split_pair_roundtrip_witness :
  split_pair ":" ("Accept-Encoding" +:+ String ":" "gzip") = Ok ("Accept-Encoding", "gzip").
Proof. apply split_pair_roundtrip; reflexivity. Defined.

Lemma split_pair_truncates_witness :
  split_pair ":" ("Referer" +:+ String ":" (" http" +:+ String ":" "//example.com/")) = Ok ("Referer", " http").
Proof. apply split_pair_truncates; reflexivity. Defined.

Lemma NewHTTPRequest_header_panics_witness :
  NewHTTPRequest example_parse (example_request_cfg ["Accept-Encoding: gzip"; "X-Debug"; "Accept: */*"]) =
    Panic "runtime error: index out of range [1] with length 1".
Proof.
  apply (NewHTTPRequest_header_panics example_parse _ (mkURL "http" "example.com:8080")
           ["Accept-Encoding: gzip"] "X-Debug" ["Accept: */*"]); try reflexivity.
  repeat constructor.
Defined.

(** The probe sizes the workers.  When the probe's response carries
    a [Content-Length] header that the server wrote for [n] bytes,
    [DetectHost] succeeds, and every worker created afterwards is a
    [HTTPWorker] over the new context with the client of [NewClient], no
    custom handler, and a scratch buffer ([GetReader().GetBuffer()]) of
    [min(n, MaxBufferSize)] bytes: never more than 8192, and empty for
    an empty body. *)
Theorem probe_sizes_worker (verbosity : Z) (server : string) (n bodyLen : Z) (cfg : ConfigExt)
    (c : Context) (d : Diag) (jobs collector : ChanId) :
  0 <= n <= int64_max ->
  let '(c', _, err) := DetectHost verbosity (ProbeResponse server (FormatInt n) bodyLen) c d in
  err = None /\
  exists w, NewHTTPWorker cfg c' jobs collector = Ok w /\ hw_c w = c' /\
    hw_client w = NewClient cfg /\ hw_Custom w = None /\
    GetBuffer (GetReader w) = Z.min n MaxBufferSize.
Proof.
  intros Hn. pose proof (DetectHost_sizes_buffer verbosity server (FormatInt n) bodyLen c d) as H.
  destruct (DetectHost _ _ c d) as [[c' d'] err]. destruct H as (Herr & _ & _ & Hbuf).
  rewrite probed_size_FormatInt in Hbuf by (unfold in_int64, int64_min in *; lia).
  split; [exact Herr|]. unfold NewHTTPWorker. rewrite Hbuf.
  destruct (Z.ltb_spec n 0); [lia|]. cbn [go_then]. by eexists.
Qed.

Lemma probe_sizes_worker_witness :
  exists w, NewHTTPWorker (example_request_cfg [])
              (fst (fst (DetectHost 0 (ProbeResponse "nginx" (FormatInt 1024) 1024)
                           (SetString (mkContext (core (example_request_cfg [])) (mkWaitGroup 0) (mkWaitGroup 0) false ∅)
                              "unused" "") diag_init))) 0%nat 1%nat = Ok w /\
    GetBuffer (GetReader w) = 1024.
Proof.
  pose proof (probe_sizes_worker 0 "nginx" 1024 1024 (example_request_cfg [])
    (SetString (mkContext (core (example_request_cfg [])) (mkWaitGroup 0) (mkWaitGroup 0) false ∅) "unused" "")
    diag_init 0%nat 1%nat ltac:(unfold int64_max; lia)) as H.
  destruct (DetectHost _ _ _ _) as [[c' d'] err]. destruct H as (_ & w & Hw & _ & _ & _ & Hb).
  exists w. split; [exact Hw|]. rewrite Hb. reflexivity.
Defined.
