(* ===== verification/RateLimit.v ===== *)
(** * The rate limiter ([src/http.go])

    [SetRatelimit] sets the package variables [freq] (the interval
    between tokens, [1e9 / rate] nanoseconds) and [bucket] (a
    [tb.Bucket] of capacity [rate] refilled every [freq]);
    [TakeRatelimitToken], called by every worker before each job, does
    nothing while [bucket] is nil and otherwise takes a token, and while
    it got none takes again and sleeps [freq].  The [tb] library is
    external: it is the interface [TokenBucket] (make, take, let time
    pass), and the loop's progress is proved from a refill law stated
    against that interface. *)

From S2P Require Import Prelude.

Class TokenBucket (B : Type) := {
  NewBucket : Z -> Z -> B;       (** [tb.NewBucket(capacity, freq)] *)
  Take : B -> Z -> Z * B;        (** [b.Take(n)]: the tokens taken *)
  Sleep : B -> Z -> B            (** [time.Sleep(d)]: the bucket [d] ns later *)
}.

(** The package variables [freq] and [bucket]. *)
Record RateState (B : Type) := mkRateState { freq : Z; bucket : option B }.
Arguments mkRateState {B}.
Arguments freq {B}.
Arguments bucket {B}.

Definition rate_init {B} : RateState B := mkRateState 0 None.

Section Limiter.
Context {B : Type} `{TokenBucket B}.

(** [SetRatelimit(rate)]: [1e9 / rate] panics when [rate] is 0. *)
Definition SetRatelimit (rate : Z) : go (RateState B) :=
  let! f := go_quot (10 ^ 9) rate in
  Ok (mkRateState f (Some (NewBucket rate f))).

(** [for got != 1 { got = bucket.Take(1); time.Sleep(freq) }], bounded by
    [fuel] iterations; the result is the number of sleeps and the
    bucket, or [None] when the fuel runs out first. *)
Fixpoint take_loop (fuel : nat) (f got : Z) (b : B) : option (nat * B) :=
  if got =? 1 then Some (0%nat, b)
  else match fuel with
       | O => None
       | S fuel' =>
           let '(got', b1) := Take b 1 in
           match take_loop fuel' f got' (Sleep b1 f) with
           | Some (n, b2) => Some (S n, b2)
           | None => None
           end
       end.

(** [TakeRatelimitToken(i)]. *)
Definition TakeRatelimitToken (fuel : nat) (st : RateState B) : option (nat * RateState B) :=
  match bucket st with
  | None => Some (0%nat, st)
  | Some b =>
      let '(got, b1) := Take b 1 in
      match take_loop fuel (freq st) got b1 with
      | Some (n, b2) => Some (n, mkRateState (freq st) (Some b2))
      | None => None
      end
  end.
End Limiter.

(** ** Properties *)

(** C33: the interval.  For a positive [rate], [SetRatelimit] configures
    a bucket of capacity [rate] and the largest interval [freq] with
    [freq * rate <= 1e9]; the interval is at least one nanosecond exactly
    when [rate <= 1e9] (above, [freq] is 0 and the limiter's sleeps do
    not wait).  A zero rate panics. *)
Theorem SetRatelimit_interval {B} `{TokenBucket B} (rate : Z) :
  (rate = 0 -> exists msg, SetRatelimit (B:=B) rate = Panic msg) /\
  (0 < rate -> exists st : RateState B, SetRatelimit rate = Ok st /\
     bucket st = Some (NewBucket rate (freq st)) /\
     freq st * rate <= 10 ^ 9 < (freq st + 1) * rate /\
     (1 <= freq st <-> rate <= 10 ^ 9)).
Proof.
  split.
  - intros ->. eexists. reflexivity.
  - intros Hr. unfold SetRatelimit. rewrite (go_quot_ok (10 ^ 9) rate) by lia.
    eexists; split; [reflexivity|]; simpl. split; [reflexivity|].
    rewrite Z.quot_div_nonneg by lia. split; [lia_div|]. split; intros; lia_div.
Qed.

Section Progress.
Context {B : Type} `{TokenBucket B}.

(** Once [got] is 1 the loop returns at once; otherwise each iteration
    takes then sleeps. *)
Lemma take_loop_S (fuel : nat) (f got : Z) (b : B) :
  got <> 1 ->
  take_loop (S fuel) f got b =
  match take_loop fuel f (fst (Take b 1)) (Sleep (snd (Take b 1)) f) with
  | Some (n, b2) => Some (S n, b2) | None => None end.
Proof. intros Hg. simpl. rewrite (proj2 (Z.eqb_neq got 1) Hg). by destruct (Take b 1). Qed.

Lemma take_loop_got (fuel : nat) (f : Z) (b : B) :
  take_loop fuel f 1 b = Some (0%nat, b).
Proof. by destruct fuel. Qed.

(** The number of sleeps: none when the first [Take] gets a token, one
    when the second does (the loop sleeps after its successful [Take]),
    two otherwise, given a bucket that always has a token one interval
    later. *)
Definition sleeps_expected (st : RateState B) : nat :=
  match bucket st with
  | None => 0
  | Some b =>
      if fst (Take b 1) =? 1 then 0
      else if fst (Take (snd (Take b 1)) 1) =? 1 then 1 else 2
  end.

(** C32: progress of the limiter.  When the bucket refills at least one
    token per [freq], [TakeRatelimitToken] returns after at most two
    sleeps for any fuel of at least 2, with exactly the sleeps the order
    take-then-sleep implies; without a bucket it returns at once and
    changes nothing. *)
Theorem TakeRatelimitToken_progress (fuel : nat) (st : RateState B) :
  (2 <= fuel)%nat ->
  (forall b, fst (Take (Sleep b (freq st)) 1) = 1) ->
  exists st', TakeRatelimitToken fuel st = Some (sleeps_expected st, st') /\
    (sleeps_expected st <= 2)%nat /\ (bucket st = None -> st' = st).
Proof.
  intros Hf Hrefill. destruct st as [f [b|]]; [|exists (mkRateState f None); simpl; auto]. simpl in *.
  destruct fuel as [|[|fuel]]; [lia|lia|]. unfold TakeRatelimitToken, sleeps_expected; cbn [bucket freq].
  destruct (Take b 1) as [g b1] eqn:Hb; cbn -[take_loop].
  destruct (Z.eqb_spec g 1) as [->|Hg]; [rewrite take_loop_got; simpl; eexists; split; [reflexivity|split; [lia|discriminate]]|].
  rewrite take_loop_S by exact Hg.
  destruct (Z.eqb_spec (fst (Take b1 1)) 1) as [Hg2|Hg2].
  - rewrite Hg2, take_loop_got. simpl. eexists; split; [reflexivity|split; [lia|discriminate]].
  - rewrite take_loop_S by exact Hg2. rewrite Hrefill, take_loop_got.
    simpl.
    eexists; split; [reflexivity|split; [lia|discriminate]].
Qed.
End Progress.

(** A bucket holding a number of tokens, gaining one per interval slept,
    with [tb]'s [Take]: all the tokens asked for if there are enough,
    else all there are. *)
#[local] Instance count_bucket : TokenBucket N := {|
  NewBucket cap _ := Z.to_N cap;
  Take t n := let k := N.min (Z.to_N n) t in (Z.of_N k, (t - k)%N);
  Sleep t d := if 0 <? d then (t + 1)%N else t
|}.

Lemma SetRatelimit_interval_witness :
  exists st : RateState N, SetRatelimit 1000 = Ok st /\ freq st = 1000000.
Proof.
  destruct (proj2 (SetRatelimit_interval (B:=N) 1000) ltac:(lia)) as (st & Hst & _ & _ & _).
  exists st. split; [exact Hst|]. vm_compute in Hst. injection Hst as <-. reflexivity.
Defined.

Lemma TakeRatelimitToken_progress_witness :
  exists st', TakeRatelimitToken 2 (mkRateState 1000000 (Some 0%N)) = Some (2%nat, st').
Proof.
  destruct (TakeRatelimitToken_progress 2 (mkRateState 1000000 (Some 0%N)))
    as (st' & Heq & _ & _); [lia | intros b; simpl; lia |].
  exists st'. exact Heq.
Defined.
