(* ===== verification/Printing.v ===== *)
(** * The report ([PrintReport], [src/report.go])

    [PrintReport] writes the whole report into a [bytes.Buffer] with one
    [fmt.Fprint]/[Fprintf]/[Fprintln] call per line and prints the
    buffer at the end, so a panic on the way prints nothing.  The model
    is the sequence of those calls, one [ReportLine] per call with the
    values it formats; the text of each format string is the
    constructor's.  The [float64] values are exact rationals with the
    IEEE results of a division by zero ([F64]), and the deviation line
    carries the square of the printed value.  [Render] writes the text
    of each line with the [float64] arithmetic and the [%.2f]/[%.3f]
    formatting of the code, and proves that the text is the rendering
    of these lines.

    [PrintReport] reads the probe facts ([context.GetString] and
    [context.GetInt], which panic on a missing key), the configuration,
    the statistics, and the latency block of [Report.latency_report]. *)

From Stdlib Require Import QArith.
From S2P Require Import Prelude Types Context Stats Report Config.

(** A [float64] result: a finite value, or what dividing by zero gives. *)
Inductive F64 := Fin (q : Q) | PosInf | NegInf | NaN.

(** [float64(x) / float64(y)]. *)
Definition fdiv (x y : Q) : F64 :=
  if Qeq_bool y 0 then
    if Qeq_bool x 0 then NaN else if Qle_bool 0 x then PosInf else NegInf
  else Fin (x / y).

(** [d.Seconds()] of a [time.Duration] in nanoseconds. *)
Definition Seconds (d : Z) : Q := inject_Z d / inject_Z Second.

(** One call writing into the buffer, with the values it formats. *)
Inductive ReportLine :=
| LBlank                                   (** ["\n\n"] *)
| LServerSoftware (s : string)
| LServerHostname (s : string)
| LServerPort (p : Z)
| LDocumentPath (s : string)
| LDocumentLength (n : Z)
| LConcurrency (n : Z)
| LTimeTaken (secs : Q)
| LTimeMillis (ms : Z)
| LComplete (n : Z)
| LSuccess (n : Z)
| LFailedZero                              (** ["Failed requests:        0"] *)
| LFailed (n : Z)
| LFailedTypesHeader
| LFailedColumns
| LFailedTotals (succ conn recv resp len exc : Z)
| LFailedTimes (times : list Q)
| LFailedBreakdown (conn recv resp len exc : Z)
| LNon2xx (n : Z)
| LHTMLTransferred (n : Z)
| LRequestsPerSecond (v : F64)
| LTimePerRequest (v : F64)
| LTimePerRequestAll (v : F64)
| LTransferRate (v : F64)
| LConnTimesHeader
| LConnTimesColumns
| LConnTimesTotal (mn mean : Z) (sdSq : Q) (median mx : Z)  (** [sdSq]: the printed deviation, squared *)
| LPercentagesHeader
| LPercentile (p v : Z)
| LLongest (v : Z).

(** A line break. *)
Definition nl : string := String (Ascii.ascii_of_nat 10) EmptyString.

(** [PrintHeader()]: the raw string literal, which starts and ends with
    a line break, and the line break [fmt.Println] adds. *)
Definition PrintHeader : string :=
  nl +:+ "This is GoHttpBench, Version " +:+ GBVersion +:+ ", https://github.com/parkghost/gohttpbench" +:+ nl
     +:+ "Author: Brandon Chen, Email: parkghost@gmail.com" +:+ nl
     +:+ "Licensed under the MIT license" +:+ nl +:+ nl.

Section Print.

(** [url.Parse(config.url)] then [URL.RequestURI()] ([net/url]); the URL
    was parsed successfully by [LoadConfig] already. *)
Variable RequestURI : string -> string.

(** Lines 55-73: the failure summary. *)
Definition failed_lines (s : Stats) : list ReportLine :=
  if totalFailedReqeusts s =? 0 then [LFailedZero]
  else [LFailed (totalFailedReqeusts s); LFailedTypesHeader; LFailedColumns;
        LFailedTotals (totalSuccess s) (errConnect s) (errReceive s) (errResponse s)
                      (errLength s) (errException s);
        LFailedTimes [div (totalResponseTime s) (totalSuccess s);
                      div (ec_dur (errs s CatConnect)) (errConnect s);
                      div (ec_dur (errs s CatReceive)) (errReceive s);
                      div (ec_dur (errs s CatResponse)) (errResponse s);
                      div (ec_dur (errs s CatLength)) (errLength s);
                      div (ec_dur (errs s CatException)) (errException s)];
        LFailedBreakdown (errConnect s) (errReceive s) (errResponse s) (errLength s) (errException s)].

(** Lines 89-110: throughput and the latency block. *)
Definition latency_lines (cfg : ConfigExt) (s : Stats) (rep : LatencyReport) : list ReportLine :=
  let exec := totalExecutionTime s in
  [LRequestsPerSecond (fdiv (inject_Z (totalRequests s)) (Seconds exec));
   LTimePerRequest (fdiv (inject_Z (concurrency (core cfg)) * inject_Z exec / inject_Z 1000000)
                         (inject_Z (totalRequests s)));
   LTimePerRequestAll (fdiv (inject_Z exec / inject_Z 1000000) (inject_Z (totalRequests s)));
   LTransferRate (fdiv (inject_Z (totalReceived s ÷ 1024)) (Seconds exec));
   LConnTimesHeader; LConnTimesColumns;
   LConnTimesTotal (minResponseTime rep) (meanOfResponseTime rep)
                   (stdDevSq rep / inject_Z (Millisecond * Millisecond))
                   (medianOfResponseTime rep) (maxResponseTime rep);
   LPercentagesHeader] ++
  zip_with LPercentile percentages (percentileTimes rep) ++
  [LLongest (maxResponseTime rep)].

(** [PrintReport(context, stats)]: the lines of the buffer it prints. *)
Definition PrintReport (cfg : ConfigExt) (c : Context) (s : Stats) : go (list ReportLine) :=
  let! server := GetString c FieldServerName in
  let! size := GetInt c FieldContentSize in
  let! lat := latency_report s in
  Ok ([LBlank; LServerSoftware server; LServerHostname (host cfg); LServerPort (port cfg);
       LDocumentPath (RequestURI (url cfg)); LDocumentLength size;
       LConcurrency (concurrency (core cfg)); LTimeTaken (Seconds (totalExecutionTime s));
       LTimeMillis (totalResponseTime s ÷ Millisecond);
       LComplete (totalRequests s); LSuccess (totalSuccess s)] ++
      failed_lines s ++
      (if 0 <? errResponse s then [LNon2xx (errResponse s)] else []) ++
      [LHTMLTransferred (totalReceived s)] ++
      match lat with Some rep => latency_lines cfg s rep | None => [] end).

End Print.

(** ** Lemmas *)

(** The lines of the failure summary and of the non-2xx count. *)
Definition is_failure_line (x : ReportLine) : bool :=
  match x with
  | LFailedZero | LFailed _ | LFailedTotals _ _ _ _ _ _ | LFailedBreakdown _ _ _ _ _ | LNon2xx _ => true
  | _ => false
  end.

Definition not_failure (x : ReportLine) : Prop := is_failure_line x = false.

Lemma zip_with_percentile_not_failure (xs ys : list Z) :
  Forall not_failure (zip_with LPercentile xs ys).
Proof.
  revert ys; induction xs as [|x xs IH]; intros [|y ys]; simpl; try constructor; [done|apply IH].
Qed.

Lemma latency_lines_not_failure cfg s rep : Forall not_failure (latency_lines cfg s rep).
Proof.
  unfold latency_lines. apply Forall_app; split; [repeat constructor|].
  apply Forall_app; split; [apply zip_with_percentile_not_failure|repeat constructor].
Qed.

(** A failure line of the report is one of the failure summary. *)
Lemma failure_line_in (pre mid post : list ReportLine) (x : ReportLine) :
  Forall not_failure pre -> Forall not_failure post -> is_failure_line x = true ->
  In x (pre ++ mid ++ post) <-> In x mid.
Proof.
  rewrite !in_app_iff, !List.Forall_forall. unfold not_failure.
  intros Hpre Hpost Hx. split; [|tauto].
  intros [H|[H|H]]; [apply Hpre in H|done|apply Hpost in H]; congruence.
Qed.

(** The breakdown by category adds up to the failure count. *)
Lemma failed_sum_breakdown (s : Stats) :
  failed_sum (errs s) = errConnect s + errReceive s + errResponse s + errLength s + errException s.
Proof. unfold failed_sum, errConnect, errReceive, errResponse, errLength, errException. simpl. lia. Qed.

(** The report's lines around the failure summary. *)
Lemma PrintReport_shape RequestURI cfg c s srv sz :
  stats_wf s -> GetString c FieldServerName = Ok srv -> GetInt c FieldContentSize = Ok sz ->
  exists post, Forall not_failure post /\
    PrintReport RequestURI cfg c s =
      Ok ([LBlank; LServerSoftware srv; LServerHostname (host cfg); LServerPort (port cfg);
           LDocumentPath (RequestURI (url cfg)); LDocumentLength sz;
           LConcurrency (concurrency (core cfg)); LTimeTaken (Seconds (totalExecutionTime s));
           LTimeMillis (totalResponseTime s ÷ Millisecond);
           LComplete (totalRequests s); LSuccess (totalSuccess s)] ++
          (failed_lines s ++ (if 0 <? errResponse s then [LNon2xx (errResponse s)] else [])) ++ post).
Proof.
  intros Hwf Hsrv Hsz. destruct (latency_report_total s Hwf) as [lat Hlat].
  exists ([LHTMLTransferred (totalReceived s)] ++
          match lat with Some rep => latency_lines cfg s rep | None => [] end).
  split.
  - apply Forall_app; split; [repeat constructor|]. destruct lat; [apply latency_lines_not_failure|constructor].
  - unfold PrintReport. rewrite Hsrv, Hsz, Hlat. cbn [go_then]. by rewrite <- !app_assoc.
Qed.

Lemma fdiv_fin (x y : Q) : ~ (y == 0)%Q -> fdiv x y = Fin (x / y).
Proof. unfold fdiv. destruct (Qeq_bool y 0) eqn:E; [apply Qeq_bool_iff in E; contradiction|reflexivity]. Qed.

Lemma fdiv_zero_pos (x y : Q) : (y == 0)%Q -> (0 < x)%Q -> fdiv x y = PosInf.
Proof.
  intros Hy Hx. unfold fdiv. rewrite (proj2 (Qeq_bool_iff y 0) Hy).
  destruct (Qeq_bool x 0) eqn:E; [apply Qeq_bool_iff in E; rewrite E in Hx; discriminate|].
  rewrite (proj2 (Qle_bool_iff 0 x) (Qlt_le_weak _ _ Hx)). reflexivity.
Qed.

Lemma inject_Z_nz (z : Z) : z <> 0 -> ~ (inject_Z z == 0)%Q.
Proof. intros Hz H. apply (inject_Z_injective z 0) in H. lia. Qed.

Lemma Seconds_nz (e : Z) : e <> 0 -> ~ (Seconds e == 0)%Q.
Proof. intros He. unfold Seconds, Second, Qeq. simpl. lia. Qed.

(** Membership in a list of lines written out. *)
Ltac in_cases H :=
  simpl in H; repeat match type of H with _ \/ _ => destruct H as [H|H] end;
  try contradiction; try discriminate H.

Ltac in_list := simpl; repeat first [left; solve [reflexivity | f_equal; lia] | right].

(** ** Properties *)

(** C27: the report's accounting.  With the probe facts in the context and
    statistics that satisfy the accounting invariant, [PrintReport] does
    not panic, and the report it prints shows the server and document
    length the probe found, the complete and success counts, ["Failed
    requests: 0"] exactly when nothing failed, otherwise the failure
    count (once) and a breakdown by category that adds up to it (so that
    complete = success + failures as printed), and a ["Non-2xx
    responses"] line exactly when some response had a bad status, with
    that count. *)
Theorem PrintReport_accounting RequestURI cfg c s srv sz :
  stats_wf s -> GetString c FieldServerName = Ok srv -> GetInt c FieldContentSize = Ok sz ->
  exists lines, PrintReport RequestURI cfg c s = Ok lines /\
    In (LServerSoftware srv) lines /\ In (LDocumentLength sz) lines /\
    In (LComplete (totalRequests s)) lines /\ In (LSuccess (totalSuccess s)) lines /\
    (In LFailedZero lines <-> totalFailedReqeusts s = 0) /\
    (forall f, In (LFailed f) lines <-> f = totalFailedReqeusts s /\ 0 < f) /\
    (forall cn rc rp ln ex, In (LFailedBreakdown cn rc rp ln ex) lines ->
       cn + rc + rp + ln + ex = totalFailedReqeusts s /\
       totalRequests s = totalSuccess s + (cn + rc + rp + ln + ex)) /\
    (0 < totalFailedReqeusts s -> exists cn rc rp ln ex, In (LFailedBreakdown cn rc rp ln ex) lines) /\
    (forall n, In (LNon2xx n) lines <-> n = errResponse s /\ 0 < n).
Proof.
  intros Hwf Hsrv Hsz. destruct (PrintReport_shape RequestURI cfg c s srv sz Hwf Hsrv Hsz) as (post & Hpost & ->).
  destruct Hwf as (Htot & Hf & _ & _ & _ & Hnn). rewrite failed_sum_breakdown in Hf.
  assert (0 <= errConnect s /\ 0 <= errReceive s /\ 0 <= errResponse s /\ 0 <= errLength s /\ 0 <= errException s)
    by (unfold errConnect, errReceive, errResponse, errLength, errException; auto).
  eexists. split; [reflexivity|].
  split; [by apply in_app_iff; left; simpl; auto 10|].
  split; [by apply in_app_iff; left; simpl; auto 10|].
  split; [by apply in_app_iff; left; simpl; auto 20|].
  split; [by apply in_app_iff; left; simpl; auto 20|].
  match goal with |- context [In _ (?pre ++ ?mid ++ post)] =>
    assert (Hin : forall x, is_failure_line x = true -> In x (pre ++ mid ++ post) <-> In x mid)
      by (intros x Hx; apply failure_line_in; [repeat constructor|exact Hpost|exact Hx]) end.
  unfold failed_lines in *. rewrite Hf in *.
  destruct (Z.eqb_spec (errConnect s + errReceive s + errResponse s + errLength s + errException s) 0) as [H0|H0];
    destruct (Z.ltb_spec 0 (errResponse s)) as [Hr|Hr]; try lia.
  all: split; [rewrite (Hin LFailedZero eq_refl); split; [intros Hx; in_cases Hx; lia|intros; in_list]|].
  all: split; [intros f; rewrite (Hin (LFailed f) eq_refl);
               split; [intros Hx; in_cases Hx; injection Hx as <-; lia|intros [-> ?]; in_list]|].
  all: split; [intros cn rc rp ln ex; rewrite (Hin (LFailedBreakdown cn rc rp ln ex) eq_refl);
               intros Hx; in_cases Hx; injection Hx as <- <- <- <- <-; lia|].
  all: split; [intros Hpos; try lia; do 5 eexists; apply (Hin (LFailedBreakdown _ _ _ _ _) eq_refl); in_list|].
  all: intros m; rewrite (Hin (LNon2xx m) eq_refl);
    split; [intros Hx; in_cases Hx; injection Hx as <-; lia|intros [-> ?]; try lia; in_list].
Qed.

(** A campaign of two successes and one [500], after a probe that found
    [nginx] and 1024 bytes. *)
Definition example_print_cfg : ConfigExt :=
  mkConfigExt (mkConfig 3 1 0 MaxExecutionTimeout false false false) "GET" None "text/plain"
    [] [] "" "GoHttpBench" None "http://example.com:8080/" "example.com" 8080.

Definition example_print_context : Context :=
  SetInt (SetString (mkContext (core example_print_cfg) (mkWaitGroup 0) (mkWaitGroup 0) false ∅)
                    FieldServerName "nginx") FieldContentSize 1024.

Definition example_print_stats : Stats :=
  fold_left updateStats [mkRecord (50 * Millisecond) 1024 None; mkRecord (40 * Millisecond) 1024 None;
                         mkRecord (3 * Millisecond) 0 (Some (ResponseError "500 Internal Server Error"))] newStats.

Lemma PrintReport_accounting_witness :
  exists lines, PrintReport (fun u => u) example_print_cfg example_print_context example_print_stats = Ok lines /\
    In (LFailed 1) lines /\ In (LNon2xx 1) lines.
Proof.
  destruct (PrintReport_accounting (fun u => u) example_print_cfg example_print_context example_print_stats "nginx" 1024)
    as (lines & Hl & _ & _ & _ & _ & _ & Hf & _ & _ & Hn);
    [apply fold_updateStats_wf, newStats_wf | reflexivity | reflexivity |].
  exists lines. split; [exact Hl|]. split; [apply Hf | apply Hn]; vm_compute; split; reflexivity.
Defined.

(** Throughput.  In the report's latency block, when the campaign
    took some time, ["Requests per second"] and ["Time per request"
    (across all concurrent requests)] are finite and reciprocal in
    milliseconds (their product is 1000), and the mean ["Time per
    request"] is the concurrency times the latter; when the stop watch
    measured no time at all, the request rate is printed as [+Inf]. *)
Theorem throughput_lines (cfg : ConfigExt) (s : Stats) (rep : LatencyReport) :
  0 < totalRequests s ->
  (0 < totalExecutionTime s -> exists rps tpr tprAll rest,
     latency_lines cfg s rep =
       LRequestsPerSecond (Fin rps) :: LTimePerRequest (Fin tpr) :: LTimePerRequestAll (Fin tprAll) :: rest /\
     (rps * tprAll == 1000)%Q /\ (tpr == inject_Z (concurrency (core cfg)) * tprAll)%Q) /\
  (totalExecutionTime s = 0 -> exists rest, latency_lines cfg s rep = LRequestsPerSecond PosInf :: rest).
Proof.
  intros Hn. split.
  - intros He. unfold latency_lines.
    rewrite !fdiv_fin by (first [apply Seconds_nz | apply inject_Z_nz]; lia).
    do 4 eexists. split; [reflexivity|]. unfold Seconds, Second.
    pose proof (inject_Z_nz (totalRequests s) ltac:(lia)). pose proof (inject_Z_nz (totalExecutionTime s) ltac:(lia)).
    split; field; auto.
  - intros He. unfold latency_lines. rewrite He.
    rewrite fdiv_zero_pos; [eexists; reflexivity| |].
    + unfold Seconds, Qeq. reflexivity.
    + unfold Qlt. simpl. lia.
Qed.

Lemma throughput_lines_witness :
  exists rps tpr tprAll rest,
    latency_lines example_print_cfg (set_totalExecutionTime example_print_stats Second)
      (mkLatencyReport 40 45 0 50 50 (repeat 50 8)) =
      LRequestsPerSecond (Fin rps) :: LTimePerRequest (Fin tpr) :: LTimePerRequestAll (Fin tprAll) :: rest /\
    (rps * tprAll == 1000)%Q.
Proof.
  destruct (throughput_lines example_print_cfg (set_totalExecutionTime example_print_stats Second)
              (mkLatencyReport 40 45 0 50 50 (repeat 50 8))) as [Hpos _]; [vm_compute; reflexivity|].
  destruct Hpos as (rps & tpr & tprAll & rest & Hl & Hr & _); [unfold Second; vm_compute; reflexivity|].
  exists rps, tpr, tprAll, rest. split; [exact Hl|exact Hr].
Defined.
