(* ===== verification/GoFloat.v ===== *)
(** * Go's [float64] and its [%f] formatting ([src/report.go])

    [PrintReport] computes its rates, its times and the standard
    deviation of the latencies in [float64], and prints them with
    [%.2f], [%.3f] and [%.6f].  This file models [float64] by Rocq's
    primitive binary64 floats ([PrimFloat.float]).  Their operations are
    IEEE 754's with rounding to nearest, ties to even, as Go's are; none
    of the expressions below is a multiply-add that Go may fuse.
    - [float64(n)] of an integer rounds [n] to the nearest binary64
      ([float64], by [SpecFloat.binary_normalize]).
    - [d.Seconds()] of a [time.Duration] is Go's
      [float64(d / Second) + float64(d % Second) / 1e9] ([Seconds_f]).
    - [div] of [report.go] is [div_f].
    - [stdDev] of [report.go] is [stdDev_f].  It calls [math.Pow(x, 2)],
      which is [x * x] for the values it sees ([Pow2]), and
      [math.Sqrt], which is the correctly rounded square root.
    - [fmt]'s [%.Nf] is [fmt_f].  It is [strconv.AppendFloat(x, 'f', N, 64)],
      which rounds the exact binary value to [N] decimals with ties to
      even (Go's [bigFtoa] path, taken for every ['f'] format with a
      precision).  [fmt] keeps the [-] sign, drops the [+] sign, and
      writes [+Inf], [-Inf] and [NaN].

    The lemmas reason about floats through [FloatOps.Prim2SF] and the
    specifications [FloatAxioms] states of the primitive operations.
    The theorems show two things.  Dividing a positive [int64] by a
    zero duration gives [+Inf] ([float64_div_zero]).  [fmt_f] prints the
    decimal nearest to the float, ties to even ([fmt_f_rounding]). *)

From Stdlib Require Import Ascii.
From Stdlib Require PrimFloat SpecFloat FloatOps FloatAxioms Uint63.
From S2P Require Import Prelude Types Probe.
Import SpecFloat.

Declare Scope gofloat_scope.
Delimit Scope gofloat_scope with f64.
Notation "x + y" := (PrimFloat.add x y) : gofloat_scope.
Notation "x - y" := (PrimFloat.sub x y) : gofloat_scope.
Notation "x * y" := (PrimFloat.mul x y) : gofloat_scope.
Notation "x / y" := (PrimFloat.div x y) : gofloat_scope.

(** ** Arithmetic *)

(** [float64(n)]: the integer rounded to the nearest binary64. *)
Definition float64 (z : Z) : PrimFloat.float :=
  FloatOps.SF2Prim (binary_normalize FloatOps.prec FloatOps.emax z 0 false).

(** [time.Duration.Seconds()]: whole seconds plus the remainder in
    nanoseconds over [1e9]. *)
Definition Seconds_f (d : Z) : PrimFloat.float :=
  (float64 (Z.quot d Second) + float64 (Z.rem d Second) / float64 1000000000)%f64.

(** [div(dur, count)] of [report.go]: milliseconds per count, [0] for no
    count. *)
Definition div_f (dur count : Z) : PrimFloat.float :=
  if count =? 0 then float64 0
  else (float64 dur / float64 Millisecond / float64 count)%f64.

(** [math.Pow(x, 2)].  On a zero it returns [0]; otherwise it squares
    the mantissa in [[0.5, 1)] and scales by a power of two, which
    rounds as [x * x] does while the square is a normal number: here
    [x] is a difference of two integer-valued floats, so [|x| >= 1]
    when [x <> 0], and [|x| <= 2^64]. *)
Definition Pow2 (x : PrimFloat.float) : PrimFloat.float := (x * x)%f64.

(** [stdDev(data)]: the [int64] sum (wrapping), the integer mean
    (panicking on an empty slice), the sum of the squared deviations
    in [float64], and the square root of its mean. *)
Definition stdDev_f (data : list Z) : go PrimFloat.float :=
  let sum := fold_left (fun acc d => acc +i64 d) data 0 in
  let! q := go_quot sum (Z.of_nat (length data)) in
  let avg := float64 q in
  let sumOfSquares := fold_left (fun acc d => acc + Pow2 (float64 d - avg))%f64 data (float64 0) in
  Ok (PrimFloat.sqrt (sumOfSquares / float64 (Z.of_nat (length data)))%f64).

(** ** Formatting *)

(** [m / d] rounded to the nearest integer, ties to even ([d > 0]). *)
Definition round_div (m d : Z) : Z :=
  let q := m / d in let r := m mod d in
  if (d <? 2 * r) || ((2 * r =? d) && Z.odd q) then q + 1 else q.

(** The digits [strconv] keeps of [m * 2^e] at [prec] decimals: the
    exact value times [10^prec], rounded. *)
Definition scaled (prec : nat) (m : positive) (e : Z) : Z :=
  round_div (Zpos m * 2 ^ Z.max 0 e * 10 ^ Z.of_nat prec) (2 ^ Z.max 0 (- e)).

(** The decimal digits of a natural number, with enough fuel. *)
Definition fmt_uint (n : Z) : string := format_digits (S (Z.to_nat (Z.log2 n))) n EmptyString.

Fixpoint zeros (k : nat) : string :=
  match k with O => EmptyString | S k => String "0"%char (zeros k) end.

(** [n / 10^prec] written with [prec] decimals: the integer part ([0]
    when it is zero), then a point and the fraction padded with zeros,
    no point when [prec = 0] ([strconv.fmtF]). *)
Definition decimal (prec : nat) (n : Z) : string :=
  let p := 10 ^ Z.of_nat prec in
  fmt_uint (n / p) +:+
  match prec with
  | O => EmptyString
  | S _ => let f := fmt_uint (n mod p) in
           String "." (zeros (prec - String.length f) +:+ f)
  end.

Definition sign (s : bool) : string := if s then "-" else EmptyString.

(** [fmt.Sprintf("%.<prec>f", x)]. *)
Definition fmt_f (prec : nat) (x : PrimFloat.float) : string :=
  match FloatOps.Prim2SF x with
  | S754_nan => "NaN"
  | S754_infinity s => if s then "-Inf" else "+Inf"
  | S754_zero s => sign s +:+ decimal prec 0
  | S754_finite s m e => sign s +:+ decimal prec (scaled prec m e)
  end.

(** A positive integer converts to a positive finite float or [+Inf]. *)
Definition pos_class (x : spec_float) : bool :=
  match x with S754_finite false _ _ | S754_infinity false => true | _ => false end.

(** ** Lemmas on the conversion *)

(** Through [SpecFloat]'s rounding a shift right by [k] divides by [2^k]. *)
Lemma shr_1_m (mrs : shr_record) : 0 <= shr_m mrs -> shr_m (shr_1 mrs) = Z.div2 (shr_m mrs).
Proof. destruct mrs as [[|[p|p|]|p] r s]; simpl; lia. Qed.

Lemma iter_shr_1_m (k : positive) (mrs : shr_record) :
  0 <= shr_m mrs -> shr_m (iter_pos shr_1 k mrs) = shr_m mrs / 2 ^ Zpos k.
Proof.
  revert mrs; induction k as [k IH|k IH|]; intros mrs Hm; simpl iter_pos;
    try pose proof (Z.pow_pos_nonneg 2 (Zpos k) ltac:(lia) ltac:(lia)).
  - assert (H1 : 0 <= shr_m (shr_1 mrs)) by (rewrite shr_1_m by lia; apply Z.div2_nonneg; lia).
    rewrite IH, IH, shr_1_m, Z.div2_div by (try rewrite IH; try apply Z.div_pos; lia).
    rewrite !Z.div_div by lia. f_equal.
    replace (Z.pos k~1) with (Z.pos k + Z.pos k + 1) by lia. rewrite !Z.pow_add_r by lia. ring.
  - rewrite IH, IH by (try rewrite IH; try apply Z.div_pos; lia).
    rewrite Z.div_div by lia. rewrite <- Z.pow_add_r by lia. do 2 f_equal. lia.
  - rewrite shr_1_m, Z.div2_div by lia. reflexivity.
Qed.

Lemma digits2_pos_low (p : positive) : 2 ^ (Zpos (digits2_pos p) - 1) <= Zpos p.
Proof.
  induction p as [p IH|p IH|]; simpl digits2_pos; [| |simpl; lia];
    rewrite Pos2Z.inj_succ, Z.sub_succ_l, <- Z.add_1_r, Z.pow_add_r by lia; lia.
Qed.

Lemma shr_fexp_pos (p : positive) (e : Z) (l : location) :
  SpecFloat.emin FloatOps.prec FloatOps.emax <= e ->
  0 < shr_m (fst (shr_fexp FloatOps.prec FloatOps.emax (Zpos p) e l)) /\
  SpecFloat.emin FloatOps.prec FloatOps.emax <= snd (shr_fexp FloatOps.prec FloatOps.emax (Zpos p) e l).
Proof.
  intros He. unfold shr_fexp, shr, fexp, Zdigits2.
  assert (Hm : shr_m (shr_record_of_loc (Zpos p) l) = Zpos p) by (destruct l as [|[]]; reflexivity).
  pose proof (digits2_pos_low p).
  destruct (Z.max _ _ - e) as [|k|k] eqn:Hk; simpl fst; simpl snd; [rewrite Hm; lia| |rewrite Hm; lia].
  rewrite iter_shr_1_m, Hm by lia. split; [|lia].
  apply Z.div_str_pos. split; [apply Z.pow_pos_nonneg; lia|].
  etransitivity; [|eassumption]. apply Z.pow_le_mono_r; [lia|].
  unfold FloatOps.prec, SpecFloat.emin, FloatOps.emax in *. lia.
Qed.

Lemma round_nearest_even_pos (m : Z) (l : location) : 0 < m -> 0 < round_nearest_even m l.
Proof. destruct l as [|[]]; simpl; try destruct (Z.even m); lia. Qed.

Lemma binary_round_aux_pos (mz : positive) (ez : Z) :
  SpecFloat.emin FloatOps.prec FloatOps.emax <= ez -> pos_class (binary_round_aux FloatOps.prec FloatOps.emax false (Zpos mz) ez loc_Exact) = true.
Proof.
  intros Hle. unfold binary_round_aux.
  destruct (shr_fexp_pos mz ez loc_Exact Hle) as [H1 H2].
  destruct (shr_fexp _ _ (Zpos mz) ez loc_Exact) as [mrs' e'] eqn:E1. simpl in H1, H2.
  pose proof (round_nearest_even_pos (shr_m mrs') (loc_of_shr_record mrs') H1) as H3.
  destruct (round_nearest_even _ _) as [|q|q]; try lia.
  destruct (shr_fexp_pos q e' loc_Exact H2) as [H4 _].
  destruct (shr_fexp _ _ (Zpos q) e' loc_Exact) as [mrs'' e''] eqn:E2. simpl in H4.
  destruct (shr_m mrs''); try lia. destruct (_ <=? _); reflexivity.
Qed.

Lemma binary_normalize_pos (p : positive) :
  pos_class (binary_normalize FloatOps.prec FloatOps.emax (Zpos p) 0 false) = true.
Proof.
  unfold binary_normalize, binary_round, shl_align.
  assert (Hf : forall z, SpecFloat.emin FloatOps.prec FloatOps.emax <= fexp FloatOps.prec FloatOps.emax z) by (intros; unfold fexp; lia).
  destruct (_ - 0) eqn:E; apply binary_round_aux_pos; try (apply Hf).
  all: unfold SpecFloat.emin, FloatOps.prec, FloatOps.emax; lia.
Qed.

Lemma wB_val : Uint63.wB = 2 ^ 63.
Proof. reflexivity. Qed.

(** A non-negative [int64] converts exactly as [of_uint63] does. *)
Lemma float64_of_uint63 (z : Z) :
  0 <= z < 2 ^ 63 -> float64 z = PrimFloat.of_uint63 (Uint63.of_Z z).
Proof.
  intros Hz. unfold float64.
  rewrite <- (Z.mod_small z Uint63.wB) at 1 by (rewrite wB_val; lia).
  rewrite <- Uint63.of_Z_spec, <- FloatAxioms.of_uint63_spec. apply FloatAxioms.SF2Prim_Prim2SF.
Qed.

Lemma Prim2SF_float64 (z : Z) :
  0 <= z < 2 ^ 63 -> FloatOps.Prim2SF (float64 z) = binary_normalize FloatOps.prec FloatOps.emax z 0 false.
Proof.
  intros Hz. rewrite float64_of_uint63, FloatAxioms.of_uint63_spec, Uint63.of_Z_spec by exact Hz.
  rewrite Z.mod_small; [reflexivity|rewrite wB_val; lia].
Qed.

(** A positive [int64] divided by a float zero is [+Inf], which [%f]
    prints as such. *)
Lemma float64_div_zero (n : Z) (y : PrimFloat.float) (prec : nat) :
  0 < n < 2 ^ 63 -> FloatOps.Prim2SF y = S754_zero false ->
  fmt_f prec (float64 n / y)%f64 = "+Inf".
Proof.
  intros Hn Hy. unfold fmt_f. rewrite FloatAxioms.div_spec, Prim2SF_float64, Hy by lia.
  destruct n as [|p|p]; try lia. pose proof (binary_normalize_pos p) as H.
  destruct (binary_normalize _ _ _ _ _) as [[]|[]| |[] ? ?]; try discriminate; reflexivity.
Qed.

(** ** Finiteness: an [int64] converts to a finite float *)

Lemma iter_xO_mul (p j : positive) : Zpos (Pos.iter xO p j) = Zpos p * 2 ^ Zpos j.
Proof.
  induction j as [|j IH] using Pos.peano_ind; [simpl; lia|].
  rewrite Pos.iter_succ, Pos2Z.inj_xO, IH, Pos2Z.inj_succ, Z.pow_succ_r by lia. lia.
Qed.

Lemma digits2_pos_high (p : positive) : Zpos p < 2 ^ Zpos (digits2_pos p).
Proof.
  induction p as [p IH|p IH|]; simpl digits2_pos; [| |simpl; lia];
    rewrite Pos2Z.inj_succ, Z.pow_succ_r by lia; lia.
Qed.

(** A mantissa below [2^k] has at most [k] binary digits. *)
Lemma digits2_pos_le (p : positive) (k : Z) : 0 <= k -> Zpos p <= 2 ^ k -> Zpos (digits2_pos p) <= k + 1.
Proof.
  intros Hk Hp. pose proof (digits2_pos_low p) as Hl.
  destruct (Z.le_gt_cases (Zpos (digits2_pos p)) (k + 1)) as [|Hgt]; [assumption|].
  assert (2 ^ (k + 1) <= 2 ^ (Zpos (digits2_pos p) - 1)) by (apply Z.pow_le_mono_r; lia).
  rewrite Z.pow_add_r in * by lia. lia.
Qed.

Lemma round_nearest_even_le (m : Z) (l : location) : round_nearest_even m l <= m + 1.
Proof. destruct l as [|[]]; simpl; try destruct (Z.even m); lia. Qed.

(** What a shift right keeps: no more than the mantissa, at the exponent
    [fexp] asks for. *)
Lemma shr_fexp_bounds (p : positive) (e : Z) (l : location) :
  shr_m (fst (shr_fexp FloatOps.prec FloatOps.emax (Zpos p) e l)) <= Zpos p /\
  snd (shr_fexp FloatOps.prec FloatOps.emax (Zpos p) e l) =
    Z.max e (fexp FloatOps.prec FloatOps.emax (Zpos (digits2_pos p) + e)).
Proof.
  unfold shr_fexp, shr, Zdigits2.
  assert (Hm : shr_m (shr_record_of_loc (Zpos p) l) = Zpos p) by (destruct l as [|[]]; reflexivity).
  destruct (_ - e) as [|k|k] eqn:Hk; simpl fst; simpl snd; [rewrite Hm; lia| |rewrite Hm; lia].
  rewrite iter_shr_1_m, Hm by lia. split; [|lia].
  apply Z.div_le_upper_bound; [apply Z.pow_pos_nonneg; lia|].
  pose proof (Z.pow_pos_nonneg 2 (Zpos k) ltac:(lia) ltac:(lia)). nia.
Qed.

Lemma binary_round_aux_finite (mz : positive) (ez : Z) :
  SpecFloat.emin FloatOps.prec FloatOps.emax <= ez <= 0 -> Zpos mz < 2 ^ 63 ->
  exists m e, binary_round_aux FloatOps.prec FloatOps.emax false (Zpos mz) ez loc_Exact = S754_finite false m e.
Proof.
  intros Hez Hmz. unfold binary_round_aux.
  destruct (shr_fexp_pos mz ez loc_Exact ltac:(lia)) as [H1 H2].
  destruct (shr_fexp_bounds mz ez loc_Exact) as [B1 E1].
  pose proof (digits2_pos_le mz 63 ltac:(lia) ltac:(lia)) as Dz.
  destruct (shr_fexp _ _ (Zpos mz) ez loc_Exact) as [mrs' e'] eqn:S1. simpl in H1, H2, B1, E1.
  pose proof (round_nearest_even_pos (shr_m mrs') (loc_of_shr_record mrs') H1) as H3.
  pose proof (round_nearest_even_le (shr_m mrs') (loc_of_shr_record mrs')) as H3'.
  destruct (round_nearest_even _ _) as [|q|q] eqn:R; try lia.
  destruct (shr_fexp_pos q e' loc_Exact H2) as [H4 _].
  destruct (shr_fexp_bounds q e' loc_Exact) as [_ E2].
  pose proof (digits2_pos_le q 63 ltac:(lia) ltac:(lia)) as Dq.
  destruct (shr_fexp _ _ (Zpos q) e' loc_Exact) as [mrs'' e''] eqn:S2. simpl in H4, E2.
  destruct (shr_m mrs'') as [|m|m]; try lia.
  rewrite (proj2 (Z.leb_le e'' (FloatOps.emax - FloatOps.prec))); [eauto|].
  unfold fexp, SpecFloat.emin, FloatOps.prec, FloatOps.emax in *. lia.
Qed.

(** A positive [int64] converts to a positive finite float. *)
Lemma binary_normalize_finite (p : positive) :
  Zpos p < 2 ^ 63 ->
  exists m e, binary_normalize FloatOps.prec FloatOps.emax (Zpos p) 0 false = S754_finite false m e.
Proof.
  intros Hp. unfold binary_normalize, binary_round, shl_align.
  pose proof (digits2_pos_low p) as Hl. pose proof (digits2_pos_high p) as Hh.
  pose proof (digits2_pos_le p 63 ltac:(lia) ltac:(lia)) as Hd.
  unfold fexp, SpecFloat.emin, FloatOps.prec, FloatOps.emax in *.
  destruct (_ - 0) as [|j|j] eqn:Ej; apply binary_round_aux_finite;
    unfold SpecFloat.emin, FloatOps.prec, FloatOps.emax; try lia.
  eapply Z.le_lt_trans; [apply Z.eq_le_incl, iter_xO_mul|].
  assert (Hj : Zpos j = 53 - Zpos (digits2_pos p)) by lia.
  rewrite Hj, <- (Z.mul_1_r (2 ^ 63)).
  replace 63 with (Zpos (digits2_pos p) + (63 - Zpos (digits2_pos p))) at 1 by lia.
  rewrite Z.pow_add_r by lia.
  assert (2 ^ (53 - Zpos (digits2_pos p)) <= 2 ^ (63 - Zpos (digits2_pos p))) by (apply Z.pow_le_mono_r; lia).
  nia.
Qed.

Lemma float64_finite (z : Z) :
  0 < z < 2 ^ 63 -> exists m e, FloatOps.Prim2SF (float64 z) = S754_finite false m e.
Proof.
  intros Hz. rewrite Prim2SF_float64 by lia. destruct z as [|p|p]; try lia.
  apply binary_normalize_finite. lia.
Qed.

Lemma Prim2SF_float64_0 : FloatOps.Prim2SF (float64 0) = S754_zero false.
Proof. reflexivity. Qed.

(** [float64(d) - float64(d)] is [+0]. *)
Lemma float64_sub_self (z : Z) : 0 <= z < 2 ^ 63 -> (float64 z - float64 z)%f64 = float64 0.
Proof.
  intros Hz. apply FloatAxioms.Prim2SF_inj. rewrite FloatAxioms.sub_spec, Prim2SF_float64_0.
  destruct (Z.eq_dec z 0) as [->|Hne]; [reflexivity|].
  destruct (float64_finite z ltac:(lia)) as (m & e & ->).
  unfold FloatAxioms.SF64sub, SFsub. rewrite Z.sub_diag. reflexivity.
Qed.

(** [0 / float64(n)] is [+0] for a positive [n]. *)
Lemma float64_zero_div (z : Z) : 0 < z < 2 ^ 63 -> (float64 0 / float64 z)%f64 = float64 0.
Proof.
  intros Hz. apply FloatAxioms.Prim2SF_inj. rewrite FloatAxioms.div_spec, Prim2SF_float64_0.
  destruct (float64_finite z Hz) as (m & e & ->). reflexivity.
Qed.

(** ** Lemmas on the formatting *)

(** [round_div] is the nearest integer, ties to even. *)
Lemma round_div_spec (m d : Z) :
  0 < d -> 0 <= m ->
  0 <= round_div m d /\ 2 * Z.abs (round_div m d * d - m) <= d /\
  (2 * Z.abs (round_div m d * d - m) = d -> Z.even (round_div m d) = true).
Proof.
  intros Hd Hm. unfold round_div.
  pose proof (Z.div_mod m d ltac:(lia)). pose proof (Z.mod_pos_bound m d Hd).
  pose proof (Z.div_pos m d Hm Hd).
  set (q := m / d) in *. set (r := m mod d) in *.
  destruct (Z.ltb_spec d (2 * r)); simpl.
  - split; [lia|]. split; [|intros; lia]. rewrite Z.abs_eq; nia.
  - destruct (Z.eqb_spec (2 * r) d), (Z.odd q) eqn:Ho; simpl.
    + rewrite Z.add_1_r, Z.even_succ, Ho, Z.abs_eq by nia. split; [lia|split; [nia|auto]].
    + rewrite <- Z.negb_odd, Ho, Z.abs_neq by nia. split; [lia|split; [nia|auto]].
    + rewrite Z.abs_neq by nia. split; [lia|split; [nia|intros; lia]].
    + rewrite Z.abs_neq by nia. split; [lia|split; [nia|intros; lia]].
Qed.

(** ** Properties *)

(** [%.<prec>f] rounds correctly.  For a finite float [x], whose
    magnitude is [m * 2^e], [fmt.Sprintf("%.<prec>f", x)] prints its sign
    and [N / 10^prec], where [N] is the integer nearest to
    [|x| * 10^prec]; at a tie, [N] is even. *)
Theorem fmt_f_rounding (prec : nat) (x : PrimFloat.float) (s : bool) (m : positive) (e : Z) :
  FloatOps.Prim2SF x = S754_finite s m e ->
  exists N, fmt_f prec x = sign s +:+ decimal prec N /\ 0 <= N /\
    2 * Z.abs (N * 2 ^ Z.max 0 (- e) - Zpos m * 2 ^ Z.max 0 e * 10 ^ Z.of_nat prec) <= 2 ^ Z.max 0 (- e) /\
    (2 * Z.abs (N * 2 ^ Z.max 0 (- e) - Zpos m * 2 ^ Z.max 0 e * 10 ^ Z.of_nat prec) = 2 ^ Z.max 0 (- e) ->
     Z.even N = true).
Proof.
  intros Hx. exists (scaled prec m e). unfold fmt_f. rewrite Hx. split; [reflexivity|].
  apply round_div_spec; [apply Z.pow_pos_nonneg; lia|].
  apply Z.mul_nonneg_nonneg; [apply Z.mul_nonneg_nonneg; [lia|]|]; apply Z.pow_nonneg; lia.
Qed.

(** [0.625] is [5629499534213120 * 2^-53] and lies halfway between
    [0.62] and [0.63]: Go prints [0.62]. *)
Lemma fmt_f_rounding_witness :
  FloatOps.Prim2SF (float64 5 / float64 8)%f64 = S754_finite false 5629499534213120 (-53) /\
  fmt_f 2 (float64 5 / float64 8)%f64 = "0.62" /\
  exists N, fmt_f 2 (float64 5 / float64 8)%f64 = sign false +:+ decimal 2 N /\ 0 <= N /\
    2 * Z.abs (N * 2 ^ Z.max 0 (- -53) - 5629499534213120 * 2 ^ Z.max 0 (-53) * 10 ^ Z.of_nat 2) <= 2 ^ Z.max 0 (- -53) /\
    (2 * Z.abs (N * 2 ^ Z.max 0 (- -53) - 5629499534213120 * 2 ^ Z.max 0 (-53) * 10 ^ Z.of_nat 2) = 2 ^ Z.max 0 (- -53) ->
     Z.even N = true).
Proof.
  split; [vm_compute; reflexivity|]. split; [vm_compute; reflexivity|].
  apply (fmt_f_rounding 2 _ false 5629499534213120 (-53)). vm_compute. reflexivity.
Defined.
