(* ===== verification/Render.v ===== *)
(** * The text of the report ([PrintReport], [src/report.go])

    [PrintReport] writes its report into a [bytes.Buffer], one
    [fmt.Fprint]/[Fprintf]/[Fprintln] call at a time, and prints the
    buffer with [fmt.Println].  [report_writes] is the list of the
    strings those calls write, in order.  [%d] is [strconv.FormatInt]
    ([FormatInt] of [Probe]), [%s] the string itself, and [%.Nf]
    [GoFloat.fmt_f] of the [float64] the code computes.

    [Printing.PrintReport] models the same calls as [ReportLine]s with
    the values they format, the [float64] ones as exact rationals.
    [render_line] writes one such line with the format string of its
    call; its [float64] values come from a [FloatEnv].  [float_env]
    gives the values [PrintReport] computes.  The refinement theorem
    [report_writes_refines] shows that the text is the rendering of the
    lines, panics included, so what [Printing] proves of the lines holds
    of the text through [render_line].  [report_zero_elapsed] shows what the report prints when the
    stop watch measured no time.

    In the latency block [stdDev] runs before the sort and the lookups
    in the source, and after them here.  Neither can panic once the
    block's guard holds, so the order is not observable. *)

From Stdlib Require Import Ascii.
From Stdlib Require PrimFloat FloatOps.
From S2P Require Import Prelude Types Context Stats Report Config Probe Printing GoFloat.

Definition tab : string := String (ascii_of_nat 9) EmptyString.

(** ["±"], two bytes in UTF-8. *)
Definition plusminus : string := String (ascii_of_nat 194) (String (ascii_of_nat 177) EmptyString).

(** [%d] of an [int] or [int64]. *)
Definition fmt_d (n : Z) : string := FormatInt n.

(** [buffer.String()]: the concatenation of the writes. *)
Definition buffer_string (ws : list string) : string := foldr String.append EmptyString ws.

(** The [float64] values the report prints, one field per value. *)
Record FloatEnv := mkFloatEnv {
  fe_taken : PrimFloat.float;        (** [totalExecutionTime.Seconds()] *)
  fe_times : list PrimFloat.float;   (** the six [div(...)] of the failure summary *)
  fe_rps : PrimFloat.float;
  fe_tpr : PrimFloat.float;
  fe_tprAll : PrimFloat.float;
  fe_rate : PrimFloat.float;
  fe_sd : PrimFloat.float            (** [stdDevOfResponseTime] *)
}.

(** The values [PrintReport] computes, given [stdDevOfResponseTime]. *)
Definition float_env (cfg : ConfigExt) (s : Stats) (sd : PrimFloat.float) : FloatEnv :=
  let exec := totalExecutionTime s in
  mkFloatEnv (Seconds_f exec)
    [div_f (totalResponseTime s) (totalSuccess s); div_f (ec_dur (errs s CatConnect)) (errConnect s);
     div_f (ec_dur (errs s CatReceive)) (errReceive s); div_f (ec_dur (errs s CatResponse)) (errResponse s);
     div_f (ec_dur (errs s CatLength)) (errLength s); div_f (ec_dur (errs s CatException)) (errException s)]
    (float64 (totalRequests s) / Seconds_f exec)%f64
    (float64 (concurrency (core cfg)) * float64 exec / float64 1000000 / float64 (totalRequests s))%f64
    (float64 exec / float64 1000000 / float64 (totalRequests s))%f64
    (float64 (totalReceived s ÷ 1024) / Seconds_f exec)%f64
    sd.

(** One line of [Printing] with the format string of its call. *)
Definition render_line (fe : FloatEnv) (l : ReportLine) : string :=
  let t (i : nat) := fmt_f 2 (nth i (fe_times fe) (float64 0)) in
  match l with
  | LBlank => nl +:+ nl
  | LServerSoftware x => "Server Software:        " +:+ x +:+ nl
  | LServerHostname x => "Server Hostname:        " +:+ x +:+ nl
  | LServerPort p => "Server Port:            " +:+ fmt_d p +:+ nl +:+ nl
  | LDocumentPath x => "Document Path:          " +:+ x +:+ nl
  | LDocumentLength n => "Document Length:        " +:+ fmt_d n +:+ " bytes" +:+ nl +:+ nl
  | LConcurrency n => "Concurrency Level:      " +:+ fmt_d n +:+ nl
  | LTimeTaken _ => "Time taken for tests:   " +:+ fmt_f 6 (fe_taken fe) +:+ " seconds" +:+ nl
  | LTimeMillis ms => "Time taken in millis:   " +:+ fmt_d ms +:+ " ms" +:+ nl
  | LComplete n => "Complete requests:      " +:+ fmt_d n +:+ nl
  | LSuccess n => "Success requests:       " +:+ fmt_d n +:+ nl
  | LFailedZero => "Failed requests:        0" +:+ nl
  | LFailed n => "Failed requests:        " +:+ fmt_d n +:+ nl
  | LFailedTypesHeader => "Failed types and avg Query Times(ms)" +:+ nl
  | LFailedColumns => "       " +:+ tab +:+ "Success" +:+ tab +:+ "Connect" +:+ tab +:+ "Receive" +:+ tab +:+
                        "Response Length" +:+ tab +:+ "Exceptions" +:+ nl
  | LFailedTotals sc cn rc rp ln ex =>
      "Total:" +:+ tab +:+ fmt_d sc +:+ " " +:+ tab +:+ fmt_d cn +:+ " " +:+ tab +:+ fmt_d rc +:+ " " +:+ tab +:+
      fmt_d rp +:+ " " +:+ tab +:+ " " +:+ fmt_d ln +:+ " " +:+ tab +:+ fmt_d ex +:+ nl
  | LFailedTimes _ =>
      "Times:" +:+ tab +:+ t 0%nat +:+ tab +:+ t 1%nat +:+ tab +:+ t 2%nat +:+ tab +:+ t 3%nat +:+ tab +:+ " " +:+ t 4%nat +:+
      tab +:+ t 5%nat +:+ nl
  | LFailedBreakdown cn rc rp ln ex =>
      "   (Connect: " +:+ fmt_d cn +:+ ", Receive: " +:+ fmt_d rc +:+ ", Response: " +:+ fmt_d rp +:+
      ", Length: " +:+ fmt_d ln +:+ ", Exceptions: " +:+ fmt_d ex +:+ ")" +:+ nl
  | LNon2xx n => "Non-2xx responses:      " +:+ fmt_d n +:+ nl
  | LHTMLTransferred n => "HTML transferred:       " +:+ fmt_d n +:+ " bytes" +:+ nl
  | LRequestsPerSecond _ => "Requests per second:    " +:+ fmt_f 2 (fe_rps fe) +:+ " [#/sec] (mean)" +:+ nl
  | LTimePerRequest _ => "Time per request:       " +:+ fmt_f 3 (fe_tpr fe) +:+ " [ms] (mean)" +:+ nl
  | LTimePerRequestAll _ =>
      "Time per request:       " +:+ fmt_f 3 (fe_tprAll fe) +:+ " [ms] (mean, across all concurrent requests)" +:+ nl
  | LTransferRate _ => "HTML Transfer rate:     " +:+ fmt_f 2 (fe_rate fe) +:+ " [Kbytes/sec] received" +:+ nl +:+ nl
  | LConnTimesHeader => "Connection Times (ms)" +:+ nl
  | LConnTimesColumns => "              min" +:+ tab +:+ "mean[+/-sd]" +:+ tab +:+ tab +:+ "median" +:+ tab +:+ "max" +:+ nl
  | LConnTimesTotal mn mean _ med mx =>
      "Total:        " +:+ fmt_d mn +:+ "     " +:+ tab +:+ fmt_d mean +:+ "   " +:+ plusminus +:+
      fmt_f 2 (fe_sd fe) +:+ " " +:+ tab +:+ " " +:+ fmt_d med +:+ " " +:+ tab +:+ fmt_d mx +:+ nl +:+ nl
  | LPercentagesHeader => "Percentage of the requests served within a certain time (ms)" +:+ nl
  | LPercentile p v => " " +:+ fmt_d p +:+ "%" +:+ tab +:+ " " +:+ fmt_d v +:+ nl
  | LLongest v => " " +:+ fmt_d 100 +:+ "%" +:+ tab +:+ " " +:+ fmt_d v +:+ " (longest request)" +:+ nl
  end.

Section Text.

(** [url.Parse(config.url)] then [URL.RequestURI()], as in [Printing]. *)
Variable RequestURI : string -> string.

(** Lines 89-110, with [stdDevOfResponseTime] ([sd]) computed. *)
Definition latency_writes (cfg : ConfigExt) (s : Stats) (rep : LatencyReport) (sd : PrimFloat.float) : list string :=
  let exec := totalExecutionTime s in
  ["Requests per second:    " +:+ fmt_f 2 (float64 (totalRequests s) / Seconds_f exec)%f64 +:+
     " [#/sec] (mean)" +:+ nl;
   "Time per request:       " +:+
     fmt_f 3 (float64 (concurrency (core cfg)) * float64 exec / float64 1000000 / float64 (totalRequests s))%f64 +:+
     " [ms] (mean)" +:+ nl;
   "Time per request:       " +:+ fmt_f 3 (float64 exec / float64 1000000 / float64 (totalRequests s))%f64 +:+
     " [ms] (mean, across all concurrent requests)" +:+ nl;
   "HTML Transfer rate:     " +:+ fmt_f 2 (float64 (totalReceived s ÷ 1024) / Seconds_f exec)%f64 +:+
     " [Kbytes/sec] received" +:+ nl +:+ nl;
   "Connection Times (ms)" +:+ nl;
   "              min" +:+ tab +:+ "mean[+/-sd]" +:+ tab +:+ tab +:+ "median" +:+ tab +:+ "max" +:+ nl;
   "Total:        " +:+ fmt_d (minResponseTime rep) +:+ "     " +:+ tab +:+ fmt_d (meanOfResponseTime rep) +:+
     "   " +:+ plusminus +:+ fmt_f 2 sd +:+ " " +:+ tab +:+ " " +:+ fmt_d (medianOfResponseTime rep) +:+
     " " +:+ tab +:+ fmt_d (maxResponseTime rep) +:+ nl +:+ nl;
   "Percentage of the requests served within a certain time (ms)" +:+ nl] ++
  zip_with (fun p v => " " +:+ fmt_d p +:+ "%" +:+ tab +:+ " " +:+ fmt_d v +:+ nl) percentages (percentileTimes rep) ++
  [" " +:+ fmt_d 100 +:+ "%" +:+ tab +:+ " " +:+ fmt_d (maxResponseTime rep) +:+ " (longest request)" +:+ nl].

(** Lines 55-73: the failure summary. *)
Definition failed_writes (s : Stats) : list string :=
  if totalFailedReqeusts s =? 0 then ["Failed requests:        0" +:+ nl]
  else ["Failed requests:        " +:+ fmt_d (totalFailedReqeusts s) +:+ nl;
        "Failed types and avg Query Times(ms)" +:+ nl;
        "       " +:+ tab +:+ "Success" +:+ tab +:+ "Connect" +:+ tab +:+ "Receive" +:+ tab +:+
          "Response Length" +:+ tab +:+ "Exceptions" +:+ nl;
        "Total:" +:+ tab +:+ fmt_d (totalSuccess s) +:+ " " +:+ tab +:+ fmt_d (errConnect s) +:+ " " +:+ tab +:+
          fmt_d (errReceive s) +:+ " " +:+ tab +:+ fmt_d (errResponse s) +:+ " " +:+ tab +:+ " " +:+
          fmt_d (errLength s) +:+ " " +:+ tab +:+ fmt_d (errException s) +:+ nl;
        "Times:" +:+ tab +:+ fmt_f 2 (div_f (totalResponseTime s) (totalSuccess s)) +:+
          tab +:+ fmt_f 2 (div_f (ec_dur (errs s CatConnect)) (errConnect s)) +:+
          tab +:+ fmt_f 2 (div_f (ec_dur (errs s CatReceive)) (errReceive s)) +:+
          tab +:+ fmt_f 2 (div_f (ec_dur (errs s CatResponse)) (errResponse s)) +:+
          tab +:+ " " +:+ fmt_f 2 (div_f (ec_dur (errs s CatLength)) (errLength s)) +:+
          tab +:+ fmt_f 2 (div_f (ec_dur (errs s CatException)) (errException s)) +:+ nl;
        "   (Connect: " +:+ fmt_d (errConnect s) +:+ ", Receive: " +:+ fmt_d (errReceive s) +:+
          ", Response: " +:+ fmt_d (errResponse s) +:+ ", Length: " +:+ fmt_d (errLength s) +:+
          ", Exceptions: " +:+ fmt_d (errException s) +:+ ")" +:+ nl].

(** [PrintReport(context, stats)]: what it writes into the buffer. *)
Definition report_writes (cfg : ConfigExt) (c : Context) (s : Stats) : go (list string) :=
  let! server := GetString c FieldServerName in
  let! size := GetInt c FieldContentSize in
  let! lat := latency_report s in
  let! tail := match lat with
               | Some rep => let! sd := stdDev_f (responseTimeData s) in
                             Ok (latency_writes cfg s rep (sd / float64 1000000)%f64)
               | None => Ok []
               end in
  Ok ([nl +:+ nl;
       "Server Software:        " +:+ server +:+ nl;
       "Server Hostname:        " +:+ host cfg +:+ nl;
       "Server Port:            " +:+ fmt_d (port cfg) +:+ nl +:+ nl;
       "Document Path:          " +:+ RequestURI (url cfg) +:+ nl;
       "Document Length:        " +:+ fmt_d size +:+ " bytes" +:+ nl +:+ nl;
       "Concurrency Level:      " +:+ fmt_d (concurrency (core cfg)) +:+ nl;
       "Time taken for tests:   " +:+ fmt_f 6 (Seconds_f (totalExecutionTime s)) +:+ " seconds" +:+ nl;
       "Time taken in millis:   " +:+ fmt_d (totalResponseTime s ÷ Millisecond) +:+ " ms" +:+ nl;
       "Complete requests:      " +:+ fmt_d (totalRequests s) +:+ nl;
       "Success requests:       " +:+ fmt_d (totalSuccess s) +:+ nl] ++
      failed_writes s ++
      (if 0 <? errResponse s then ["Non-2xx responses:      " +:+ fmt_d (errResponse s) +:+ nl] else []) ++
      ["HTML transferred:       " +:+ fmt_d (totalReceived s) +:+ " bytes" +:+ nl] ++
      tail).

(** [fmt.Println(buffer.String())]: the text on standard output. *)
Definition report_output (cfg : ConfigExt) (c : Context) (s : Stats) : go string :=
  let! ws := report_writes cfg c s in
  Ok (buffer_string ws +:+ nl).

End Text.

(** ** Lemmas *)

Lemma stdDev_f_ok (data : list Z) : data <> [] -> exists x, stdDev_f data = Ok x.
Proof.
  intros H. destruct data as [|d data]; [congruence|].
  unfold stdDev_f, go_quot. cbn [length]. rewrite (proj2 (Z.eqb_neq _ 0)) by lia. cbn [go_then]. eauto.
Qed.

(** The latency block is printed exactly when its guard holds. *)
Lemma latency_report_guard (s : Stats) (lat : option LatencyReport) :
  latency_report s = Ok lat ->
  (exists rep, lat = Some rep) <-> responseTimeData s <> [] /\ 0 < totalResponseTime s.
Proof.
  unfold latency_report. intros H.
  destruct (responseTimeData s) as [|d data]; cbn [length Z.of_nat Z.ltb Z.compare andb] in H.
  - injection H as <-. split; [intros [? [=]]|intros [[] _]; reflexivity].
  - rewrite (proj2 (Z.ltb_lt 0 (Z.of_nat (S (length data))))) in H by lia.
    destruct (Z.ltb_spec 0 (totalResponseTime s)); cbn [andb] in H.
    + split; [split; [discriminate|lia]|intros _].
      repeat match type of H with go_then ?m _ = _ => destruct m; cbn [go_then] in H; [|discriminate] end.
      injection H as <-. eauto.
    + injection H as <-. split; [intros [? [=]]|lia].
Qed.

Lemma failed_writes_render (cfg : ConfigExt) (s : Stats) (sd : PrimFloat.float) :
  failed_writes s = map (render_line (float_env cfg s sd)) (failed_lines s).
Proof. unfold failed_writes, failed_lines. destruct (_ =? 0); reflexivity. Qed.

Lemma latency_writes_render (cfg : ConfigExt) (s : Stats) (rep : LatencyReport) (sd : PrimFloat.float) :
  latency_writes cfg s rep sd = map (render_line (float_env cfg s sd)) (latency_lines cfg s rep).
Proof. unfold latency_writes, latency_lines. rewrite !map_app, map_zip_with. reflexivity. Qed.

(** [stdDev] of equal latencies is exactly [+0] in [float64]. *)
Lemma stdDev_f_repeat (d : Z) (n : nat) :
  (1 <= n)%nat -> 0 < d -> Z.of_nat n * d <= int64_max -> stdDev_f (repeat d n) = Ok (float64 0).
Proof.
  intros Hn Hd Hmax. unfold stdDev_f. rewrite repeat_length, mean_repeat by lia. cbn [go_then].
  assert (Hd63 : 0 <= d < 2 ^ 63) by (unfold int64_max in *; nia).
  assert (Hf : forall k, fold_left (fun acc x => acc + Pow2 (float64 x - float64 d))%f64 (repeat d k) (float64 0) = float64 0).
  { induction k as [|k IH]; [reflexivity|]. cbn [repeat fold_left].
    rewrite float64_sub_self by exact Hd63.
    replace (float64 0 + Pow2 (float64 0))%f64 with (float64 0) by (vm_compute; reflexivity). exact IH. }
  rewrite Hf, float64_zero_div by (unfold int64_max in *; nia). vm_compute. reflexivity.
Qed.

(** What [%.Nf] prints of the values of a zero duration. *)
Lemma Seconds_f_zero : FloatOps.Prim2SF (Seconds_f 0) = SpecFloat.S754_zero false.
Proof. vm_compute. reflexivity. Qed.

Lemma fmt_f_Seconds_zero : fmt_f 6 (Seconds_f 0) = "0.000000".
Proof. vm_compute. reflexivity. Qed.

Lemma fmt_f_zero_ms : fmt_f 2 (float64 0 / float64 1000000)%f64 = "0.00".
Proof. vm_compute. reflexivity. Qed.

Lemma fmt_f_zero_by_zero : fmt_f 2 (float64 0 / Seconds_f 0)%f64 = "NaN".
Proof. vm_compute. reflexivity. Qed.

(** ** Properties *)

(** The text refines the lines.  [PrintReport] writes exactly the
    [ReportLine]s of [Printing.PrintReport], each with the format string
    of its call and the [float64] values the code computes, in the same
    order, and panics exactly when the line model panics, with the same
    message.  The standard deviation is [stdDev] of the latencies over
    [1e6] whenever [stdDev] returns. *)
Theorem report_writes_refines (RequestURI : string -> string) (cfg : ConfigExt) (c : Context) (s : Stats) :
  exists sd, (forall x, stdDev_f (responseTimeData s) = Ok x -> sd = (x / float64 1000000)%f64) /\
    report_writes RequestURI cfg c s =
      (let! lines := PrintReport RequestURI cfg c s in Ok (map (render_line (float_env cfg s sd)) lines)).
Proof.
  set (sd := match stdDev_f (responseTimeData s) with Ok x => (x / float64 1000000)%f64 | Panic _ => float64 0 end).
  exists sd. split; [intros x Hx; subst sd; rewrite Hx; reflexivity|].
  unfold report_writes, PrintReport.
  destruct (GetString c _); [|reflexivity]. destruct (GetInt c _); [|reflexivity]. cbn [go_then].
  destruct (latency_report s) as [[rep|]|] eqn:Hl; cbn [go_then]; [|idtac|reflexivity].
  - destruct (proj1 (latency_report_guard s _ Hl) (ex_intro _ rep eq_refl)) as [Hne _].
    destruct (stdDev_f_ok _ Hne) as [x Hx]. subst sd. rewrite Hx. cbn [go_then].
    rewrite latency_writes_render, (failed_writes_render cfg s (x / float64 1000000)%f64), !map_app.
    destruct (0 <? errResponse s); reflexivity.
  - rewrite (failed_writes_render cfg s sd), !map_app. destruct (0 <? errResponse s); reflexivity.
Qed.

(** C28: a zero elapsed time.  When the stop watch measured no time but
    the latency block is printed (some latency was recorded, the summed
    latency is positive), the report says the tests took [0.000000]
    seconds and prints the request rate as [+Inf] (a positive [int64]
    over a zero [float64]); the transfer rate is [0/0], printed as
    [NaN], when less than 1024 bytes were received, and [+Inf] otherwise. *)
Theorem report_zero_elapsed (RequestURI : string -> string) (cfg : ConfigExt) (c : Context) (s : Stats)
    (ws : list string) :
  report_writes RequestURI cfg c s = Ok ws ->
  responseTimeData s <> [] -> 0 < totalResponseTime s ->
  totalExecutionTime s = 0 -> 0 < totalRequests s < 2 ^ 63 ->
  In ("Time taken for tests:   " +:+ "0.000000" +:+ " seconds" +:+ nl) ws /\
  In ("Requests per second:    " +:+ "+Inf" +:+ " [#/sec] (mean)" +:+ nl) ws /\
  (0 <= totalReceived s < 1024 ->
   In ("HTML Transfer rate:     " +:+ "NaN" +:+ " [Kbytes/sec] received" +:+ nl +:+ nl) ws) /\
  (1024 <= totalReceived s < 2 ^ 63 ->
   In ("HTML Transfer rate:     " +:+ "+Inf" +:+ " [Kbytes/sec] received" +:+ nl +:+ nl) ws).
Proof.
  intros Hw Hne Hpos He Hn. unfold report_writes in Hw.
  destruct (GetString c _); [|discriminate]. destruct (GetInt c _); [|discriminate]. cbn [go_then] in Hw.
  destruct (latency_report s) as [lat|] eqn:Hl; [|discriminate]. cbn [go_then] in Hw.
  destruct (proj2 (latency_report_guard s lat Hl) (conj Hne Hpos)) as [rep ->].
  destruct (stdDev_f_ok _ Hne) as [x Hx]. rewrite Hx in Hw. cbn [go_then] in Hw.
  injection Hw as <-. unfold latency_writes. cbv zeta. rewrite He, fmt_f_Seconds_zero.
  rewrite (float64_div_zero (totalRequests s) (Seconds_f 0) 2 Hn Seconds_f_zero).
  split; [in_report|]. split; [in_report|]. split; intros Hr.
  - rewrite (Z.quot_small (totalReceived s) 1024 Hr), fmt_f_zero_by_zero. in_report.
  - rewrite (float64_div_zero (totalReceived s ÷ 1024) (Seconds_f 0) 2) by
      (first [apply Seconds_f_zero | lia_div]).
    in_report.
Qed.

(** One successful request of 50 ms and 512 bytes, in statistics whose
    execution time was never set. *)
Definition zero_elapsed_stats : Stats :=
  fold_left updateStats [mkRecord (50 * Millisecond) 512 None] newStats.

Lemma report_zero_elapsed_witness :
  exists ws, report_writes (fun u => u) example_print_cfg example_print_context zero_elapsed_stats = Ok ws /\
    In ("Requests per second:    " +:+ "+Inf" +:+ " [#/sec] (mean)" +:+ nl) ws /\
    In ("HTML Transfer rate:     " +:+ "NaN" +:+ " [Kbytes/sec] received" +:+ nl +:+ nl) ws.
Proof.
  destruct (report_writes (fun u => u) example_print_cfg example_print_context zero_elapsed_stats)
    as [ws|msg] eqn:Hw; [|vm_compute in Hw; discriminate].
  exists ws. split; [reflexivity|].
  destruct (report_zero_elapsed (fun u => u) example_print_cfg example_print_context zero_elapsed_stats ws Hw)
    as (_ & Hrps & Hrate & _); [vm_compute; discriminate|vm_compute; reflexivity|vm_compute; reflexivity
                           |split; vm_compute; reflexivity|].
  split; [exact Hrps|apply Hrate; split; vm_compute; congruence].
Defined.
