(* ===== verification/Campaign.v ===== *)
(** * A campaign, from the monitor's loop to the printed report

    The components meet here.  [Monitor.Run] consumes the records the
    workers send, times the campaign with its stop watch, closes [stop]
    and hands its [Stats] over on [Output]; the reporting consumer then
    calls [PrintReport(context, stats)] with the probe facts that
    [DetectHost] stored in the context.  That consumer (the program's
    [main]) is not under [src/]: [campaign_report] is the composition the
    spec describes ("Reporting consumer: receives RunningStats ... plus
    the campaign's LoadPlan and probe facts").

    [RunCustom_setup] is [Benchmark.RunCustom] up to [close(jobs)] over
    the real [NewHTTPWorker], [NewHTTPRequest] and [CopyHTTPRequest]: it
    refines the dispatcher model of [Benchmark] ([RunCustom_jobs]), and
    a malformed [-H] makes it panic.

    The end-to-end theorem is the spec's scenario, for any size: [N]
    requests that all succeed with the same latency [d] give a report
    with [N] complete and successful requests, no failure, the stop
    watch's time, and [d] (in milliseconds) as minimum, mean, median,
    maximum and every percentile, with a deviation of zero; stated of
    the lines of [Printing] ([end_to_end_uniform]) and of the text that
    [Render] writes ([end_to_end_report_text], where the deviation is
    computed in [float64] and printed as [0.00]). *)

From Stdlib Require Import QArith Ascii.
From S2P Require Import Prelude Types Context Stats StopWatch Monitor Worker Report Benchmark Config Request Printing GoFloat Render.

(** [stats := <-monitor.Output] then [PrintReport(context, stats)];
    [None] while the monitor is still blocked or its loop has not
    stopped. *)
Definition campaign_report (RequestURI : string -> string) (cfg : ConfigExt) (g : Globals) (c : Context)
    (t0 t1 : Z) (evs : list MonitorEvent) : go (option (list ReportLine)) :=
  let! res := monitor_run g c t0 t1 evs in
  match res with
  | None => Ok None
  | Some (c', stats, _) =>
      let! lines := PrintReport RequestURI cfg c' stats in
      Ok (Some lines)
  end.

(** The same consumer at the level of the text: what [PrintReport]
    writes into its buffer. *)
Definition campaign_output (RequestURI : string -> string) (cfg : ConfigExt) (g : Globals) (c : Context)
    (t0 t1 : Z) (evs : list MonitorEvent) : go (option (list string)) :=
  let! res := monitor_run g c t0 t1 evs in
  match res with
  | None => Ok None
  | Some (c', stats, _) =>
      let! ws := report_writes RequestURI cfg c' stats in
      Ok (Some ws)
  end.

(** [h.Custom = custom]. *)
Definition with_Custom (h : HTTPWorker) (cu : option ResultHandler) : HTTPWorker :=
  mkHTTPWorker (hw_c h) (hw_client h) (hw_jobs h) (hw_collector h) (hw_discard h) cu.

(** [RunCustom(custom)] up to [close(jobs)]: [jobs := make(chan
    *http.Request, reqscount)] (named [jobs] here, and which panics when
    [reqscount] is negative or too large), the [concurrency] workers
    (each [NewHTTPWorker] with [h.Custom = custom]), the base request
    ([custom.Prepare(config, nil, 0)], or [NewHTTPRequest(config)] whose
    error is dropped, leaving [base] nil), and the [reqscount] jobs
    ([custom.Prepare(config, base, i)], or [CopyHTTPRequest(config,
    base)], which dereferences [base]).  A panic in the dispatcher
    goroutine ends the program. *)
Definition RunCustom_setup (url_Parse : string -> URL + string) (cfg : ConfigExt) (c : Context)
    (custom : option (CustomRequest Request)) (jobs collector : ChanId) : go (list HTTPWorker * list Request) :=
  let! _ := (make_chan (reqscount (config c)) : go (Chan Request)) in
  let! ws := mapM (fun _ => let! h := NewHTTPWorker cfg c jobs collector in
                            Ok (with_Custom h (option_map (fun cr => @HandleResult _ cr) custom)))
                  (seq 0 (Z.to_nat (concurrency (config c)))) in
  let! base := match custom with
               | Some cr => Ok (Some (@Prepare _ cr (config c) None 0).1)
               | None => let! r := NewHTTPRequest url_Parse cfg in
                         Ok (match r with inl rq => Some rq | inr _ => None end)
               end in
  let! js := mapM (fun i => match custom with
                            | Some cr => Ok (@Prepare _ cr (config c) base (Z.of_nat i)).1
                            | None =>
                                match base with
                                | Some b => Ok (CopyHTTPRequest cfg b)
                                | None => Panic "runtime error: invalid memory address or nil pointer dereference"
                                end
                            end) (seq 0 (Z.to_nat (reqscount (config c)))) in
  Ok (ws, js).

(** ** Lemmas *)

(** [Monitor.Run] changes neither the probe facts nor the configuration. *)
Lemma monitor_run_store (g : Globals) (c c' : Context) (t0 t1 : Z) (evs : list MonitorEvent)
    (s : Stats) (why : StopReason) :
  monitor_run g c t0 t1 evs = Ok (Some (c', s, why)) -> store c' = store c.
Proof.
  unfold monitor_run. destruct (wg_released (start c)); cbn [negb]; [|discriminate].
  unfold startRun_Done. destruct (wg_Done (startRun c)) as [wg|m]; cbn [go_then]; [|discriminate].
  destruct (monitor_loop _ _ _ _) as [[[st w]|]|m]; cbn [go_then]; try discriminate.
  unfold close_stop. cbn [stop_closed]. destruct (stop_closed c); cbn [go_then]; [discriminate|].
  intros H. injection H as <- _ _. reflexivity.
Qed.

Lemma GetString_same_store (c c' : Context) (k : string) :
  store c' = store c -> GetString c' k = GetString c k.
Proof. intros H. unfold GetString. by rewrite H. Qed.

Lemma GetInt_same_store (c c' : Context) (k : string) :
  store c' = store c -> GetInt c' k = GetInt c k.
Proof. intros H. unfold GetInt. by rewrite H. Qed.

(** Recording the elapsed time does not change the latency block. *)
Lemma latency_report_set_time (s : Stats) (e : Z) :
  latency_report (set_totalExecutionTime s e) = latency_report s.
Proof. reflexivity. Qed.

Lemma uniform_records_ok (d cs : Z) (n : nat) (g : Globals) :
  Forall (fun r => is_error r && negb (ContinueOnError g) = false) (uniform_records d cs n).
Proof. unfold uniform_records. apply List.Forall_forall. intros r Hr%repeat_spec. by subst. Qed.

(** The worker [NewHTTPWorker] builds once the probe stored a size. *)
Lemma NewHTTPWorker_ok (cfg : ConfigExt) (c : Context) (jobs collector : ChanId) (n : Z) :
  GetInt c FieldContentSize = Ok n -> 0 <= n ->
  NewHTTPWorker cfg c jobs collector =
    Ok (mkHTTPWorker c (NewClient cfg) jobs collector (Z.min n MaxBufferSize) None).
Proof.
  intros Hn Hpos. unfold NewHTTPWorker, NewHTTPWorker_buffer. rewrite Hn. cbn [go_then].
  unfold MaxBufferSize. destruct (Z.ltb_spec n 8192).
  - rewrite (proj2 (Z.ltb_ge n 0) Hpos), Z.min_l by lia. reflexivity.
  - rewrite Z.min_r by lia. reflexivity.
Qed.

(** ** Properties *)

(** End to end.  A campaign of [N >= 1] requests, started once the
    barrier is open, whose first [N] records all succeed with the same
    latency [d] (the sum fitting in an [int64]), stops at the count,
    and the report then printed shows the probed server, [N] complete
    and [N] successful requests, no failure, the time the stop watch
    measured, and [d] in whole milliseconds as minimum, mean, median,
    maximum, every percentile and the longest request, with a standard
    deviation of zero. *)
Theorem end_to_end_uniform (RequestURI : string -> string) (cfg : ConfigExt) (g : Globals) (c : Context)
    (t0 t1 d cs : Z) (N : nat) (rest : list MonitorEvent) (srv : string) (sz : Z) :
  config c = core cfg -> requests (core cfg) = Z.of_nat N -> (1 <= N)%nat ->
  0 < d -> Z.of_nat N * d <= int64_max ->
  wg_released (start c) = true -> wg_counter (startRun c) = 1 -> stop_closed c = false ->
  GetString c FieldServerName = Ok srv -> GetInt c FieldContentSize = Ok sz ->
  0 <= t0 <= t1 -> t1 <= int64_max ->
  exists lines,
    campaign_report RequestURI cfg g c t0 t1 (map MRecord (uniform_records d cs N) ++ rest) = Ok (Some lines) /\
    In (LServerSoftware srv) lines /\ In (LComplete (Z.of_nat N)) lines /\
    In (LSuccess (Z.of_nat N)) lines /\ In LFailedZero lines /\
    In (LTimeTaken (Seconds (t1 - t0))) lines /\
    (exists q, In (LConnTimesTotal (d ÷ Millisecond) (d ÷ Millisecond) q (d ÷ Millisecond) (d ÷ Millisecond)) lines /\
               (q == 0)%Q) /\
    Forall (fun p => In (LPercentile p (d ÷ Millisecond)) lines) percentages /\
    In (LLongest (d ÷ Millisecond)) lines.
Proof.
  intros Hcfg Hreq HN Hd Hmax Hrel Hsr Hstop Hsrv Hsz Ht Ht1.
  destruct (loop_stops_at_count (config c) g (uniform_records d cs N) rest) as (st & Hloop & Hst & _);
    [rewrite Hcfg, Hreq; lia | unfold uniform_records; rewrite repeat_length, Hcfg, Hreq; lia |
     apply uniform_records_ok |].
  destruct (run_shutdown g c t0 t1 _ st ByCount Hrel Hsr Hstop Hloop) as (c' & Hrun & _).
  pose proof (monitor_run_store _ _ _ _ _ _ _ _ Hrun) as Hstore.
  destruct (uniform_latency d cs N HN Hd Hmax) as (rep & Hlat & Hmin & Hmean & Hmed & Hmx & Hsd & Hps).
  destruct (uniform_stats d cs N) as (_ & Htot & Hfail & _).
  destruct (fold_updateStats_wf (uniform_records d cs N) newStats newStats_wf) as (Hwf & _).
  rewrite Hst in *. set (s0 := fold_left updateStats (uniform_records d cs N) newStats) in *.
  unfold campaign_report. rewrite Hrun. cbn [go_then].
  unfold PrintReport. rewrite (GetString_same_store c c' _ Hstore), Hsrv,
    (GetInt_same_store c c' _ Hstore), Hsz, latency_report_set_time, Hlat. cbn [go_then].
  eexists. split; [reflexivity|].
  assert (Hsub : subMono t1 t0 = t1 - t0)
    by (rewrite subMono_clamp by (unfold in_int64, int64_min in *; lia); unfold int64_min; lia).
  unfold set_totalExecutionTime, failed_lines, latency_lines.
  cbn [totalRequests totalSuccess totalFailedReqeusts totalExecutionTime].
  rewrite Htot, Hfail, Hsub, Hmin, Hmean, Hmed, Hmx, Hps. replace (totalSuccess s0) with (Z.of_nat N) by lia.
  cbn [Z.eqb]. repeat split; try in_report.
  - exists (stdDevSq rep / inject_Z (Millisecond * Millisecond))%Q. split; [in_report|].
    unfold Qdiv. rewrite Hsd. apply Qmult_0_l.
  - unfold percentages. repeat (apply List.Forall_cons; [in_report|]). apply List.Forall_nil.
Qed.

(** The spec's scenario: 100 requests on 10 workers, all of 50ms. *)
Definition scenario_cfg : ConfigExt :=
  mkConfigExt (mkConfig 100 10 0 MaxExecutionTimeout false false false) "GET" None "text/plain"
    [] [] "" "GoHttpBench" None "http://example.com/" "example.com" 80.

Definition scenario_context : Context :=
  SetInt (SetString (mkContext (core scenario_cfg) (mkWaitGroup 0) (mkWaitGroup 1) false ∅)
            FieldServerName "nginx") FieldContentSize 1024.

Lemma end_to_end_uniform_witness :
  exists lines,
    campaign_report (fun u => u) scenario_cfg (mkGlobals 0 1 false) scenario_context 0 Second
      (map MRecord (uniform_records (50 * Millisecond) 1024 100)) = Ok (Some lines) /\
    In (LComplete 100) lines /\ In (LLongest 50) lines.
Proof.
  destruct (end_to_end_uniform (fun u => u) scenario_cfg (mkGlobals 0 1 false) scenario_context 0 Second
              (50 * Millisecond) 1024 100 [] "nginx" 1024)
    as (lines & Hl & _ & Hc & _ & _ & _ & _ & _ & Hmax);
    try reflexivity; try (unfold Second, Millisecond, int64_max; lia).
  exists lines. rewrite app_nil_r in Hl. split; [exact Hl|]. split; [exact Hc|exact Hmax].
Defined.

(** C26: end to end, as printed.  In the same scenario, the text the
    report writes shows the probed server, [N] complete and [N]
    successful requests, ["Failed requests:        0"], the stop
    watch's time with six decimals, the line of connection times with
    [d] in milliseconds as min, mean, median and max and a deviation
    printed as [0.00], and [d] in milliseconds for every percentile and
    the longest request. *)
Theorem end_to_end_report_text (RequestURI : string -> string) (cfg : ConfigExt) (g : Globals) (c : Context)
    (t0 t1 d cs : Z) (N : nat) (rest : list MonitorEvent) (srv : string) (sz : Z) :
  config c = core cfg -> requests (core cfg) = Z.of_nat N -> (1 <= N)%nat ->
  0 < d -> Z.of_nat N * d <= int64_max ->
  wg_released (start c) = true -> wg_counter (startRun c) = 1 -> stop_closed c = false ->
  GetString c FieldServerName = Ok srv -> GetInt c FieldContentSize = Ok sz ->
  0 <= t0 <= t1 -> t1 <= int64_max ->
  let ms := fmt_d (d ÷ Millisecond) in
  exists ws,
    campaign_output RequestURI cfg g c t0 t1 (map MRecord (uniform_records d cs N) ++ rest) = Ok (Some ws) /\
    In ("Server Software:        " +:+ srv +:+ nl) ws /\
    In ("Complete requests:      " +:+ fmt_d (Z.of_nat N) +:+ nl) ws /\
    In ("Success requests:       " +:+ fmt_d (Z.of_nat N) +:+ nl) ws /\
    In ("Failed requests:        0" +:+ nl) ws /\
    In ("Time taken for tests:   " +:+ fmt_f 6 (Seconds_f (t1 - t0)) +:+ " seconds" +:+ nl) ws /\
    In ("Total:        " +:+ ms +:+ "     " +:+ tab +:+ ms +:+ "   " +:+ plusminus +:+ "0.00" +:+ " " +:+ tab +:+
        " " +:+ ms +:+ " " +:+ tab +:+ ms +:+ nl +:+ nl) ws /\
    Forall (fun p => In (" " +:+ fmt_d p +:+ "%" +:+ tab +:+ " " +:+ ms +:+ nl) ws) percentages /\
    In (" " +:+ fmt_d 100 +:+ "%" +:+ tab +:+ " " +:+ ms +:+ " (longest request)" +:+ nl) ws.
Proof.
  intros Hcfg Hreq HN Hd Hmax Hrel Hsr Hstop Hsrv Hsz Ht Ht1 ms. subst ms.
  destruct (loop_stops_at_count (config c) g (uniform_records d cs N) rest) as (st & Hloop & Hst & _);
    [rewrite Hcfg, Hreq; lia | unfold uniform_records; rewrite repeat_length, Hcfg, Hreq; lia |
     apply uniform_records_ok |].
  destruct (run_shutdown g c t0 t1 _ st ByCount Hrel Hsr Hstop Hloop) as (c' & Hrun & _).
  pose proof (monitor_run_store _ _ _ _ _ _ _ _ Hrun) as Hstore.
  destruct (uniform_latency d cs N HN Hd Hmax) as (rep & Hlat & Hmin & Hmean & Hmed & Hmx & _ & Hps).
  destruct (uniform_stats d cs N) as (Hdata & Htot & Hfail & _).
  destruct (fold_updateStats_wf (uniform_records d cs N) newStats newStats_wf) as (Hwf & _).
  rewrite Hst in *. set (s0 := fold_left updateStats (uniform_records d cs N) newStats) in *.
  unfold campaign_output. rewrite Hrun. cbn [go_then].
  unfold report_writes. rewrite (GetString_same_store c c' _ Hstore), Hsrv,
    (GetInt_same_store c c' _ Hstore), Hsz, latency_report_set_time, Hlat. cbn [go_then].
  unfold set_totalExecutionTime. cbn [responseTimeData totalRequests totalSuccess totalFailedReqeusts totalExecutionTime].
  rewrite Hdata, stdDev_f_repeat by assumption. cbn [go_then].
  eexists. split; [reflexivity|].
  assert (Hsub : subMono t1 t0 = t1 - t0)
    by (rewrite subMono_clamp by (unfold in_int64, int64_min in *; lia); unfold int64_min; lia).
  unfold failed_writes, latency_writes. cbv zeta.
  rewrite Htot, Hfail, Hsub, Hmin, Hmean, Hmed, Hmx, Hps, fmt_f_zero_ms.
  replace (totalSuccess s0) with (Z.of_nat N) by lia.
  cbn [Z.eqb]. repeat split; try in_report.
  unfold percentages. repeat (apply List.Forall_cons; [in_report|]). apply List.Forall_nil.
Qed.

Lemma end_to_end_report_text_witness :
  exists ws,
    campaign_output (fun u => u) scenario_cfg (mkGlobals 0 1 false) scenario_context 0 Second
      (map MRecord (uniform_records (50 * Millisecond) 1024 100)) = Ok (Some ws) /\
    In ("Complete requests:      " +:+ fmt_d 100 +:+ nl) ws /\
    In ("Time taken for tests:   " +:+ fmt_f 6 (Seconds_f (Second - 0)) +:+ " seconds" +:+ nl) ws.
Proof.
  destruct (end_to_end_report_text (fun u => u) scenario_cfg (mkGlobals 0 1 false) scenario_context 0 Second
              (50 * Millisecond) 1024 100 [] "nginx" 1024)
    as (ws & Hw & _ & Hc & _ & _ & Ht & _);
    try reflexivity; try (unfold Second, Millisecond, int64_max; lia).
  exists ws. rewrite app_nil_r in Hw. split; [exact Hw|]. split; [exact Hc|exact Ht].
Defined.

(** C22: the dispatcher of [RunCustom] refines its model.  Once the probe
    has stored a size [n >= 0], [jobs] can be made (its capacity
    [reqscount] is not negative and its buffer fits the runtime's
    allocation bound), and the base request can be built when no
    strategy is given, [RunCustom] creates [concurrency] workers over
    the context, all sharing the [jobs] and [collector] channels and the
    client of [NewClient], each with a buffer of [min(n, 8192)] bytes
    and the strategy's [HandleResult] as its custom handler,
    and queues exactly the jobs of [Benchmark.RunCustom_jobs] instantiated
    with the real requests: the strategy's [Prepare(config, base, i)],
    or copies of the base request. *)
Theorem RunCustom_refines (url_Parse : string -> URL + string) (cfg : ConfigExt) (c : Context)
    (custom : option (CustomRequest Request)) (jobs collector : ChanId) (n : Z) (base : Request) :
  GetInt c FieldContentSize = Ok n -> 0 <= n ->
  0 <= reqscount (config c) -> 8 * reqscount (config c) <= maxAlloc - hchanSize ->
  (custom = None -> NewHTTPRequest url_Parse cfg = Ok (inl base)) ->
  exists ws js, RunCustom_setup url_Parse cfg c custom jobs collector = Ok (ws, js) /\
    length ws = Z.to_nat (concurrency (config c)) /\
    Forall (fun w => hw_c w = c /\ hw_jobs w = jobs /\ hw_collector w = collector /\
                     hw_client w = NewClient cfg /\ hw_discard w = Z.min n MaxBufferSize /\
                     hw_Custom w = option_map (fun cr => @HandleResult _ cr) custom) ws /\
    js = RunCustom_jobs (fun _ => base) (fun _ b => CopyHTTPRequest cfg b) custom (config c).
Proof.
  intros Hn Hpos Hq0 Hq Hbase. pose proof (NewHTTPWorker_ok cfg c jobs collector n Hn Hpos) as Hw.
  set (w := with_Custom (mkHTTPWorker c (NewClient cfg) jobs collector (Z.min n MaxBufferSize) None)
                        (option_map (fun cr => @HandleResult _ cr) custom)).
  assert (Hws : forall k : nat, exists ws, mapM (fun _ : nat => let! h := NewHTTPWorker cfg c jobs collector in
                   Ok (with_Custom h (option_map (fun cr => @HandleResult _ cr) custom))) (seq 0 k) = Ok ws /\
                   length ws = k /\ Forall (fun x => x = w) ws).
  { intros k. exists (map (fun _ => w) (seq 0 k)).
    rewrite (go_mapM_Ok _ (fun _ => w)) by (intros; rewrite Hw; reflexivity).
    split; [done|]. rewrite length_map, length_seq. split; [done|].
    apply List.Forall_forall. intros x (? & -> & _)%in_map_iff. reflexivity. }
  destruct (Hws (Z.to_nat (concurrency (config c)))) as (ws & Hmap & Hlen & Hall).
  exists ws. unfold RunCustom_setup. rewrite make_chan_ok by assumption. cbn [go_then]. rewrite Hmap. cbn [go_then].
  destruct custom as [cr|]; cbn [go_then].
  - eexists. rewrite (go_mapM_Ok _ (fun i => (@Prepare _ cr (config c) (Some (@Prepare _ cr (config c) None 0).1)
                                                (Z.of_nat i)).1)) by reflexivity.
    cbn [go_then]. split; [reflexivity|]. split; [done|]. split; [|reflexivity].
    eapply List.Forall_impl; [|exact Hall]. intros x ->. repeat split.
  - rewrite (Hbase eq_refl). cbn [go_then].
    eexists. rewrite (go_mapM_Ok _ (fun _ => CopyHTTPRequest cfg base)) by reflexivity.
    cbn [go_then]. split; [reflexivity|]. split; [done|]. split; [|reflexivity].
    eapply List.Forall_impl; [|exact Hall]. intros x ->. repeat split.
Qed.

(** C30: a malformed [-H] crashes the campaign.  Without a strategy, when
    the probe stored a size, [jobs] can be made and the URL parses, a
    [-H] value without [':'] (after values that have one) makes
    [RunCustom] panic with an index out of range once the workers are
    started and before any job is queued: the dispatcher goroutine
    panics and the program ends. *)
Theorem RunCustom_header_panics (url_Parse : string -> URL + string) (cfg : ConfigExt) (c : Context)
    (jobs collector : ChanId) (n : Z) (u : URL) (pre : list string) (h : string) (post : list string) :
  GetInt c FieldContentSize = Ok n -> 0 <= n ->
  0 <= reqscount (config c) -> 8 * reqscount (config c) <= maxAlloc - hchanSize ->
  url_Parse (url cfg) = inl u -> headers cfg = pre ++ h :: post ->
  Forall (fun x => has_byte ":"%char x = true) pre -> has_byte ":"%char h = false ->
  RunCustom_setup url_Parse cfg c None jobs collector = Panic "runtime error: index out of range [1] with length 1".
Proof.
  intros Hn Hpos Hq0 Hq Hu Hh Hpre Hno. pose proof (NewHTTPWorker_ok cfg c jobs collector n Hn Hpos) as Hw.
  unfold RunCustom_setup. rewrite make_chan_ok by assumption. cbn [go_then].
  rewrite (go_mapM_Ok _ (fun _ => with_Custom (mkHTTPWorker c (NewClient cfg) jobs collector
                                                 (Z.min n MaxBufferSize) None) None))
    by (intros; rewrite Hw; reflexivity).
  cbn [go_then]. rewrite (NewHTTPRequest_panics_on_header url_Parse cfg u pre h post Hu Hh Hpre Hno).
  reflexivity.
Qed.

(** [url.Parse] on the scenario's URL. *)
Definition example_url_Parse (s : string) : URL + string := inl (mkURL "http" "example.com").

Lemma RunCustom_refines_witness :
  exists ws js, RunCustom_setup example_url_Parse scenario_cfg scenario_context None 0%nat 1%nat = Ok (ws, js) /\
    length ws = 10%nat /\ length js = 100%nat.
Proof.
  destruct (NewHTTPRequest example_url_Parse scenario_cfg) as [[base|e]|m] eqn:Hb;
    [|vm_compute in Hb; discriminate..].
  destruct (RunCustom_refines example_url_Parse scenario_cfg scenario_context None 0%nat 1%nat 1024 base)
    as (ws & js & H & Hl & _ & Hjs); [reflexivity | lia | vm_compute; discriminate.. | intros _; exact Hb |].
  exists ws, js. split; [exact H|]. split; [rewrite Hl; reflexivity|].
  rewrite Hjs, length_RunCustom_jobs. reflexivity.
Defined.

Lemma RunCustom_header_panics_witness :
  RunCustom_setup example_url_Parse (example_request_cfg ["X-Test"]) scenario_context None 0%nat 1%nat =
    Panic "runtime error: index out of range [1] with length 1".
Proof.
  apply (RunCustom_header_panics example_url_Parse (example_request_cfg ["X-Test"]) scenario_context 0%nat 1%nat 1024
           (mkURL "http" "example.com") [] "X-Test" []); try reflexivity; [lia | vm_compute; discriminate.. | constructor].
Defined.
